(** * Market-making decision and risk engine: price oracle, circuit breaker,
    rug-pull risk scorer, inventory ledger and quoting engine.

  A shallow embedding of the TypeScript classes
    - PriceAggregator      (src/pricing/PriceAggregator.ts)
    - CircuitBreaker       (safety/CircuitBreaker.ts)
    - RugPullDetector      (src/safety/RugPullDetector.ts)
    - BNMath               (utils/BNMath.ts)
    - MarketMaker          (the market maker engine)
    - SpreadController     (strategies/SpreadController.ts)
    - StrategyIntegration  (strategies/StrategyIntegration.ts)
    - VolatilityFilter     (src/strategies/VolatilityFilter.ts)
  each in a module of its name; the order-lifecycle methods of the engine
  are in the module OrderLifecycle.

  Numbers.  A JavaScript [number] is modelled as an exact rational [Q]:
  every quantity the properties below talk about is built from [+], [-],
  [*], [/], [Math.abs], [Math.min], [Math.max] and comparisons, and is
  read up to rational equality [==].  Rounding of binary64 arithmetic is
  not modelled; neither are NaN and the infinities, so a division by zero
  (which yields 0 in [Q]) is pointed out wherever the source can reach
  one.  The one place where a number is cut to an integer,
  [Math.floor(percent * 100)] in [BNMath.percentage], is sensitive to
  that rounding: there the number is a binary64 value (a primitive
  [float]) and the product the binary64 product.  [bn.js] big integers
  are [Z], with [div] truncating towards zero ([Z.quot]) and throwing on
  a zero divisor.

  Time.  [Date.now()] is an explicit argument [now : Z] (milliseconds).

  Effects.  Mutable object fields become explicit state records that each
  operation takes and returns; a thrown exception is a value of a result
  type.  The timer and the pending callbacks of [gradualResume] are run
  from an explicit list of event-loop events. *)

From stdpp Require Import base option list gmap strings.
From Stdlib Require Import ZArith QArith Qabs Lqa Lia Sorted Permutation.
From Stdlib Require Import Floats.

#[local] Set Warnings "-inexact-float".

#[local] Open Scope Q_scope.

(** ** JavaScript number helpers *)

Module Num.

(** [a < b] and [a <= b] as booleans. *)
Definition ltb (a b : Q) : bool := negb (Qle_bool b a).
Definition leb (a b : Q) : bool := Qle_bool a b.
Definition gtb (a b : Q) : bool := ltb b a.
Definition geb (a b : Q) : bool := leb b a.

(** [a === 0] on numbers. *)
Definition is_zero (a : Q) : bool := Qeq_bool a 0.

(** Truthiness of a [number]: every number but 0 (and NaN) is truthy. *)
Definition truthy (a : Q) : bool := negb (is_zero a).

(** [if (o) ... o ...]: the value of a truthy field, for use in the
    guarded branch. *)
Definition if_truthy (o : option Q) : option Q :=
  match o with
  | Some a => if truthy a then Some a else None
  | None => None
  end.

(** [x || d] on numbers: the default replaces a falsy value. *)
Definition or_default (o : option Q) (d : Q) : Q :=
  match o with
  | Some a => if truthy a then a else d
  | None => d
  end.

Definition of_bool (b : bool) : Q := if b then 1 else 0.

Definition min (a b : Q) : Q := if leb a b then a else b.
Definition max (a b : Q) : Q := if leb a b then b else a.

(** [xs.reduce((s, x) => s + x, 0)] *)
Definition sum (xs : list Q) : Q := fold_left Qplus xs 0.

(** Insertion into an ascending list, and [xs.sort((a, b) => a - b)]. *)
Fixpoint insert_asc (x : Q) (xs : list Q) : list Q :=
  match xs with
  | [] => [x]
  | y :: ys => if leb x y then x :: xs else y :: insert_asc x ys
  end.

Fixpoint sort_asc (xs : list Q) : list Q :=
  match xs with
  | [] => []
  | x :: ys => insert_asc x (sort_asc ys)
  end.

(** [Math.abs(a / b) > c] as JavaScript evaluates it, the zero divisor
    included: 0 / 0 is NaN, which compares false, and a non-zero number
    over 0 is an infinity, whose absolute value exceeds every number. *)
Definition abs_div_gtb (a b c : Q) : bool :=
  if is_zero b then negb (is_zero a)
  else gtb (Qabs (a / b)) c.

End Num.

(** ** Result of a call that may throw *)

Inductive result (E A : Type) : Type :=
| Ok (a : A)
| Throw (e : E).
Arguments Ok {E A} a.
Arguments Throw {E A} e.

(** ** Price oracle: src/pricing/PriceAggregator.ts *)

Module PriceAggregator.

Record PriceData : Type := mkPriceData {
  price : Q;
  source : string;
  confidence : Q;
  timestamp : Z
}.

Record AggregatedPrice : Type := mkAggregatedPrice {
  midPrice : Q;
  bestBid : Q;
  bestAsk : Q;
  sources : list PriceData;
  aggConfidence : Q;
  aggTimestamp : Z
}.

Record PriceAggregatorConfig : Type := mkConfig {
  cacheDurationMs : Z;
  minSources : nat;
  maxPriceDeviationPercent : Q;
  spreadPercent : Q;
  enableCircuitBreaker : bool;
  circuitBreakerThresholdPercent : Q
}.

(** The two mutable fields of the class. *)
Record State : Type := mkState {
  cache : gmap string AggregatedPrice;
  lastPrice : option Q
}.

Definition initial : State := {| cache := ∅; lastPrice := None |}.

(** What the four feeds answer in one call: [Some p] for a number,
    [None] for [null], [undefined] or a rejected promise. *)
Record Feeds : Type := mkFeeds {
  jupiter : option Q;
  pyth : option Q;
  birdeye : option Q;
  dexscreener : option Q
}.

Inductive Error : Type :=
| InsufficientSources (available required : nat).

(** The common body of [fetchJupiterPrice], [fetchPythPrice],
    [fetchBirdeyePrice] and [fetchDexscreenerPrice]:
    [if (price && price > 0 && isFinite(price)) return {...}; return null]. *)
Definition fetchPrice (src : string) (conf : Q) (now : Z)
    (raw : option Q) : option PriceData :=
  match raw with
  | Some p =>
      if Num.truthy p && Num.gtb p 0
      then Some {| price := p; source := src; confidence := conf;
                   timestamp := now |}
      else None
  | None => None
  end.

Definition fetchJupiterPrice := fetchPrice "jupiter" 0.9.
Definition fetchPythPrice := fetchPrice "pyth" 0.95.
Definition fetchBirdeyePrice := fetchPrice "birdeye" 0.85.
Definition fetchDexscreenerPrice := fetchPrice "dexscreener" 0.8.

(** [Promise.allSettled] over the four fetches, keeping the fulfilled
    non-null values in order. *)
Definition validPrices (now : Z) (f : Feeds) : list PriceData :=
  omap id [ fetchJupiterPrice now (jupiter f);
            fetchPythPrice now (pyth f);
            fetchBirdeyePrice now (birdeye f);
            fetchDexscreenerPrice now (dexscreener f) ].

Definition calculateMedian (values : list Q) : Q :=
  match values with
  | [] => 0
  | _ =>
      let sorted := Num.sort_asc values in
      let mid := (length sorted / 2)%nat in
      if (length sorted mod 2 =? 0)%nat
      then (nth (mid - 1) sorted 0 + nth mid sorted 0) / 2
      else nth mid sorted 0
  end.

(** Sources are an empty list only when every sample was filtered out;
    the source then divides 0 by 0 (NaN), which reads 0 here. *)
Definition createAggregatedPrice (cfg : PriceAggregatorConfig) (now : Z)
    (mid : Q) (srcs : list PriceData) : AggregatedPrice :=
  let spreadHalf := spreadPercent cfg / 100 / 2 in
  let avgConfidence :=
    Num.sum (map confidence srcs) / inject_Z (Z.of_nat (length srcs)) in
  {| midPrice := mid;
     bestBid := mid * (1 - spreadHalf);
     bestAsk := mid * (1 + spreadHalf);
     sources := srcs;
     aggConfidence := avgConfidence;
     aggTimestamp := now |}.

Definition createFallbackPrice (cfg : PriceAggregatorConfig) (now : Z)
    (p : Q) : AggregatedPrice :=
  let spreadHalf := spreadPercent cfg / 100 / 2 in
  {| midPrice := p;
     bestBid := p * (1 - spreadHalf);
     bestAsk := p * (1 + spreadHalf);
     sources := [ {| price := p; source := "fallback"; confidence := 0.5;
                     timestamp := now |} ];
     aggConfidence := 0.5;
     aggTimestamp := now |}.

(** The cache check at the head of [getPrice]. *)
Definition cacheLookup (cfg : PriceAggregatorConfig) (st : State)
    (cacheKey : string) (forceRefresh : bool) (now : Z)
    : option AggregatedPrice :=
  if forceRefresh then None
  else match cache st !! cacheKey with
       | Some cached =>
           if (now - aggTimestamp cached <? cacheDurationMs cfg)%Z
           then Some cached else None
       | None => None
       end.

(** First pass: median of all valid samples. *)
Definition medianPrice (valid : list PriceData) : Q :=
  calculateMedian (Num.sort_asc (map price valid)).

(** The outlier filter around the first median. *)
Definition filteredPrices (cfg : PriceAggregatorConfig)
    (valid : list PriceData) : list PriceData :=
  let m := medianPrice valid in
  List.filter (fun p =>
      let deviation := Qabs ((price p - m) / m) * 100 in
      Num.leb deviation (maxPriceDeviationPercent cfg)) valid.

(** Second pass: median of the samples that survive the filter. *)
Definition finalMedian (cfg : PriceAggregatorConfig)
    (valid : list PriceData) : Q :=
  calculateMedian (Num.sort_asc (map price (filteredPrices cfg valid))).

(** The circuit-breaker check of [getPrice]: [Some d] when the branch
    that returns the dampened price [d] is taken, [None] otherwise. *)
Definition dampenedPrice (cfg : PriceAggregatorConfig) (st : State)
    (final : Q) : option Q :=
  match Num.if_truthy (lastPrice st) with
  | Some last =>
      if enableCircuitBreaker cfg then
        let priceChange := Qabs ((final - last) / last) * 100 in
        if Num.gtb priceChange (circuitBreakerThresholdPercent cfg)
        then Some (last * (if Num.gtb final last then 1.2 else 0.8))
        else None
      else None
  | None => None
  end.

Definition getPrice (cfg : PriceAggregatorConfig) (st : State)
    (cacheKey : string) (forceRefresh : bool) (now : Z) (f : Feeds)
    : result Error AggregatedPrice * State :=
  match cacheLookup cfg st cacheKey forceRefresh now with
  | Some cached => (Ok cached, st)
  | None =>
      let valid := validPrices now f in
      if (length valid <? minSources cfg)%nat then
        match Num.if_truthy (lastPrice st) with
        | Some last => (Ok (createFallbackPrice cfg now last), st)
        | None =>
            (Throw (InsufficientSources (length valid) (minSources cfg)), st)
        end
      else
        let filtered := filteredPrices cfg valid in
        let final := finalMedian cfg valid in
        match dampenedPrice cfg st final with
        | Some dampened =>
            (Ok (createAggregatedPrice cfg now dampened filtered), st)
        | None =>
            let aggregated := createAggregatedPrice cfg now final filtered in
            (Ok aggregated,
             {| cache := <[cacheKey := aggregated]> (cache st);
                lastPrice := Some final |})
        end
  end.

(** The stored last price is only ever a median that [getPrice]
    accepted, hence never negative. *)
Definition lastPriceNonNegative (st : State) : Prop :=
  forall last, lastPrice st = Some last -> 0 <= last.

(** A sequence of [getPrice] calls on one aggregator, oldest first. *)
Record Call : Type := mkCall {
  callKey : string;
  callForce : bool;
  callNow : Z;
  callFeeds : Feeds
}.

Definition getPriceAll (cfg : PriceAggregatorConfig) (st : State)
    (calls : list Call) : State :=
  fold_left
    (fun s c =>
       snd (getPrice cfg s (callKey c) (callForce c) (callNow c)
                     (callFeeds c)))
    calls st.

End PriceAggregator.

(** ** Circuit breaker: src/safety/CircuitBreaker.ts *)

Module CircuitBreaker.

Record CircuitBreakerConfig : Type := mkConfig {
  priceDeviationThresholdPercent : Q;
  volatilityThresholdPercent : Q;
  lossThresholdPercent : Q;
  consecutiveFailuresThreshold : Z;
  cooldownPeriodMs : Z;
  gradualResumeSteps : Z;
  gradualResumeIntervalMs : Z
}.

Inductive TriggerType : Type :=
| price_deviation | volatility | loss | failures | manual.

(** The message templates of the source, with the number they print. *)
Inductive Message : Type :=
| PriceDeviatedBy (percent : Q)
| VolatilityAt (percent : Q)
| LossExceeded (percent : Q)
| ConsecutiveFailures (count : Z)
| Text (s : string).

Record TriggerReason : Type := mkReason {
  type : TriggerType;
  value : Q;
  threshold : Q;
  message : Message
}.

(** The mutable fields of the class.  [resumeInterval] tells whether the
    timer of [gradualResume] is armed. *)
Record Breaker : Type := mkBreaker {
  isOpen : bool;
  triggerReason : option TriggerReason;
  triggeredAt : option Z;
  consecutiveFailures : Z;
  resumeStep : Z;
  resumeInterval : bool;
  priceHistory : list Q
}.

Definition initial : Breaker :=
  {| isOpen := false; triggerReason := None; triggeredAt := None;
     consecutiveFailures := 0; resumeStep := 0; resumeInterval := false;
     priceHistory := [] |}.

(** [if (this.triggeredAt)]: a timestamp of 0 is falsy. *)
Definition triggeredAt_truthy (b : Breaker) : option Z :=
  match triggeredAt b with
  | Some t => if (t =? 0)%Z then None else Some t
  | None => None
  end.

Definition trip (b : Breaker) (reason : TriggerReason) (now : Z) : Breaker :=
  if isOpen b then b
  else {| isOpen := true;
          triggerReason := Some reason;
          triggeredAt := Some now;
          consecutiveFailures := consecutiveFailures b;
          resumeStep := resumeStep b;
          resumeInterval := resumeInterval b;
          priceHistory := priceHistory b |}.

Definition manualTrip (b : Breaker) (msg : string) (now : Z) : Breaker :=
  trip b {| type := manual; value := 0; threshold := 0;
            message := Text msg |} now.

(** The cooldown check shared by [reset] and [gradualResume]: [true] when
    the method returns early. *)
Definition inCooldown (cfg : CircuitBreakerConfig) (b : Breaker) (now : Z)
    : bool :=
  match triggeredAt_truthy b with
  | Some t => (now - t <? cooldownPeriodMs cfg)%Z
  | None => false
  end.

Definition reset (cfg : CircuitBreakerConfig) (b : Breaker) (now : Z)
    : Breaker :=
  if negb (isOpen b) then b
  else if inCooldown cfg b now then b
  else {| isOpen := false;
          triggerReason := None;
          triggeredAt := None;
          consecutiveFailures := 0;
          resumeStep := 0;
          resumeInterval := false;
          priceHistory := priceHistory b |}.

Definition checkConditions (cfg : CircuitBreakerConfig) (b : Breaker)
    (now : Z) (currentPrice previousPrice currentLoss vol : Q)
    : bool * Breaker :=
  let priceDeviation :=
    Qabs ((currentPrice - previousPrice) / previousPrice) * 100 in
  if Num.gtb priceDeviation (priceDeviationThresholdPercent cfg) then
    (true, trip b {| type := price_deviation; value := priceDeviation;
                     threshold := priceDeviationThresholdPercent cfg;
                     message := PriceDeviatedBy priceDeviation |} now)
  else if Num.gtb vol (volatilityThresholdPercent cfg) then
    (true, trip b {| type := volatility; value := vol;
                     threshold := volatilityThresholdPercent cfg;
                     message := VolatilityAt vol |} now)
  else if Num.gtb currentLoss (lossThresholdPercent cfg) then
    (true, trip b {| type := loss; value := currentLoss;
                     threshold := lossThresholdPercent cfg;
                     message := LossExceeded currentLoss |} now)
  else if (consecutiveFailures b >=? consecutiveFailuresThreshold cfg)%Z then
    (true, trip b {| type := failures;
                     value := inject_Z (consecutiveFailures b);
                     threshold := inject_Z (consecutiveFailuresThreshold cfg);
                     message := ConsecutiveFailures (consecutiveFailures b) |}
                  now)
  else (false, b).

Definition recordFailure (b : Breaker) : Breaker :=
  {| isOpen := isOpen b; triggerReason := triggerReason b;
     triggeredAt := triggeredAt b;
     consecutiveFailures := consecutiveFailures b + 1;
     resumeStep := resumeStep b; resumeInterval := resumeInterval b;
     priceHistory := priceHistory b |}.

Definition recordSuccess (b : Breaker) : Breaker :=
  {| isOpen := isOpen b; triggerReason := triggerReason b;
     triggeredAt := triggeredAt b;
     consecutiveFailures := 0;
     resumeStep := resumeStep b; resumeInterval := resumeInterval b;
     priceHistory := priceHistory b |}.

Definition updatePriceHistory (b : Breaker) (p : Q) : Breaker :=
  let pushed := priceHistory b ++ [p] in
  {| isOpen := isOpen b; triggerReason := triggerReason b;
     triggeredAt := triggeredAt b;
     consecutiveFailures := consecutiveFailures b;
     resumeStep := resumeStep b; resumeInterval := resumeInterval b;
     priceHistory := if (100 <? length pushed)%nat then tail pushed
                     else pushed |}.

Definition isTradingAllowed (b : Breaker) : bool := negb (isOpen b).

Definition canResume (cfg : CircuitBreakerConfig) (b : Breaker) (now : Z)
    : bool :=
  match triggeredAt_truthy b with
  | Some t => isOpen b && (now - t >=? cooldownPeriodMs cfg)%Z
  | None => false
  end.

(** *** gradualResume

    [gradualResume] arms an interval timer with an [async] function and
    returns a promise.  Each firing of the timer increments [resumeStep],
    calls the caller-supplied callback with the step and the total, and
    stops at the [await]; the rest of the function (the [catch], the
    completion test, [reset] and [resolve]) runs when the promise of that
    invocation settles.  The timer does not wait for it: an invocation
    may settle before the next firing, after any number of further
    firings, or never.

    What happens is therefore given as the list of events of the event
    loop, in the order in which they run: a firing of the timer, or the
    settling of the invocation number [call] (counted from 0) with its
    outcome, at a time when [Date.now()] reads [now].  A callback that
    throws synchronously, or whose promise is already settled, is a
    [Settle] right after its [Fire].  The callback is taken not to touch
    the breaker itself. *)

Inductive Outcome : Type := Resolves | Rejects.

Inductive Event : Type :=
| Fire
| Settle (call : nat) (outcome : Outcome) (now : Z).

(** What a run of [gradualResume] leaves behind: the breaker, the
    callback invocations in order, the invocations still in flight, the
    step numbers written to the error log, and whether the returned
    promise has resolved. *)
Record Run : Type := mkRun {
  breaker : Breaker;
  calls : list (Z * Z);
  pending : list nat;
  failedSteps : list Z;
  resolved : bool
}.

Definition set_resume (b : Breaker) (step : Z) (armed : bool) : Breaker :=
  {| isOpen := isOpen b; triggerReason := triggerReason b;
     triggeredAt := triggeredAt b;
     consecutiveFailures := consecutiveFailures b;
     resumeStep := step; resumeInterval := armed;
     priceHistory := priceHistory b |}.

(** A firing of the timer, up to the [await].  A cleared timer does not
    fire. *)
Definition fire (cfg : CircuitBreakerConfig) (r : Run) : Run :=
  if resumeInterval (breaker r) then
    let b1 := set_resume (breaker r) (resumeStep (breaker r) + 1) true in
    {| breaker := b1;
       calls := calls r ++ [(resumeStep b1, gradualResumeSteps cfg)];
       pending := pending r ++ [length (calls r)];
       failedSteps := failedSteps r;
       resolved := resolved r |}
  else r.

(** The rest of a firing, run when its invocation settles.  The [catch]
    and the completion test read [this.resumeStep] as it is by then. *)
Definition settle (cfg : CircuitBreakerConfig) (call : nat)
    (outcome : Outcome) (now : Z) (r : Run) : Run :=
  if existsb (Nat.eqb call) (pending r) then
    let b := breaker r in
    let pending1 :=
      List.filter (fun i => negb (Nat.eqb call i)) (pending r) in
    let failed1 :=
      match outcome with
      | Resolves => failedSteps r
      | Rejects => failedSteps r ++ [resumeStep b]
      end in
    if (resumeStep b >=? gradualResumeSteps cfg)%Z then
      let b2 :=
        if resumeInterval b then set_resume b (resumeStep b) false else b in
      {| breaker := reset cfg b2 now; calls := calls r;
         pending := pending1; failedSteps := failed1; resolved := true |}
    else
      {| breaker := b; calls := calls r; pending := pending1;
         failedSteps := failed1; resolved := resolved r |}
  else r.

Definition step (cfg : CircuitBreakerConfig) (r : Run) (e : Event) : Run :=
  match e with
  | Fire => fire cfg r
  | Settle call outcome now => settle cfg call outcome now r
  end.

Definition runEvents (cfg : CircuitBreakerConfig) (events : list Event)
    (r : Run) : Run :=
  fold_left (step cfg) events r.

(** [events] is what the event loop runs after the call. *)
Definition gradualResume (cfg : CircuitBreakerConfig) (b : Breaker)
    (now : Z) (events : list Event) : Run :=
  if negb (isOpen b) then
    {| breaker := b; calls := []; pending := []; failedSteps := [];
       resolved := true |}
  else if inCooldown cfg b now then
    {| breaker := b; calls := []; pending := []; failedSteps := [];
       resolved := true |}
  else
    runEvents cfg events
      {| breaker := set_resume b 0 true; calls := []; pending := [];
         failedSteps := []; resolved := false |}.

(** The operations other code can run on the shared breaker. *)
Inductive Op : Type :=
| OpTrip (reason : TriggerReason)
| OpManualTrip (msg : string)
| OpReset
| OpCheckConditions (currentPrice previousPrice currentLoss vol : Q)
| OpRecordFailure
| OpRecordSuccess
| OpUpdatePriceHistory (p : Q)
| OpGradualResume (events : list Event).

Definition perform (cfg : CircuitBreakerConfig) (b : Breaker) (now : Z)
    (op : Op) : Breaker :=
  match op with
  | OpTrip reason => trip b reason now
  | OpManualTrip msg => manualTrip b msg now
  | OpReset => reset cfg b now
  | OpCheckConditions c p l v => snd (checkConditions cfg b now c p l v)
  | OpRecordFailure => recordFailure b
  | OpRecordSuccess => recordSuccess b
  | OpUpdatePriceHistory p => updatePriceHistory b p
  | OpGradualResume events => breaker (gradualResume cfg b now events)
  end.

(** *** Vocabulary for the outcome of a resume *)

(** The state [reset] leaves behind when it goes through. *)
Definition closed (b : Breaker) : Breaker :=
  {| isOpen := false; triggerReason := None; triggeredAt := None;
     consecutiveFailures := 0; resumeStep := 0; resumeInterval := false;
     priceHistory := priceHistory b |}.

(** A resume under way after [j] firings of the timer. *)
Definition resuming (b : Breaker) (j : nat) (cs : list (Z * Z))
    (ps : list nat) (fs : list Z) (res : bool) : Run :=
  {| breaker := set_resume b (Z.of_nat j) true; calls := cs; pending := ps;
     failedSteps := fs; resolved := res |}.

(** What the [catch] writes to the error log for one invocation. *)
Definition logged (outcome : Outcome) (step : Z) : list Z :=
  match outcome with
  | Resolves => []
  | Rejects => [step]
  end.

(** The invocations for the steps [from+1 .. from+n], as the callback
    sees them. *)
Definition stepCalls (cfg : CircuitBreakerConfig) (from n : nat)
    : list (Z * Z) :=
  map (fun i : nat => (Z.of_nat i, gradualResumeSteps cfg)) (seq (S from) n).

(** The number of timer firings among the events. *)
Definition fires (events : list Event) : nat :=
  length (List.filter (fun e => match e with Fire => true | _ => false end)
                      events).

(** The events of the invocations [from .. from+n-1] when every one of
    them settles before the timer fires again: [outcome i] is how the
    invocation number [i] settles and [clock i] the time at which it
    does. *)
Definition timely (outcome : nat -> Outcome) (clock : nat -> Z)
    (from n : nat) : list Event :=
  flat_map (fun i => [Fire; Settle i (outcome i) (clock i)]) (seq from n).

(** The steps among [from+1 .. from+n] whose invocation rejects. *)
Definition rejectedSteps (outcome : nat -> Outcome) (from n : nat)
    : list Z :=
  map (fun i : nat => Z.of_nat (S i))
      (List.filter (fun i : nat =>
                 match outcome i with
                 | Rejects => true
                 | Resolves => false
                 end) (seq from n)).

(** *** Status queries *)

Record CircuitBreakerStatus : Type := mkStatus {
  statusIsOpen : bool;
  statusReason : option Message;
  statusTriggeredAt : option Z;
  canResumeAt : option Z;
  statusConsecutiveFailures : Z;
  currentStep : Z;
  totalSteps : Z
}.

Definition getStatus (cfg : CircuitBreakerConfig) (b : Breaker)
    : CircuitBreakerStatus :=
  {| statusIsOpen := isOpen b;
     statusReason := message <$> triggerReason b;
     statusTriggeredAt := triggeredAt b;
     canResumeAt :=
       match triggeredAt_truthy b with
       | Some t => Some (t + cooldownPeriodMs cfg)%Z
       | None => None
       end;
     statusConsecutiveFailures := consecutiveFailures b;
     currentStep := resumeStep b;
     totalSteps := gradualResumeSteps cfg |}.

Definition getTimeUntilResume (cfg : CircuitBreakerConfig) (b : Breaker)
    (now : Z) : Z :=
  match triggeredAt_truthy b with
  | Some t =>
      if isOpen b
      then Z.max 0 (cooldownPeriodMs cfg - (now - t))
      else 0%Z
  | None => 0%Z
  end.

Definition getResumeProgress (cfg : CircuitBreakerConfig) (b : Breaker) : Q :=
  if (gradualResumeSteps cfg =? 0)%Z then 1
  else inject_Z (resumeStep b) / inject_Z (gradualResumeSteps cfg).


(** The prices fed to [updatePriceHistory], oldest first. *)
Definition updatePriceHistoryAll (b : Breaker) (ps : list Q) : Breaker :=
  fold_left updatePriceHistory ps b.

End CircuitBreaker.

(** ** Rug-pull risk scorer: src/safety/RugPullDetector.ts *)

Module RugPullDetector.

Record RugPullConfig : Type := mkConfig {
  lpMonitoringEnabled : bool;
  supplyChangeThresholdPercent : Q;
  holderConcentrationThresholdPercent : Q;
  checkIntervalMs : Z;
  autoExitOnDetection : bool
}.

Record LPStatus : Type := mkLPStatus {
  totalLiquidity : Z;
  lpTokenSupply : Z;
  lastChecked : Z;
  lpChangePercent : Q;
  lpSuspicious : bool
}.

Record SupplyChange : Type := mkSupplyChange {
  currentSupply : Z;
  previousSupply : Z;
  supplyChangePercent : Q;
  supplyTimestamp : Z;
  supplySuspicious : bool
}.

Record HolderConcentration : Type := mkHolderConcentration {
  topHolderPercent : Q;
  top10HolderPercent : Q;
  totalHolders : nat;
  holderSuspicious : bool
}.

Inductive Level : Type := low | medium | high | critical.

(** The reason templates of the source, with the number they print. *)
Inductive Reason : Type :=
| LPDecreasedBy (percent : Q)
| SupplyChangedBy (percent : Q)
| TopHolderOwns (percent : Q)
| CheckFailed.

Record RugPullRisk : Type := mkRisk {
  level : Level;
  score : Q;
  reasons : list Reason;
  shouldExit : bool
}.

Record State : Type := mkState {
  lpHistory : gmap string (list LPStatus);
  supplyHistory : gmap string (list SupplyChange)
}.

(** [a.mul(new BN(100)).div(b).toNumber()]: [None] when bn.js throws, on
    a zero divisor or on a quotient that does not fit 53 bits. *)
Definition bnPercent (a b : Z) : option Q :=
  if (b =? 0)%Z then None
  else
    let q := Z.quot (a * 100) b in
    if (Z.abs q <? 2 ^ 53)%Z then Some (inject_Z q) else None.

(** [history.push(x); if (history.length > 100) history.shift()] *)
Definition pushBounded {A : Type} (history : list A) (x : A) : list A :=
  let pushed := history ++ [x] in
  if (100 <? length pushed)%nat then tail pushed else pushed.

Definition failedLPStatus (now : Z) : LPStatus :=
  {| totalLiquidity := 0; lpTokenSupply := 0; lastChecked := now;
     lpChangePercent := 0; lpSuspicious := false |}.

(** [rpc] is the answer of [getTokenSupply]: [None] when the call throws.
    The test on [changePercent] is the source's expression
    [changePercent < -this.config.lpMonitoringEnabled ? 20 : 0], which
    JavaScript parses as [(changePercent < -enabled) ? 20 : 0]. *)
Definition checkLPTokens (cfg : RugPullConfig) (st : State)
    (mintStr : string) (now : Z) (rpc : option Z) : LPStatus * State :=
  match rpc with
  | None => (failedLPStatus now, st)
  | Some supply =>
      let history := default [] (lpHistory st !! mintStr) in
      let finish changePercent suspicious :=
        let status :=
          {| totalLiquidity := supply; lpTokenSupply := supply;
             lastChecked := now; lpChangePercent := changePercent;
             lpSuspicious := suspicious |} in
        (status,
         {| lpHistory := <[mintStr := pushBounded history status]>
                           (lpHistory st);
            supplyHistory := supplyHistory st |}) in
      match last history with
      | Some previous =>
          match bnPercent (supply - lpTokenSupply previous)
                          (lpTokenSupply previous) with
          | Some changePercent =>
              let test : Q :=
                if Num.ltb changePercent
                           (- Num.of_bool (lpMonitoringEnabled cfg))
                then 20 else 0 in
              finish changePercent (Num.truthy test)
          | None => (failedLPStatus now, st)
          end
      | None => finish 0 false
      end
  end.

Definition failedSupplyChange (now : Z) : SupplyChange :=
  {| currentSupply := 0; previousSupply := 0; supplyChangePercent := 0;
     supplyTimestamp := now; supplySuspicious := false |}.

Definition checkSupplyChanges (cfg : RugPullConfig) (st : State)
    (mintStr : string) (now : Z) (rpc : option Z)
    : SupplyChange * State :=
  match rpc with
  | None => (failedSupplyChange now, st)
  | Some supply =>
      let history := default [] (supplyHistory st !! mintStr) in
      let finish prev changePercent suspicious :=
        let change :=
          {| currentSupply := supply; previousSupply := prev;
             supplyChangePercent := changePercent;
             supplyTimestamp := now; supplySuspicious := suspicious |} in
        (change,
         {| lpHistory := lpHistory st;
            supplyHistory := <[mintStr := pushBounded history change]>
                               (supplyHistory st) |}) in
      match last history with
      | Some previous =>
          match bnPercent (supply - currentSupply previous)
                          (currentSupply previous) with
          | Some changePercent =>
              finish (currentSupply previous) changePercent
                (Num.gtb (Qabs changePercent)
                         (supplyChangeThresholdPercent cfg))
          | None => (failedSupplyChange now, st)
          end
      | None => finish 0%Z 0 false
      end
  end.

Definition failedHolderConcentration : HolderConcentration :=
  {| topHolderPercent := 0; top10HolderPercent := 0; totalHolders := 0;
     holderSuspicious := false |}.

(** [largest] is the answer of [getTokenLargestAccounts] (the amounts, in
    the order returned) and [rpc] that of [getTokenSupply]. *)
Definition checkHolderConcentration (cfg : RugPullConfig)
    (largest : option (list Z)) (rpc : option Z) : HolderConcentration :=
  match largest with
  | None => failedHolderConcentration
  | Some [] => failedHolderConcentration
  | Some (topHolder :: rest) =>
      match rpc with
      | None => failedHolderConcentration
      | Some totalSupply =>
          let top10Amount :=
            fold_left Z.add (take 10 (topHolder :: rest)) 0%Z in
          match bnPercent topHolder totalSupply,
                bnPercent top10Amount totalSupply with
          | Some topPct, Some top10Pct =>
              {| topHolderPercent := topPct;
                 top10HolderPercent := top10Pct;
                 totalHolders := length (topHolder :: rest);
                 holderSuspicious :=
                   Num.gtb topPct (holderConcentrationThresholdPercent cfg)
                   || Num.gtb top10Pct 80 |}
          | _, _ => failedHolderConcentration
          end
      end
  end.

Definition calculateRisk (cfg : RugPullConfig) (lpStatus : LPStatus)
    (supplyChange : SupplyChange) (holderConcentration : HolderConcentration)
    : RugPullRisk :=
  let '(score1, reasons1) :=
    if lpSuspicious lpStatus
    then (0 + Num.min (Qabs (lpChangePercent lpStatus) * 2) 40,
          [LPDecreasedBy (Qabs (lpChangePercent lpStatus))])
    else (0, []) in
  let '(score2, reasons2) :=
    if supplySuspicious supplyChange
    then (score1 + Num.min (Qabs (supplyChangePercent supplyChange) * 1.5) 30,
          reasons1 ++ [SupplyChangedBy (Qabs (supplyChangePercent supplyChange))])
    else (score1, reasons1) in
  let '(score3, reasons3) :=
    if holderSuspicious holderConcentration
    then (score2 + Num.min (topHolderPercent holderConcentration * 0.5) 30,
          reasons2 ++ [TopHolderOwns (topHolderPercent holderConcentration)])
    else (score2, reasons2) in
  let level :=
    if Num.geb score3 80 then critical
    else if Num.geb score3 60 then high
    else if Num.geb score3 40 then medium
    else low in
  let shouldExit :=
    autoExitOnDetection cfg &&
    match level with
    | critical | high => true
    | _ => false
    end in
  {| level := level; score := score3; reasons := reasons3;
     shouldExit := shouldExit |}.

(** What the chain answers during one [checkToken]: the supply read by
    each of the three checks and the largest accounts. *)
Record ChainData : Type := mkChainData {
  lpSupplyRpc : option Z;
  supplyRpc : option Z;
  largestAccountsRpc : option (list Z);
  holderSupplyRpc : option Z
}.

(** The three checks catch their own failures, so the outer handler of
    [checkToken] (level low, score 0, "Check failed") is never entered. *)
Definition checkToken (cfg : RugPullConfig) (st : State) (mintStr : string)
    (now : Z) (chain : ChainData) : RugPullRisk * State :=
  let '(lpStatus, st1) :=
    checkLPTokens cfg st mintStr now (lpSupplyRpc chain) in
  let '(supplyChange, st2) :=
    checkSupplyChanges cfg st1 mintStr now (supplyRpc chain) in
  let holderConcentration :=
    checkHolderConcentration cfg (largestAccountsRpc chain)
                             (holderSupplyRpc chain) in
  (calculateRisk cfg lpStatus supplyChange holderConcentration, st2).

(** Every stored history holds at most 100 snapshots. *)
Definition historiesBounded (st : State) : Prop :=
  (forall mint h, lpHistory st !! mint = Some h -> (length h <= 100)%nat)
  /\ (forall mint h,
        supplyHistory st !! mint = Some h -> (length h <= 100)%nat).

Definition emptyState : State :=
  {| lpHistory := ∅; supplyHistory := ∅ |}.

(** A run of [checkToken] calls for one mint, oldest first; each entry is
    the time of the check and what the chain answered. *)
Definition checkTokenAll (cfg : RugPullConfig) (st : State)
    (mintStr : string) (checks : list (Z * ChainData)) : State :=
  fold_left (fun s c => snd (checkToken cfg s mintStr (fst c) (snd c)))
            checks st.

End RugPullDetector.

(** ** Token amounts: src/utils/BNMath.ts *)

Module BNMath.

(** Number of decimal digits of a non-negative integer (1 for 0). *)
Fixpoint ndigits_fuel (fuel : nat) (n : Z) : nat :=
  match fuel with
  | O => 1
  | S fuel' =>
      if (n <? 10)%Z then 1%nat else S (ndigits_fuel fuel' (n / 10))
  end.

Definition ndigits (n : Z) : nat :=
  ndigits_fuel (Z.to_nat (Z.log2 n)) n.

Definition pow10 (d : nat) : Q := inject_Z (10 ^ Z.of_nat d).

(** [parseFloat(toUIAmount(tokenAmount, decimals))], where [toUIAmount]
    pads the decimal string of the amount with zeros on the left to
    [decimals + 1] characters, cuts it before its last [decimals]
    characters ([slice(0, -decimals) || '0'] and [slice(-decimals)]) and
    joins the two parts with a dot.  Read as a number:
    - for [decimals >= 1] and an amount that is non-negative, or negative
      with at least [decimals] digits, the amount divided by
      [10 ^ decimals];
    - for a negative amount with fewer digits the padding lands before
      the sign ("0.0-5"), and [parseFloat] stops at the sign: 0;
    - for [decimals = 0] both slices take index 0: the whole part is
      empty, hence '0', and the fraction is the entire string, so a
      non-negative amount reads "0." followed by all its digits, and a
      negative one "0.-..." which parses as 0. *)
Definition toUIAmountNumber (tokenAmount : Z) (decimals : nat) : Q :=
  match decimals with
  | O =>
      if (0 <=? tokenAmount)%Z
      then inject_Z tokenAmount / pow10 (ndigits tokenAmount)
      else 0
  | S _ =>
      if (0 <=? tokenAmount)%Z
         || (decimals <=? ndigits (Z.abs tokenAmount))%nat
      then inject_Z tokenAmount / pow10 decimals
      else 0
  end.

(** [new BN(n)] for a JavaScript number holding the integer [n]: bn.js
    asserts that the magnitude is below [2 ^ 53]. *)
Definition bnOfNumber (n : Z) : option Z :=
  if (Z.abs n <? 2 ^ 53)%Z then Some n else None.

(** [Math.floor] of a binary64 number, as an integer; [None] where the
    result is [NaN] or an infinity, which [new BN] rejects. *)
Definition mathFloor (x : float) : option Z :=
  match Prim2SF x with
  | S754_zero _ => Some 0%Z
  | S754_infinity _ => None
  | S754_nan => None
  | S754_finite negative m e =>
      let n := ((if negative then Z.neg m else Z.pos m) * 2 ^ Z.max e 0)%Z in
      Some (n / 2 ^ Z.max (- e) 0)%Z
  end.

(** [percentage]: [percent] is a binary64 number and [percent * 100] the
    binary64 product, which [Math.floor] then cuts to an integer; [None]
    when the constructor throws. *)
Definition percentage (amount : Z) (percent : float) : option Z :=
  match mathFloor (percent * 100)%float with
  | Some units =>
      match bnOfNumber units with
      | Some percentBN => Some (Z.quot (amount * percentBN) 10000)
      | None => None
      end
  | None => None
  end.

Definition isWithinTolerance (amount target : Z) (tolerancePercent : float)
    : option bool :=
  if (target =? 0)%Z then Some (amount =? 0)%Z
  else
    let diff := Z.abs (amount - target) in
    match percentage target tolerancePercent with
    | Some tolerance => Some (diff <=? tolerance)%Z
    | None => None
    end.

Definition min (a b : Z) : Z := if (a <? b)%Z then a else b.
Definition max (a b : Z) : Z := if (a >? b)%Z then a else b.

Definition clamp (value lo hi : Z) : Z :=
  if (value <? lo)%Z then lo
  else if (value >? hi)%Z then hi
  else value.

(** [calculatePrice]: the UI amounts are finite here, so of the guards on
    them only the zero test on [outUI] remains. *)
Definition calculatePrice (inAmount outAmount : Z)
    (inDecimals outDecimals : nat) : Q :=
  if (inAmount =? 0)%Z || (outAmount =? 0)%Z then 0
  else
    let inUI := toUIAmountNumber inAmount inDecimals in
    let outUI := toUIAmountNumber outAmount outDecimals in
    if Num.is_zero outUI then 0
    else
      let price := inUI / outUI in
      if Num.leb price 0 then 0 else price.

End BNMath.

(** ** Spread controller: src/strategies/SpreadController.ts *)

Module SpreadController.

Record SpreadConfig : Type := mkConfig {
  minSpread : Q;
  maxSpread : Q;
  baseSpread : Q;
  volatilityMultiplier : Q;
  inventoryMultiplier : Q;
  minProfitBps : Q;
  adaptiveEnabled : bool
}.

Record Adjustments : Type := mkAdjustments {
  adjVolatility : Q;
  adjInventory : Q;
  adjMinProfit : Q
}.

Record SpreadCalculation : Type := mkSpreadCalculation {
  bidSpread : Q;
  askSpread : Q;
  totalSpread : Q;
  adjustments : Adjustments
}.

Record MarketConditions : Type := mkMarketConditions {
  volatility : Q;
  inventoryRatio : Q;
  recentFills : Q;
  competitionSpread : Q
}.

Record State : Type := mkState {
  spreadHistory : list Q;
  fillHistory : list (Z * Q)
}.

Definition calculateVolatilityAdjustment (cfg : SpreadConfig) (vol : Q)
    : Q :=
  let adjustment := vol * volatilityMultiplier cfg * baseSpread cfg in
  Num.min adjustment (maxSpread cfg - baseSpread cfg).

Definition calculateInventoryAdjustment (cfg : SpreadConfig) (ratio : Q)
    : Q :=
  let targetRatio := 0.5 in
  let deviation := Qabs (ratio - targetRatio) in
  deviation * inventoryMultiplier cfg * baseSpread cfg.

Definition calculateAsymmetricSpread (total inventoryAdjustment ratio : Q)
    : Q * Q :=
  let targetRatio := 0.5 in
  if Num.gtb ratio targetRatio then
    (total / 2 - inventoryAdjustment / 2,
     total / 2 + inventoryAdjustment / 2)
  else if Num.ltb ratio targetRatio then
    (total / 2 + inventoryAdjustment / 2,
     total / 2 - inventoryAdjustment / 2)
  else (total / 2, total / 2).

Definition ensureMinimumProfit (cfg : SpreadConfig) : Q :=
  let tradingFees := 0.003 in
  let minSpreadForProfit := tradingFees + minProfitBps cfg / 10000 in
  if Num.ltb (baseSpread cfg) minSpreadForProfit
  then minSpreadForProfit - baseSpread cfg
  else 0.

Definition calculateOptimalSpread (cfg : SpreadConfig) (st : State)
    (midPrice : Q) (conditions : MarketConditions)
    : SpreadCalculation * State :=
  let volatilityAdjustment :=
    calculateVolatilityAdjustment cfg (volatility conditions) in
  let base := baseSpread cfg + volatilityAdjustment in
  let inventoryAdjustment :=
    calculateInventoryAdjustment cfg (inventoryRatio conditions) in
  let minProfitAdjustment := ensureMinimumProfit cfg in
  let total :=
    Num.max (minSpread cfg)
            (Num.min (base + minProfitAdjustment) (maxSpread cfg)) in
  let '(bid, ask) :=
    calculateAsymmetricSpread total inventoryAdjustment
                              (inventoryRatio conditions) in
  let pushed := spreadHistory st ++ [total] in
  ({| bidSpread := bid; askSpread := ask; totalSpread := total;
      adjustments := {| adjVolatility := volatilityAdjustment;
                        adjInventory := inventoryAdjustment;
                        adjMinProfit := minProfitAdjustment |} |},
   {| spreadHistory := if (100 <? length pushed)%nat then tail pushed
                       else pushed;
      fillHistory := fillHistory st |}).

Definition recordFill (st : State) (now : Z) (spread : Q) : State :=
  let pushed := fillHistory st ++ [(now, spread)] in
  {| spreadHistory := spreadHistory st;
     fillHistory := if (100 <? length pushed)%nat then tail pushed
                    else pushed |}.

Definition adjustSpreadByFillRate (cfg : SpreadConfig)
    (currentSpread recentFillCount targetFillRate : Q) : Q :=
  if negb (adaptiveEnabled cfg) then currentSpread
  else if Num.gtb recentFillCount (targetFillRate * 1.5)
  then Num.min (currentSpread * 1.1) (maxSpread cfg)
  else if Num.ltb recentFillCount (targetFillRate * 0.5)
  then Num.max (currentSpread * 0.9) (minSpread cfg)
  else currentSpread.

End SpreadController.

(** ** Inventory ledger and quoting engine: src/core/MarketMaker.ts *)

Module MarketMaker.

Record MarketMakerConfig : Type := mkConfig {
  baseMint : string;
  quoteMint : string;
  baseDecimals : nat;
  quoteDecimals : nat;
  spreadPercent : Q;
  orderSize : Q;
  inventorySkew : Q;
  maxPositionSize : Q;
  orderRefreshInterval : Z;
  minSpreadPercent : Q;
  enableVolatilityAdaptive : bool;
  maxLossPercent : Q;
  maxSlippagePercent : Q;
  volThresholdPercent : Q;
  enableBidAskWalls : bool;
  wallDepthPercent : Q;
  targetInventoryRatio : Q
}.

Record Inventory : Type := mkInventory {
  base : Z;
  quote : Z;
  avgBuyPrice : Q;
  lastUpdate : Z
}.

Inductive OrderType : Type := limit | market.

Record PlacedOrder : Type := mkPlacedOrder {
  orderKey : string;
  signature : string;
  inputMint : string;
  outputMint : string;
  inAmount : Z;
  outAmount : Z;
  price : Q;
  timestamp : Z;
  type : OrderType
}.

Inductive Side : Type := buy | sell.

(** The fields of [StrategyRecommendations] that the quoting code reads. *)
Record StrategyRecommendations : Type := mkRecommendations {
  recBidSpread : Q;
  recAskSpread : Q;
  recTotalSpread : Q;
  shouldPause : bool
}.

(** The maps of the class that quoting and fill handling use.
    [strategies] is [None] for [null]; otherwise it carries the state of
    the spread controller that [recordFill] writes to. *)
Record State : Type := mkState {
  inventory : gmap string Inventory;
  inventoryTargets : gmap string Q;
  recentFills : gmap string Q;
  strategies : option SpreadController.State
}.

(** A fresh object is returned for an unknown wallet; it is not stored. *)
Definition getInventory (st : State) (walletKey : string) (now : Z)
    : Inventory :=
  default {| base := 0; quote := 0; avgBuyPrice := 0; lastUpdate := now |}
          (inventory st !! walletKey).

Definition calculateInventoryRatio (cfg : MarketMakerConfig)
    (inv : Inventory) (midPrice : Q) : Q :=
  let baseValue :=
    BNMath.toUIAmountNumber (base inv) (baseDecimals cfg) * midPrice in
  let quoteValue :=
    BNMath.toUIAmountNumber (quote inv) (quoteDecimals cfg) in
  let totalValue := baseValue + quoteValue in
  if Num.is_zero totalValue then 0.5 else baseValue / totalValue.

(** [annualized] stands for the value of
    [Math.sqrt(variance) * Math.sqrt(252)] over the log-returns of the
    window, which has no rational model; the guard in front of it is the
    source's. *)
Definition calculateVolatilityFactor (volatilityWindow : list Q)
    (annualized : Q) : Q :=
  if (length volatilityWindow <? 5)%nat then 0 else annualized.

(** The default calculation of [calculateTargetPrices] (strategies
    disabled, or the recommendation failed). *)
Definition defaultTargetPrices (cfg : MarketMakerConfig) (st : State)
    (walletKey : string) (midPrice inventoryRatio volatilityFactor : Q)
    : Q * Q :=
  let spreadPercent0 := spreadPercent cfg / 100 in
  let spreadPercent1 := spreadPercent0 * (1 + volatilityFactor * 0.5) in
  let targetRatio :=
    Num.or_default (inventoryTargets st !! walletKey) 0.5 in
  let spreadPercent2 :=
    if Num.gtb (Qabs (inventoryRatio - targetRatio)) 0.1 then
      if Num.gtb inventoryRatio (targetRatio + 0.05)
      then spreadPercent1 * 1.3
      else if Num.ltb inventoryRatio (targetRatio - 0.05)
      then spreadPercent1 * 1.3
      else spreadPercent1
    else spreadPercent1 in
  let spreadPercent3 :=
    Num.max spreadPercent2 (minSpreadPercent cfg / 100) in
  (midPrice * (1 - spreadPercent3 / 2), midPrice * (1 + spreadPercent3 / 2)).

(** [recommend] is the outcome of [strategies.getRecommendations] for the
    given inventory ratio and recent-fill count; it is consulted only
    when strategies are enabled. *)
Definition calculateTargetPrices (cfg : MarketMakerConfig) (st : State)
    (walletKey : string) (midPrice : Q) (inv : Inventory)
    (volatilityFactor : Q)
    (recommend : Q -> Q -> result unit StrategyRecommendations)
    : Q * Q :=
  let inventoryRatio := calculateInventoryRatio cfg inv midPrice in
  let fills := Num.or_default (recentFills st !! walletKey) 0 in
  let fallback :=
    defaultTargetPrices cfg st walletKey midPrice inventoryRatio
                        volatilityFactor in
  match strategies st with
  | Some _ =>
      match recommend inventoryRatio fills with
      | Ok recommendations =>
          if shouldPause recommendations then (midPrice, midPrice)
          else (midPrice * (1 - recBidSpread recommendations),
                midPrice * (1 + recAskSpread recommendations))
      | Throw _ => fallback
      end
  | None => fallback
  end.

(** The effect of [updateInventoryOnFill] on the inventory object. *)
Definition fillInventory (cfg : MarketMakerConfig) (inv : Inventory)
    (side : Side) (order : PlacedOrder) (now : Z) : Inventory :=
  match side with
  | buy =>
      let base1 := (base inv + outAmount order)%Z in
      let quote1 := (quote inv - inAmount order)%Z in
      let avg1 :=
        if Num.is_zero (avgBuyPrice inv) then price order
        else
          let newValue :=
            BNMath.toUIAmountNumber base1 (baseDecimals cfg) * price order in
          let oldValue :=
            (BNMath.toUIAmountNumber base1 (baseDecimals cfg)
             - BNMath.toUIAmountNumber (outAmount order) (baseDecimals cfg))
            * avgBuyPrice inv in
          (oldValue + newValue)
          / BNMath.toUIAmountNumber base1 (baseDecimals cfg) in
      {| base := base1; quote := quote1; avgBuyPrice := avg1;
         lastUpdate := now |}
  | sell =>
      {| base := (base inv - inAmount order)%Z;
         quote := (quote inv + outAmount order)%Z;
         avgBuyPrice := avgBuyPrice inv;
         lastUpdate := now |}
  end.

(** The stored inventory object is mutated in place; for a wallet without
    one the mutated object is the fresh default and is dropped. *)
Definition updateInventoryOnFill (cfg : MarketMakerConfig) (st : State)
    (walletKey : string) (side : Side) (order : PlacedOrder) (now : Z)
    : State :=
  let inv1 := fillInventory cfg (getInventory st walletKey now) side order
                            now in
  let currentFills := Num.or_default (recentFills st !! walletKey) 0 in
  {| inventory :=
       match inventory st !! walletKey with
       | Some _ => <[walletKey := inv1]> (inventory st)
       | None => inventory st
       end;
     inventoryTargets := inventoryTargets st;
     recentFills := <[walletKey := currentFills + 1]> (recentFills st);
     strategies :=
       match strategies st with
       | Some sc =>
           let spread :=
             Qabs (price order - avgBuyPrice inv1) / avgBuyPrice inv1 in
           Some (SpreadController.recordFill sc now spread)
       | None => None
       end |}.

End MarketMaker.

(** ** Strategy integration: src/strategies/StrategyIntegration.ts *)

Module StrategyIntegration.

(** The fields of [VolatilityFilter.getAction()] that shape the spread. *)
Record VolatilityAction : Type := mkAction {
  actionShouldPause : bool;
  spreadMultiplier : Q
}.

(** The spread part of [getRecommendations]: [volCurrent] is the current
    volatility metric and [action] the filter's action. *)
Definition getRecommendations (cfg : SpreadController.SpreadConfig)
    (sc : SpreadController.State) (midPrice : Q) (volCurrent : Q)
    (action : VolatilityAction) (inventoryRatio recentFills : Q)
    : MarketMaker.StrategyRecommendations :=
  if actionShouldPause action then
    {| MarketMaker.recBidSpread := 0; MarketMaker.recAskSpread := 0;
       MarketMaker.recTotalSpread := 0; MarketMaker.shouldPause := true |}
  else
    let conditions :=
      {| SpreadController.volatility := volCurrent;
         SpreadController.inventoryRatio := inventoryRatio;
         SpreadController.recentFills := recentFills;
         SpreadController.competitionSpread := 0 |} in
    let spreadCalc :=
      fst (SpreadController.calculateOptimalSpread cfg sc midPrice
                                                   conditions) in
    let adjustedBidSpread :=
      SpreadController.bidSpread spreadCalc * spreadMultiplier action in
    let adjustedAskSpread :=
      SpreadController.askSpread spreadCalc * spreadMultiplier action in
    {| MarketMaker.recBidSpread := adjustedBidSpread;
       MarketMaker.recAskSpread := adjustedAskSpread;
       MarketMaker.recTotalSpread := adjustedBidSpread + adjustedAskSpread;
       MarketMaker.shouldPause := false |}.

End StrategyIntegration.

(** ** Volatility filter: src/strategies/VolatilityFilter.ts *)

Module VolatilityFilter.

Record VolatilityConfig : Type := mkConfig {
  enabled : bool;
  windowSize : nat;
  pauseThresholdPercent : Q;
  reduceThresholdPercent : Q;
  resumeThresholdPercent : Q;
  positionSizeReduction : Q;
  updateInterval : Z
}.

(** The reason templates of the source, with the number they print. *)
Inductive Reason : Type :=
| FilterDisabled
| ExtremeVolatility (percent : Q)
| HighVolatility (percent : Q)
| NormalVolatility.

Record VolatilityAction : Type := mkAction {
  shouldPause : bool;
  shouldReduce : bool;
  positionSizeFactor : Q;
  spreadMultiplier : Q;
  reason : Reason
}.

Record State : Type := mkState {
  priceHistory : list Q;
  volatilityHistory : list Q;
  lastUpdate : Z;
  currentVolatility : Q;
  isPaused : bool
}.

(** The [current] field of [getMetrics()]: 0 while no volatility has been
    recorded. *)
Definition metricsCurrent (st : State) : Q :=
  match volatilityHistory st with
  | [] => 0
  | _ => currentVolatility st
  end.

(** Both callers pass a [volPercent] above the reduce threshold, so the
    excess is positive; over a zero range the quotient is then
    [Infinity], and [Math.min] of it with 1 is 1. *)
Definition calculateReductionFactor (cfg : VolatilityConfig)
    (volPercent : Q) : Q :=
  let range := pauseThresholdPercent cfg - reduceThresholdPercent cfg in
  let excess := volPercent - reduceThresholdPercent cfg in
  let ratio := if Num.is_zero range then 1 else Num.min (excess / range) 1 in
  1 - ratio * (1 - positionSizeReduction cfg).

Definition set_paused (st : State) (paused : bool) : State :=
  {| priceHistory := priceHistory st;
     volatilityHistory := volatilityHistory st;
     lastUpdate := lastUpdate st;
     currentVolatility := currentVolatility st;
     isPaused := paused |}.

Definition getAction (cfg : VolatilityConfig) (st : State)
    : VolatilityAction * State :=
  if negb (enabled cfg) then
    ({| shouldPause := false; shouldReduce := false;
        positionSizeFactor := 1; spreadMultiplier := 1;
        reason := FilterDisabled |}, st)
  else
    let volPercent := metricsCurrent st * 100 in
    if Num.gtb volPercent (pauseThresholdPercent cfg) then
      ({| shouldPause := true; shouldReduce := true;
          positionSizeFactor := 0; spreadMultiplier := 2;
          reason := ExtremeVolatility volPercent |}, set_paused st true)
    else
      let st1 :=
        if isPaused st && Num.ltb volPercent (resumeThresholdPercent cfg)
        then set_paused st false else st in
      if Num.gtb volPercent (reduceThresholdPercent cfg) then
        ({| shouldPause := false; shouldReduce := true;
            positionSizeFactor := calculateReductionFactor cfg volPercent;
            spreadMultiplier := 1 + (volPercent / 100) * 0.5;
            reason := HighVolatility volPercent |}, st1)
      else
        ({| shouldPause := false; shouldReduce := false;
            positionSizeFactor := 1; spreadMultiplier := 1;
            reason := NormalVolatility |}, st1).

Definition calculateVolatilityAdjustedSize (cfg : VolatilityConfig)
    (baseSize vol : Q) : Q :=
  if negb (enabled cfg) then baseSize
  else
    let volPercent := vol * 100 in
    if Num.gtb volPercent (pauseThresholdPercent cfg) then 0
    else if Num.gtb volPercent (reduceThresholdPercent cfg)
    then baseSize * calculateReductionFactor cfg volPercent
    else baseSize.

End VolatilityFilter.

(** ** Order lifecycle: further methods of the market maker engine *)

Module OrderLifecycle.

Import MarketMaker.

(** [updateSlippage]: the new value of [currentSlippage]. *)
Definition updateSlippage (newSlippage : Q) : Q :=
  Num.max 0.001 (Num.min 0.1 newSlippage).

Record OrderState : Type := mkOrderState {
  bid : option PlacedOrder;
  ask : option PlacedOrder;
  bidWall : option PlacedOrder;
  askWall : option PlacedOrder;
  lastRefresh : Z
}.

(** An entry of the adapter's open-order list, with the fields the engine
    reads. *)
Record ActiveOrder : Type := mkActiveOrder {
  activeKey : string;
  activeInputMint : string;
  activeInAmount : Z;
  activeOutAmount : Z
}.

(** [activeOrders.some(o => o.orderKey.toString() === key)] *)
Definition stillActive (active : list ActiveOrder) (key : string) : bool :=
  existsb (fun o => String.eqb (activeKey o) key) active.

(** [checkForFills]: a locally tracked order that is no longer on the
    adapter's list counts as filled; the order-state object is updated in
    place. *)
Definition checkForFills (cfg : MarketMakerConfig) (st : State)
    (orders : gmap string OrderState) (walletKey : string)
    (active : list ActiveOrder) (now : Z)
    : State * gmap string OrderState :=
  match orders !! walletKey with
  | None => (st, orders)
  | Some orderState =>
      let '(st1, bid1) :=
        match bid orderState with
        | Some order =>
            if stillActive active (orderKey order) then (st, Some order)
            else (updateInventoryOnFill cfg st walletKey buy order now, None)
        | None => (st, None)
        end in
      let '(st2, ask1) :=
        match ask orderState with
        | Some order =>
            if stillActive active (orderKey order) then (st1, Some order)
            else (updateInventoryOnFill cfg st1 walletKey sell order now, None)
        | None => (st1, None)
        end in
      (st2,
       <[walletKey := {| bid := bid1; ask := ask1;
                         bidWall := bidWall orderState;
                         askWall := askWall orderState;
                         lastRefresh := lastRefresh orderState |}]> orders)
  end.

(** The constants of the loop body of [cancelStaleOrders]: the price of
    an open order, always computed with the quote decimals for the input
    amount and the base decimals for the output amount, the side it is
    taken for, and the test [priceDeviation > tolerance]. *)
Definition orderPrice (cfg : MarketMakerConfig) (order : ActiveOrder) : Q :=
  BNMath.calculatePrice (activeInAmount order) (activeOutAmount order)
                        (quoteDecimals cfg) (baseDecimals cfg).

Definition isBid (cfg : MarketMakerConfig) (order : ActiveOrder) : bool :=
  String.eqb (activeInputMint order) (quoteMint cfg).

Definition staleOrder (cfg : MarketMakerConfig) (currentSlippage : Q)
    (targetBid targetAsk : Q) (order : ActiveOrder) : bool :=
  let tolerance := currentSlippage in
  let targetPrice := if isBid cfg order then targetBid else targetAsk in
  Num.abs_div_gtb (orderPrice cfg order - targetPrice) targetPrice tolerance.

(** [cancelOk key] tells whether the adapter's [cancelOrder] succeeds for
    that order; a failure is logged and the loop goes on.  The result is
    the keys of the orders cancelled, in order, and the order states. *)
Fixpoint cancelStaleOrders (cfg : MarketMakerConfig) (currentSlippage : Q)
    (orders : gmap string OrderState) (walletKey : string)
    (active : list ActiveOrder) (targetBid targetAsk : Q)
    (cancelOk : string -> bool) : list string * gmap string OrderState :=
  match active with
  | [] => ([], orders)
  | order :: rest =>
      if staleOrder cfg currentSlippage targetBid targetAsk order
         && cancelOk (activeKey order)
      then
        let orders1 :=
          match orders !! walletKey with
          | Some orderState =>
              <[walletKey :=
                  if isBid cfg order
                  then {| bid := None; ask := ask orderState;
                          bidWall := bidWall orderState;
                          askWall := askWall orderState;
                          lastRefresh := lastRefresh orderState |}
                  else {| bid := bid orderState; ask := None;
                          bidWall := bidWall orderState;
                          askWall := askWall orderState;
                          lastRefresh := lastRefresh orderState |}]> orders
          | None => orders
          end in
        let '(cancelled, orders2) :=
          cancelStaleOrders cfg currentSlippage orders1 walletKey rest
                            targetBid targetAsk cancelOk in
        (activeKey order :: cancelled, orders2)
      else
        cancelStaleOrders cfg currentSlippage orders walletKey rest
                          targetBid targetAsk cancelOk
  end.

(** [volFactor] is the value of [calculateVolatilityFactor()]. *)
Definition calculateSafeOrderSize (cfg : MarketMakerConfig) (st : State)
    (walletKey : string) (inv : Inventory) (volFactor : Q) : Q :=
  let baseSize := orderSize cfg in
  let inventoryRatio :=
    calculateInventoryRatio cfg inv
      (if Num.truthy (avgBuyPrice inv) then avgBuyPrice inv else 1) in
  let targetRatio :=
    Num.or_default (inventoryTargets st !! walletKey) 0.5 in
  let adjustmentFactor0 :=
    if Num.gtb (Qabs (inventoryRatio - targetRatio)) 0.1 then 0.5
    else if Num.gtb (Qabs (inventoryRatio - targetRatio)) 0.2 then 0.2
    else 1 in
  let adjustmentFactor :=
    if Num.gtb volFactor 0.5 then adjustmentFactor0 * 0.7
    else adjustmentFactor0 in
  baseSize * adjustmentFactor.

End OrderLifecycle.

(** ** The price oracle as the specification words it *)

Module Spec.

(** The median of a list of numbers: the middle element of the list put
    in ascending order, or the mean of the two middle elements when the
    count is even. *)
Definition median (xs : list Q) : Q :=
  let ascending := Num.sort_asc xs in
  let n := length xs in
  if Nat.even n
  then (nth (n / 2 - 1) ascending 0 + nth (n / 2) ascending 0) / 2
  else nth (n / 2) ascending 0.



End Spec.

(** ** Concrete configurations and states used as examples *)

Module Scenario.

(** The oracle as [index.ts] configures it, with a spread of 100 bps and
    a 10% dampening threshold. *)
Definition oracleCfg : PriceAggregator.PriceAggregatorConfig :=
  {| PriceAggregator.cacheDurationMs := 5000;
     PriceAggregator.minSources := 2;
     PriceAggregator.maxPriceDeviationPercent := 10;
     PriceAggregator.spreadPercent := 1;
     PriceAggregator.enableCircuitBreaker := true;
     PriceAggregator.circuitBreakerThresholdPercent := 10 |}.

(** The oracle after it accepted a price of 100, with an empty cache. *)
Definition oracleAt100 : PriceAggregator.State :=
  {| PriceAggregator.cache := ∅; PriceAggregator.lastPrice := Some 100 |}.

Definition feeds (a b c d : option Q) : PriceAggregator.Feeds :=
  {| PriceAggregator.jupiter := a; PriceAggregator.pyth := b;
     PriceAggregator.birdeye := c; PriceAggregator.dexscreener := d |}.

(** The detector with the default thresholds of the configuration
    schema, for either setting of the auto-exit flag. *)
Definition riskCfg (autoExit : bool) : RugPullDetector.RugPullConfig :=
  {| RugPullDetector.lpMonitoringEnabled := true;
     RugPullDetector.supplyChangeThresholdPercent := 20;
     RugPullDetector.holderConcentrationThresholdPercent := 50;
     RugPullDetector.checkIntervalMs := 30000;
     RugPullDetector.autoExitOnDetection := autoExit |}.

(** Histories of one earlier check each: the LP check last saw a supply
    of 1000, the supply check one of 750. *)
Definition riskState : RugPullDetector.State :=
  {| RugPullDetector.lpHistory :=
       {[ "MINT" :=
            [ {| RugPullDetector.totalLiquidity := 1000;
                 RugPullDetector.lpTokenSupply := 1000;
                 RugPullDetector.lastChecked := 0;
                 RugPullDetector.lpChangePercent := 0;
                 RugPullDetector.lpSuspicious := false |} ] ]};
     RugPullDetector.supplyHistory :=
       {[ "MINT" :=
            [ {| RugPullDetector.currentSupply := 750;
                 RugPullDetector.previousSupply := 0;
                 RugPullDetector.supplyChangePercent := 0;
                 RugPullDetector.supplyTimestamp := 0;
                 RugPullDetector.supplySuspicious := false |} ] ]} |}.

(** The chain now reports a supply of 750 to every check, and a largest
    holder with 450 of them. *)
Definition riskChain : RugPullDetector.ChainData :=
  {| RugPullDetector.lpSupplyRpc := Some 750%Z;
     RugPullDetector.supplyRpc := Some 750%Z;
     RugPullDetector.largestAccountsRpc := Some [450; 100; 50]%Z;
     RugPullDetector.holderSupplyRpc := Some 750%Z |}.

(** A market maker on a 9-decimal base and a 6-decimal quote token with a
    1% spread, as [index.ts] wires it (minimum spread from 5 bps). *)
Definition makerCfg : MarketMaker.MarketMakerConfig :=
  {| MarketMaker.baseMint := "BASE";
     MarketMaker.quoteMint := "QUOTE";
     MarketMaker.baseDecimals := 9;
     MarketMaker.quoteDecimals := 6;
     MarketMaker.spreadPercent := 1;
     MarketMaker.orderSize := 10;
     MarketMaker.inventorySkew := 0.5;
     MarketMaker.maxPositionSize := 1000;
     MarketMaker.orderRefreshInterval := 15000;
     MarketMaker.minSpreadPercent := 0.05;
     MarketMaker.enableVolatilityAdaptive := true;
     MarketMaker.maxLossPercent := 10;
     MarketMaker.maxSlippagePercent := 1;
     MarketMaker.volThresholdPercent := 100;
     MarketMaker.enableBidAskWalls := false;
     MarketMaker.wallDepthPercent := 2;
     MarketMaker.targetInventoryRatio := 0.5 |}.

Definition inventoryOf (b q : Z) : MarketMaker.Inventory :=
  {| MarketMaker.base := b; MarketMaker.quote := q;
     MarketMaker.avgBuyPrice := 0; MarketMaker.lastUpdate := 0 |}.

(** Holdings worth 500 + 500 and 800 + 200 at a mid-price of 100. *)
Definition balancedInventory : MarketMaker.Inventory :=
  inventoryOf 5000000000 500000000.
Definition skewedInventory : MarketMaker.Inventory :=
  inventoryOf 8000000000 200000000.

(** One wallet, targeting a ratio of 0.5, with or without strategies. *)
Definition makerState (inv : MarketMaker.Inventory)
    (strategies : option SpreadController.State) : MarketMaker.State :=
  {| MarketMaker.inventory := {[ "WALLET" := inv ]};
     MarketMaker.inventoryTargets := {[ "WALLET" := 0.5 ]};
     MarketMaker.recentFills := ∅;
     MarketMaker.strategies := strategies |}.

(** A filled bid for one whole base token at the given price. *)
Definition bidFilledAt (p : Q) (quoteIn : Z) : MarketMaker.PlacedOrder :=
  {| MarketMaker.orderKey := "ORDER";
     MarketMaker.signature := "SIG";
     MarketMaker.inputMint := "QUOTE";
     MarketMaker.outputMint := "BASE";
     MarketMaker.inAmount := quoteIn;
     MarketMaker.outAmount := 1000000000;
     MarketMaker.price := p;
     MarketMaker.timestamp := 0;
     MarketMaker.type := MarketMaker.limit |}.

(** The spread controller of [createDefaultStrategyConfig]. *)
Definition spreadCfg : SpreadController.SpreadConfig :=
  {| SpreadController.minSpread := 0.005;
     SpreadController.maxSpread := 0.05;
     SpreadController.baseSpread := 0.01;
     SpreadController.volatilityMultiplier := 1.5;
     SpreadController.inventoryMultiplier := 1;
     SpreadController.minProfitBps := 5;
     SpreadController.adaptiveEnabled := true |}.

Definition freshController : SpreadController.State :=
  {| SpreadController.spreadHistory := [];
     SpreadController.fillHistory := [] |}.

(** The volatility filter in normal operation. *)
Definition normalAction : StrategyIntegration.VolatilityAction :=
  {| StrategyIntegration.actionShouldPause := false;
     StrategyIntegration.spreadMultiplier := 1 |}.

(** [getRecommendations] at zero volatility in normal operation. *)
Definition calmStrategy (midPrice : Q) (inventoryRatio recentFills : Q)
    : result unit MarketMaker.StrategyRecommendations :=
  Ok (StrategyIntegration.getRecommendations spreadCfg freshController
        midPrice 0 normalAction inventoryRatio recentFills).

(** A breaker with a five-minute cooldown and the given number of resume
    steps, tripped by hand at time 1000. *)
Definition breakerCfg (steps : Z) : CircuitBreaker.CircuitBreakerConfig :=
  {| CircuitBreaker.priceDeviationThresholdPercent := 50;
     CircuitBreaker.volatilityThresholdPercent := 100;
     CircuitBreaker.lossThresholdPercent := 10;
     CircuitBreaker.consecutiveFailuresThreshold := 5;
     CircuitBreaker.cooldownPeriodMs := 300000;
     CircuitBreaker.gradualResumeSteps := steps;
     CircuitBreaker.gradualResumeIntervalMs := 60000 |}.

Definition openBreaker : CircuitBreaker.Breaker :=
  CircuitBreaker.recordFailure
    (CircuitBreaker.manualTrip CircuitBreaker.initial "operator halt" 1000).

Definition lossReason : CircuitBreaker.TriggerReason :=
  {| CircuitBreaker.type := CircuitBreaker.loss;
     CircuitBreaker.value := 12;
     CircuitBreaker.threshold := 10;
     CircuitBreaker.message := CircuitBreaker.LossExceeded 12 |}.

(** The outcomes of a callback that rejects for the first two
    invocations and resolves afterwards. *)
Definition flakyCallback (call : nat) : CircuitBreaker.Outcome :=
  if (call <? 2)%nat then CircuitBreaker.Rejects
  else CircuitBreaker.Resolves.

(** The invocation number [k] settles one second after its firing, the
    firings being one interval apart and the resume having started at
    400000. *)
Definition resumeClock (k : nat) : Z := 461000 + 60000 * Z.of_nat k.

End Scenario.

(** * Properties *)

(** ** Comparisons on numbers *)

Section NumFacts.

Lemma ltb_lt (a b : Q) : Num.ltb a b = true <-> a < b.
Proof.
  unfold Num.ltb. rewrite negb_true_iff.
  split; intros H.
  - apply Qnot_le_lt. intros Hle. apply Qle_bool_iff in Hle. congruence.
  - destruct (Qle_bool b a) eqn:E; [|reflexivity].
    apply Qle_bool_iff in E. exfalso. apply (Qlt_not_le _ _ H E).
Qed.

Lemma ltb_ge (a b : Q) : Num.ltb a b = false <-> b <= a.
Proof.
  unfold Num.ltb. rewrite negb_false_iff. apply Qle_bool_iff.
Qed.

Lemma leb_le (a b : Q) : Num.leb a b = true <-> a <= b.
Proof. apply Qle_bool_iff. Qed.

Lemma leb_gt (a b : Q) : Num.leb a b = false <-> b < a.
Proof.
  rewrite <- ltb_lt. unfold Num.ltb, Num.leb.
  destruct (Qle_bool a b); simpl; split; congruence.
Qed.

Lemma gtb_gt (a b : Q) : Num.gtb a b = true <-> b < a.
Proof. apply ltb_lt. Qed.

Lemma geb_ge (a b : Q) : Num.geb a b = true <-> b <= a.
Proof. apply leb_le. Qed.

Lemma geb_lt (a b : Q) : Num.geb a b = false <-> a < b.
Proof. apply leb_gt. Qed.

Lemma truthy_nonzero (a : Q) : Num.truthy a = true <-> ~ a == 0.
Proof.
  unfold Num.truthy, Num.is_zero. rewrite negb_true_iff.
  split; intros H.
  - intros E. apply Qeq_bool_iff in E. congruence.
  - destruct (Qeq_bool a 0) eqn:E; [|reflexivity].
    apply Qeq_bool_iff in E. contradiction.
Qed.

Lemma if_truthy_Some (o : option Q) (a : Q) :
  Num.if_truthy o = Some a <-> o = Some a /\ ~ a == 0.
Proof.
  unfold Num.if_truthy. destruct o as [x|].
  - destruct (Num.truthy x) eqn:E.
    + apply truthy_nonzero in E. split.
      * intros [= <-]. auto.
      * intros [[= <-] _]. reflexivity.
    + split; [discriminate|]. intros [[= <-] Hn].
      apply truthy_nonzero in Hn. congruence.
  - split; [discriminate|]. intros [? _]. discriminate.
Qed.

Lemma min_spec (a b : Q) :
  (a <= b /\ Num.min a b = a) \/ (b < a /\ Num.min a b = b).
Proof.
  unfold Num.min. destruct (Num.leb a b) eqn:E.
  - left. apply leb_le in E. auto.
  - right. apply leb_gt in E. auto.
Qed.

Lemma max_spec (a b : Q) :
  (a <= b /\ Num.max a b = b) \/ (b < a /\ Num.max a b = a).
Proof.
  unfold Num.max. destruct (Num.leb a b) eqn:E.
  - left. apply leb_le in E. auto.
  - right. apply leb_gt in E. auto.
Qed.

End NumFacts.

(** ** Circuit breaker *)

Section BreakerFacts.

Import CircuitBreaker.

Variable cfg : CircuitBreakerConfig.

Lemma inCooldown_set_resume (b : Breaker) (step : Z) (armed : bool)
    (now : Z) :
  inCooldown cfg (set_resume b step armed) now = inCooldown cfg b now.
Proof. reflexivity. Qed.

(** Once the cooldown has elapsed it stays elapsed as time moves on. *)
Lemma inCooldown_later (b : Breaker) (now later : Z) :
  inCooldown cfg b now = false -> (now <= later)%Z ->
  inCooldown cfg b later = false.
Proof.
  unfold inCooldown. destruct (triggeredAt_truthy b) as [t|]; [|auto].
  rewrite !Z.ltb_ge. lia.
Qed.

Lemma inCooldown_early (b : Breaker) (now t : Z) :
  triggeredAt b = Some t -> t <> 0%Z -> (now - t < cooldownPeriodMs cfg)%Z ->
  inCooldown cfg b now = true.
Proof.
  intros Ht Hnz Hlt. unfold inCooldown, triggeredAt_truthy. rewrite Ht.
  destruct (Z.eqb_spec t 0); [contradiction|].
  apply Z.ltb_lt, Hlt.
Qed.

Lemma trip_open (b : Breaker) (reason : TriggerReason) (now : Z) :
  isOpen b = true -> trip b reason now = b.
Proof. intros H. unfold trip. rewrite H. reflexivity. Qed.

Lemma reset_in_cooldown (b : Breaker) (now : Z) :
  isOpen b = true -> inCooldown cfg b now = true -> reset cfg b now = b.
Proof. intros Ho Hc. unfold reset. rewrite Ho, Hc. reflexivity. Qed.

Lemma reset_after_cooldown (b : Breaker) (now : Z) :
  isOpen b = true -> inCooldown cfg b now = false ->
  reset cfg b now =
    {| isOpen := false; triggerReason := None; triggeredAt := None;
       consecutiveFailures := 0; resumeStep := 0; resumeInterval := false;
       priceHistory := priceHistory b |}.
Proof. intros Ho Hc. unfold reset. rewrite Ho, Hc. reflexivity. Qed.

Lemma checkConditions_open (b : Breaker) (now : Z) (c p l v : Q) :
  isOpen b = true -> snd (checkConditions cfg b now c p l v) = b.
Proof.
  intros Ho. unfold checkConditions.
  repeat match goal with
         | |- context [if ?g then _ else _] => destruct g
         end; simpl; auto using trip_open.
Qed.

Lemma runEvents_app (events1 events2 : list Event) (r : Run) :
  runEvents cfg (events1 ++ events2) r
  = runEvents cfg events2 (runEvents cfg events1 r).
Proof. apply fold_left_app. Qed.

Lemma runEvents_cons (e : Event) (events : list Event) (r : Run) :
  runEvents cfg (e :: events) r = runEvents cfg events (step cfg r e).
Proof. reflexivity. Qed.

Lemma runEvents_nil (r : Run) : runEvents cfg [] r = r.
Proof. reflexivity. Qed.

Lemma stepCalls_snoc (from n : nat) :
  stepCalls cfg from (S n)
  = stepCalls cfg from n
    ++ [(Z.of_nat (S (from + n)), gradualResumeSteps cfg)].
Proof.
  unfold stepCalls. rewrite seq_S, map_app. reflexivity.
Qed.

Lemma stepCalls_cons (from n : nat) :
  stepCalls cfg from (S n)
  = (Z.of_nat (S from), gradualResumeSteps cfg) :: stepCalls cfg (S from) n.
Proof. reflexivity. Qed.

Lemma rejectedSteps_cons (outcome : nat -> Outcome) (from n : nat) :
  rejectedSteps outcome from (S n)
  = logged (outcome from) (Z.of_nat (S from))
    ++ rejectedSteps outcome (S from) n.
Proof.
  unfold rejectedSteps, logged. cbn [seq List.filter].
  destruct (outcome from); reflexivity.
Qed.

Lemma timely_cons (outcome : nat -> Outcome) (clock : nat -> Z)
    (from n : nat) :
  timely outcome clock from (S n)
  = Fire :: Settle from (outcome from) (clock from)
    :: timely outcome clock (S from) n.
Proof. reflexivity. Qed.

(** A firing during a resume. *)
Lemma fire_resuming (b : Breaker) (j : nat) (cs : list (Z * Z))
    (ps : list nat) (fs : list Z) (res : bool) :
  fire cfg (resuming b j cs ps fs res)
  = resuming b (S j) (cs ++ [(Z.of_nat (S j), gradualResumeSteps cfg)])
             (ps ++ [length cs]) fs res.
Proof.
  unfold fire, resuming. cbn [breaker resumeInterval set_resume resumeStep
                              calls pending failedSteps resolved].
  replace (Z.of_nat j + 1)%Z with (Z.of_nat (S j)) by lia. reflexivity.
Qed.

(** An invocation that is not in flight cannot settle. *)
Lemma settle_not_pending (call : nat) (o : Outcome) (now : Z) (r : Run) :
  existsb (Nat.eqb call) (pending r) = false -> settle cfg call o now r = r.
Proof. intros H. unfold settle. rewrite H. reflexivity. Qed.

(** An invocation settling while steps remain. *)
Lemma settle_resuming_more (b : Breaker) (j : nat) (cs : list (Z * Z))
    (ps : list nat) (fs : list Z) (res : bool) (call : nat) (o : Outcome)
    (now : Z) :
  existsb (Nat.eqb call) ps = true ->
  (Z.of_nat j < gradualResumeSteps cfg)%Z ->
  settle cfg call o now (resuming b j cs ps fs res)
  = resuming b j cs (List.filter (fun i => negb (Nat.eqb call i)) ps)
             (fs ++ logged o (Z.of_nat j)) res.
Proof.
  intros Hp Hlt. unfold settle, resuming, logged.
  cbn [breaker pending resumeStep set_resume calls failedSteps resolved].
  rewrite Hp.
  destruct (Z.geb_spec (Z.of_nat j) (gradualResumeSteps cfg)); [lia|].
  destruct o; rewrite ?app_nil_r; reflexivity.
Qed.

(** An invocation settling once the step counter has reached the total:
    the timer is cleared, the breaker reset and the promise resolved. *)
Lemma settle_resuming_done (b : Breaker) (j : nat) (cs : list (Z * Z))
    (ps : list nat) (fs : list Z) (res : bool) (call : nat) (o : Outcome)
    (now : Z) :
  existsb (Nat.eqb call) ps = true ->
  (gradualResumeSteps cfg <= Z.of_nat j)%Z ->
  isOpen b = true ->
  inCooldown cfg b now = false ->
  settle cfg call o now (resuming b j cs ps fs res)
  = {| breaker := closed b; calls := cs;
       pending := List.filter (fun i => negb (Nat.eqb call i)) ps;
       failedSteps := fs ++ logged o (Z.of_nat j); resolved := true |}.
Proof.
  intros Hp Hge Ho Hc. unfold settle, resuming, logged.
  cbn [breaker pending resumeStep set_resume calls failedSteps resolved
       resumeInterval].
  rewrite Hp.
  destruct (Z.geb_spec (Z.of_nat j) (gradualResumeSteps cfg)); [|lia].
  rewrite reset_after_cooldown by (cbn; auto).
  destruct o; rewrite ?app_nil_r; reflexivity.
Qed.

Lemma settle_own_call (n : nat) :
  existsb (Nat.eqb n) [n] = true
  /\ List.filter (fun i => negb (Nat.eqb n i)) [n] = [].
Proof. cbn. rewrite Nat.eqb_refl. split; reflexivity. Qed.

(** Invocations that each settle before the next firing, while steps
    remain after them. *)
Lemma runEvents_timely_more (b : Breaker) (outcome : nat -> Outcome)
    (clock : nat -> Z) :
  forall (m j : nat) (cs : list (Z * Z)) (fs : list Z) (res : bool),
    length cs = j ->
    (Z.of_nat (j + m) < gradualResumeSteps cfg)%Z ->
    runEvents cfg (timely outcome clock j m) (resuming b j cs [] fs res)
    = resuming b (j + m) (cs ++ stepCalls cfg j m) []
               (fs ++ rejectedSteps outcome j m) res.
Proof.
  induction m as [|m IH]; intros j cs fs res Hlen Hlt.
  - cbn. rewrite Nat.add_0_r, !app_nil_r. reflexivity.
  - rewrite timely_cons, !runEvents_cons. cbn [step].
    rewrite fire_resuming. cbn [app]. rewrite Hlen.
    destruct (settle_own_call j) as [Hp Hf].
    rewrite settle_resuming_more by (auto; lia). rewrite Hf.
    rewrite IH by (rewrite ?length_app; cbn [length]; lia).
    rewrite stepCalls_cons, rejectedSteps_cons.
    replace (S j + m)%nat with (j + S m)%nat by lia.
    rewrite <- !app_assoc. reflexivity.
Qed.

(** The last of such invocations completes the resume. *)
Lemma runEvents_timely_last (b : Breaker) (outcome : nat -> Outcome)
    (clock : nat -> Z) (j : nat) (cs : list (Z * Z)) (fs : list Z)
    (res : bool) :
  length cs = j ->
  (gradualResumeSteps cfg <= Z.of_nat (S j))%Z ->
  isOpen b = true ->
  inCooldown cfg b (clock j) = false ->
  runEvents cfg (timely outcome clock j 1) (resuming b j cs [] fs res)
  = {| breaker := closed b; calls := cs ++ stepCalls cfg j 1;
       pending := [];
       failedSteps := fs ++ rejectedSteps outcome j 1; resolved := true |}.
Proof.
  intros Hlen Hge Ho Hc.
  rewrite timely_cons, !runEvents_cons. cbn [step].
  change (timely outcome clock (S j) 0) with (@nil Event).
  rewrite runEvents_nil.
  rewrite fire_resuming. cbn [app]. rewrite Hlen.
  destruct (settle_own_call j) as [Hp Hf].
  rewrite settle_resuming_done by auto. rewrite Hf.
  rewrite rejectedSteps_cons. unfold rejectedSteps. cbn [seq List.filter map].
  rewrite app_nil_r. reflexivity.
Qed.

Lemma timely_split (outcome : nat -> Outcome) (clock : nat -> Z)
    (from n : nat) :
  timely outcome clock from (S n)
  = timely outcome clock from n ++ timely outcome clock (from + n) 1.
Proof.
  unfold timely. rewrite seq_S, flat_map_app. reflexivity.
Qed.

(** A resume whose invocations all settle in time runs its [n] steps and
    closes the breaker. *)
Lemma runEvents_timely_completes (b : Breaker) (outcome : nat -> Outcome)
    (clock : nat -> Z) (n : nat) :
  (1 <= n)%nat ->
  Z.of_nat n = gradualResumeSteps cfg ->
  isOpen b = true ->
  (forall i, inCooldown cfg b (clock i) = false) ->
  runEvents cfg (timely outcome clock 0 n) (resuming b 0 [] [] [] false)
  = {| breaker := closed b; calls := stepCalls cfg 0 n; pending := [];
       failedSteps := rejectedSteps outcome 0 n; resolved := true |}.
Proof.
  intros Hn HN Ho Hc. destruct n as [|n]; [lia|].
  rewrite timely_split, runEvents_app.
  rewrite runEvents_timely_more by (cbn [length]; lia).
  cbn [app Nat.add].
  rewrite runEvents_timely_last; auto.
  - rewrite (stepCalls_snoc 0 n). unfold rejectedSteps.
    rewrite (seq_S n 0), List.filter_app, map_app. reflexivity.
  - unfold stepCalls. rewrite length_map, length_seq. reflexivity.
  - lia.
Qed.

Lemma fires_cons_fire (events : list Event) :
  fires (Fire :: events) = S (fires events).
Proof. reflexivity. Qed.

Lemma fires_cons_settle (call : nat) (o : Outcome) (now : Z)
    (events : list Event) :
  fires (Settle call o now :: events) = fires events.
Proof. reflexivity. Qed.

(** However the settlements fall between the firings, a resume stays
    under way while fewer firings have happened than there are steps. *)
Lemma runEvents_in_progress (b : Breaker) :
  forall (events : list Event) (j : nat) (ps : list nat) (fs : list Z),
    (Z.of_nat (j + fires events) < gradualResumeSteps cfg)%Z ->
    exists ps' fs',
      runEvents cfg events (resuming b j (stepCalls cfg 0 j) ps fs false)
      = resuming b (j + fires events)
                 (stepCalls cfg 0 (j + fires events)) ps' fs' false.
Proof.
  induction events as [|e events IH]; intros j ps fs Hlt.
  - exists ps, fs. cbn. rewrite Nat.add_0_r. reflexivity.
  - destruct e as [|call o now].
    + rewrite fires_cons_fire in *.
      rewrite runEvents_cons. cbn [step]. rewrite fire_resuming.
      replace (stepCalls cfg 0 j ++ [(Z.of_nat (S j), gradualResumeSteps cfg)])
        with (stepCalls cfg 0 (S j)) by (rewrite stepCalls_snoc; reflexivity).
      replace (j + S (fires events))%nat with (S j + fires events)%nat by lia.
      apply IH. lia.
    + rewrite fires_cons_settle in *.
      rewrite runEvents_cons. cbn [step].
      destruct (existsb (Nat.eqb call) ps) eqn:Hp.
      * rewrite settle_resuming_more by (auto; lia). apply IH. exact Hlt.
      * rewrite settle_not_pending by exact Hp. apply IH. exact Hlt.
Qed.

End BreakerFacts.

Section BreakerClaims.

Import CircuitBreaker.

(** C7.  Tripping is idempotent on an open breaker: for every open state
    and every trigger reason, [trip] returns the state it was given, so
    [triggeredAt] and [triggerReason] are unchanged and the breaker is
    still open. *)
Theorem trip_idempotent_when_open (b : Breaker) (reason : TriggerReason)
    (now : Z) :
  isOpen b = true ->
  trip b reason now = b
  /\ isOpen (trip b reason now) = true
  /\ triggeredAt (trip b reason now) = triggeredAt b
  /\ triggerReason (trip b reason now) = triggerReason b.
Proof.
  intros Ho. rewrite trip_open by exact Ho. auto.
Qed.

Lemma trip_idempotent_when_open_witness :
  isOpen Scenario.openBreaker = true
  /\ trip Scenario.openBreaker Scenario.lossReason 2000
     = Scenario.openBreaker
  /\ triggeredAt (trip Scenario.openBreaker Scenario.lossReason 2000)
     = Some 1000%Z.
Proof.
  split; [reflexivity|].
  destruct (trip_idempotent_when_open Scenario.openBreaker
              Scenario.lossReason 2000 eq_refl) as (He & _ & Ht & _).
  split; [exact He|]. rewrite Ht. reflexivity.
Defined.

(** No operation run before the cooldown has elapsed moves an open
    breaker out of [Open] or touches when and why it tripped. *)
Lemma perform_in_cooldown (cfg : CircuitBreakerConfig) (b : Breaker)
    (now : Z) (op : Op) :
  isOpen b = true -> inCooldown cfg b now = true ->
  isOpen (perform cfg b now op) = true
  /\ triggeredAt (perform cfg b now op) = triggeredAt b
  /\ triggerReason (perform cfg b now op) = triggerReason b.
Proof.
  intros Ho Hc. destruct op; cbn [perform].
  - rewrite trip_open by exact Ho. auto.
  - unfold manualTrip. rewrite trip_open by exact Ho. auto.
  - rewrite reset_in_cooldown by assumption. auto.
  - rewrite checkConditions_open by exact Ho. auto.
  - cbn. auto.
  - cbn. auto.
  - cbn. auto.
  - unfold gradualResume. rewrite Ho, Hc. cbn. auto.
Qed.

(** C8.  For every cooldown period and every open breaker, [reset] called
    before [cooldownPeriodMs] has elapsed since the trip returns the
    state unchanged (still open, same [triggeredAt], [triggerReason],
    [consecutiveFailures] and [resumeStep]); and no operation at all run
    at such a time, [gradualResume] included, closes the breaker.  The
    trip time is a [Date.now()] reading, hence not 0. *)
Theorem reset_before_cooldown_is_noop (cfg : CircuitBreakerConfig)
    (b : Breaker) (t now : Z) :
  isOpen b = true ->
  triggeredAt b = Some t ->
  t <> 0%Z ->
  (now - t < cooldownPeriodMs cfg)%Z ->
  reset cfg b now = b
  /\ isOpen (reset cfg b now) = true
  /\ triggeredAt (reset cfg b now) = Some t
  /\ triggerReason (reset cfg b now) = triggerReason b
  /\ consecutiveFailures (reset cfg b now) = consecutiveFailures b
  /\ resumeStep (reset cfg b now) = resumeStep b
  /\ (forall op : Op, isOpen (perform cfg b now op) = true).
Proof.
  intros Ho Ht Hnz Hlt.
  pose proof (inCooldown_early cfg b now t Ht Hnz Hlt) as Hc.
  rewrite reset_in_cooldown by assumption.
  repeat split; auto.
  intros op. apply perform_in_cooldown; assumption.
Qed.

Lemma reset_before_cooldown_is_noop_witness :
  reset (Scenario.breakerCfg 3) Scenario.openBreaker 300999
  = Scenario.openBreaker.
Proof.
  apply (reset_before_cooldown_is_noop (Scenario.breakerCfg 3)
           Scenario.openBreaker 1000 300999);
    [reflexivity | reflexivity | discriminate | reflexivity].
Defined.

(** The other direction: [reset] closes an open breaker only at a time
    when the cooldown has elapsed. *)
Lemma reset_closes_only_after_cooldown (cfg : CircuitBreakerConfig)
    (b : Breaker) (t now : Z) :
  isOpen b = true -> triggeredAt b = Some t -> t <> 0%Z ->
  isOpen (reset cfg b now) = false ->
  (cooldownPeriodMs cfg <= now - t)%Z.
Proof.
  intros Ho Ht Hnz Hclosed.
  destruct (Z.lt_ge_cases (now - t) (cooldownPeriodMs cfg)) as [Hlt|Hge];
    [|lia].
  rewrite reset_in_cooldown in Hclosed
    by eauto using inCooldown_early.
  congruence.
Qed.

Lemma canResume_spec (cfg : CircuitBreakerConfig) (b : Breaker) (now : Z) :
  canResume cfg b now = true ->
  isOpen b = true /\ inCooldown cfg b now = false.
Proof.
  unfold canResume, inCooldown.
  destruct (triggeredAt_truthy b); [|discriminate].
  rewrite andb_true_iff, Z.geb_le, Z.ltb_ge. tauto.
Qed.

(** Where C5 holds.  For an open breaker whose cooldown has elapsed and
    [N >= 1] steps, if every invocation of the callback settles before
    the timer fires again, [gradualResume] calls the callback exactly [N]
    times, for the steps [1 .. N] in order, whatever the outcomes: every
    rejected step is logged and the sequence goes on.  The promise
    resolves and the breaker ends closed with [consecutiveFailures = 0].
    Time does not run backwards after the call. *)
Lemma gradualResume_runs_all_steps (cfg : CircuitBreakerConfig)
    (b : Breaker) (now : Z) (outcome : nat -> Outcome) (clock : nat -> Z) :
  isOpen b = true ->
  inCooldown cfg b now = false ->
  (1 <= gradualResumeSteps cfg)%Z ->
  (forall k, (now <= clock k)%Z) ->
  let n := Z.to_nat (gradualResumeSteps cfg) in
  let r := gradualResume cfg b now (timely outcome clock 0 n) in
  calls r = stepCalls cfg 0 n
  /\ length (calls r) = n
  /\ failedSteps r = rejectedSteps outcome 0 n
  /\ pending r = []
  /\ resolved r = true
  /\ breaker r = closed b
  /\ isOpen (breaker r) = false
  /\ consecutiveFailures (breaker r) = 0%Z.
Proof.
  intros Ho Hc HN Hclock n r. subst r n.
  unfold gradualResume. rewrite Ho, Hc. cbn [negb].
  change {| breaker := set_resume b 0 true; calls := []; pending := [];
            failedSteps := []; resolved := false |}
    with (resuming b 0 [] [] [] false).
  rewrite runEvents_timely_completes; auto; try lia.
  - cbn [calls failedSteps pending resolved breaker].
    repeat split; auto.
    unfold stepCalls. rewrite length_map, length_seq. reflexivity.
  - intros i. eapply inCooldown_later; eauto.
Qed.

Lemma gradualResume_runs_all_steps_example :
  let r := gradualResume (Scenario.breakerCfg 3) Scenario.openBreaker
             400000
             (timely Scenario.flakyCallback Scenario.resumeClock 0 3) in
  calls r = [(1, 3); (2, 3); (3, 3)]%Z
  /\ failedSteps r = [1; 2]%Z
  /\ isOpen (breaker r) = false
  /\ consecutiveFailures (breaker r) = 0%Z.
Proof.
  destruct (gradualResume_runs_all_steps (Scenario.breakerCfg 3)
              Scenario.openBreaker 400000 Scenario.flakyCallback
              Scenario.resumeClock)
    as (Hcalls & _ & Hfailed & _ & _ & _ & Hopen & Hfail);
    [reflexivity | reflexivity | cbn; lia
    | intros k; unfold Scenario.resumeClock; lia |].
  cbv zeta. split; [exact Hcalls|]. split; [exact Hfailed|].
  split; assumption.
Defined.

(** C5 fails on the code.  The timer is armed with an [async] function
    and does not wait for the callback: when the invocation for the last
    step has not settled by the next firing, the callback is invoked
    again, with a step number above the total.  For an open breaker whose
    cooldown has elapsed and [N >= 1] steps, let the first [N - 1]
    invocations settle in time and the one for step [N] only after the
    timer has fired once more: the callback is then invoked [N + 1]
    times, the last time as step [N + 1] of [N], and that invocation is
    still in flight when the promise resolves and the breaker closes. *)
Theorem gradualResume_slow_step_is_called_again
    (cfg : CircuitBreakerConfig) (b : Breaker) (now : Z)
    (outcome : nat -> Outcome) (clock : nat -> Z) (o : Outcome)
    (later : Z) :
  isOpen b = true ->
  inCooldown cfg b now = false ->
  (1 <= gradualResumeSteps cfg)%Z ->
  (forall k, (now <= clock k)%Z) ->
  (now <= later)%Z ->
  let n := Z.to_nat (gradualResumeSteps cfg) in
  let events :=
    timely outcome clock 0 (n - 1)
    ++ [Fire; Fire; Settle (n - 1) o later] in
  let r := gradualResume cfg b now events in
  calls r = stepCalls cfg 0 (S n)
  /\ length (calls r) = S n
  /\ last (calls r)
     = Some (gradualResumeSteps cfg + 1, gradualResumeSteps cfg)%Z
  /\ pending r = [n]
  /\ resolved r = true
  /\ breaker r = closed b.
Proof.
  intros Ho Hc HN Hclock Hlater n events r. subst r events n.
  destruct (Z.to_nat (gradualResumeSteps cfg)) as [|m] eqn:Em; [lia|].
  assert (EN : gradualResumeSteps cfg = Z.of_nat (S m)) by lia.
  replace (S m - 1)%nat with m by lia.
  unfold gradualResume. rewrite Ho, Hc. cbn [negb].
  change {| breaker := set_resume b 0 true; calls := []; pending := [];
            failedSteps := []; resolved := false |}
    with (resuming b 0 [] [] [] false).
  rewrite runEvents_app.
  rewrite runEvents_timely_more by (cbn [length]; lia).
  cbn [app Nat.add].
  rewrite !runEvents_cons, runEvents_nil. cbn [step].
  rewrite !fire_resuming. cbn [app].
  assert (Hlen : length (stepCalls cfg 0 m) = m)
    by (unfold stepCalls; rewrite length_map, length_seq; reflexivity).
  rewrite length_app, Hlen. cbn [length].
  replace (m + 1)%nat with (S m) by lia.
  rewrite settle_resuming_done; auto.
  - cbn [calls pending resolved breaker List.filter].
    rewrite Nat.eqb_refl. cbn [negb].
    replace (m =? S m)%nat with false
      by (symmetry; apply Nat.eqb_neq; lia).
    cbn [negb].
    assert (Hcalls : (stepCalls cfg 0 m
                      ++ [(Z.of_nat (S m), gradualResumeSteps cfg)])
                     ++ [(Z.of_nat (S (S m)), gradualResumeSteps cfg)]
                     = stepCalls cfg 0 (S (S m))).
    { rewrite (stepCalls_snoc cfg 0 (S m)), (stepCalls_snoc cfg 0 m).
      reflexivity. }
    rewrite Hcalls. repeat split; auto.
    + unfold stepCalls. rewrite length_map, length_seq. reflexivity.
    + rewrite (stepCalls_snoc cfg 0 (S m)), last_snoc. cbn [Nat.add].
      do 2 f_equal. lia.
  - cbn [existsb]. rewrite Nat.eqb_refl. reflexivity.
  - lia.
  - eapply inCooldown_later; eauto.
Qed.

(** Three steps one minute apart; the callback settles at once for the
    steps 1 and 2 and takes longer than a minute for step 3: it is
    invoked a fourth time, as step 4 of 3. *)
Lemma gradualResume_slow_step_is_called_again_witness :
  let r := gradualResume (Scenario.breakerCfg 3) Scenario.openBreaker
             400000
             (timely Scenario.flakyCallback Scenario.resumeClock 0 2
              ++ [Fire; Fire; Settle 2 Resolves 670000]) in
  calls r = [(1, 3); (2, 3); (3, 3); (4, 3)]%Z
  /\ length (calls r) = 4%nat
  /\ isOpen (breaker r) = false.
Proof.
  destruct (gradualResume_slow_step_is_called_again
              (Scenario.breakerCfg 3) Scenario.openBreaker 400000
              Scenario.flakyCallback Scenario.resumeClock Resolves 670000)
    as (Hcalls & Hlen & _ & _ & _ & Hb);
    [reflexivity | reflexivity | cbn; lia
    | intros k; unfold Scenario.resumeClock; lia | lia |].
  cbv zeta. split; [exact Hcalls|]. split; [exact Hlen|].
  change (timely Scenario.flakyCallback Scenario.resumeClock 0
            (Z.to_nat
               (gradualResumeSteps (Scenario.breakerCfg 3)) - 1))
    with (timely Scenario.flakyCallback Scenario.resumeClock 0 2) in Hb.
  change (Z.to_nat (gradualResumeSteps (Scenario.breakerCfg 3)) - 1)%nat
    with 2%nat in Hb.
  rewrite Hb. reflexivity.
Defined.

(** A callback that never settles: the timer keeps firing and the
    callback keeps being invoked, beyond the configured number of steps,
    while the breaker stays open and the promise unresolved. *)
Lemma gradualResume_without_settling (cfg : CircuitBreakerConfig)
    (b : Breaker) (now : Z) (k : nat) :
  isOpen b = true ->
  inCooldown cfg b now = false ->
  let r := gradualResume cfg b now (repeat Fire k) in
  calls r = stepCalls cfg 0 k
  /\ isOpen (breaker r) = true
  /\ resolved r = false.
Proof.
  intros Ho Hc r. subst r.
  unfold gradualResume. rewrite Ho, Hc. cbn [negb].
  change {| breaker := set_resume b 0 true; calls := []; pending := [];
            failedSteps := []; resolved := false |}
    with (resuming b 0 (stepCalls cfg 0 0) [] [] false).
  assert (H : forall (k j : nat) (ps : list nat),
             exists ps',
               runEvents cfg (repeat Fire k)
                 (resuming b j (stepCalls cfg 0 j) ps [] false)
               = resuming b (j + k) (stepCalls cfg 0 (j + k)) ps' []
                          false).
  { clear k. induction k as [|k IH]; intros j ps.
    - exists ps. rewrite Nat.add_0_r. reflexivity.
    - cbn [repeat]. rewrite runEvents_cons. cbn [step].
      rewrite fire_resuming.
      replace (stepCalls cfg 0 j
               ++ [(Z.of_nat (S j), gradualResumeSteps cfg)])
        with (stepCalls cfg 0 (S j))
        by (rewrite stepCalls_snoc; reflexivity).
      destruct (IH (S j) (ps ++ [length (stepCalls cfg 0 j)]))
        as [ps' E].
      exists ps'. rewrite E. replace (S j + k)%nat with (j + S k)%nat by lia.
      reflexivity. }
  destruct (H k 0%nat []) as [ps' E]. rewrite E. cbn [Nat.add].
  cbn [calls breaker resolved resuming isOpen set_resume].
  auto.
Qed.

(** The firing counts before the completion test compares: configured
    with zero steps (which the configuration schema rejects) the callback
    would still be invoked once. *)
Remark gradualResume_zero_steps_calls_once :
  calls (gradualResume (Scenario.breakerCfg 0) Scenario.openBreaker 400000
           (timely Scenario.flakyCallback Scenario.resumeClock 0 1))
  = [(1, 0)%Z].
Proof. reflexivity. Qed.

End BreakerClaims.

(** ** Sorting and the median *)

Section SortFacts.

Lemma insert_asc_perm (x : Q) (l : list Q) :
  Permutation (Num.insert_asc x l) (x :: l).
Proof.
  induction l as [|y l IH]; cbn [Num.insert_asc]; [reflexivity|].
  destruct (Num.leb x y); [reflexivity|].
  rewrite IH. apply perm_swap.
Qed.

Lemma sort_asc_perm (l : list Q) : Permutation (Num.sort_asc l) l.
Proof.
  induction l as [|x l IH]; cbn [Num.sort_asc]; [reflexivity|].
  rewrite insert_asc_perm. apply perm_skip, IH.
Qed.

Lemma sort_asc_length (l : list Q) :
  length (Num.sort_asc l) = length l.
Proof. apply Permutation_length, sort_asc_perm. Qed.

Lemma insert_asc_sorted (x : Q) (l : list Q) :
  Sorted Qle l -> Sorted Qle (Num.insert_asc x l).
Proof.
  induction l as [|y l IH]; intros Hs; cbn [Num.insert_asc].
  - repeat constructor.
  - destruct (Num.leb x y) eqn:E.
    + apply leb_le in E. constructor; [exact Hs|]. constructor. exact E.
    + apply leb_gt in E. inversion Hs as [|? ? Hs' Hhd]; subst.
      constructor; [apply IH, Hs'|].
      destruct l as [|z l]; cbn [Num.insert_asc].
      * constructor. apply Qlt_le_weak, E.
      * destruct (Num.leb x z); constructor.
        -- apply Qlt_le_weak, E.
        -- inversion Hhd; assumption.
Qed.

Lemma sort_asc_sorted (l : list Q) : Sorted Qle (Num.sort_asc l).
Proof.
  induction l as [|x l IH]; cbn [Num.sort_asc]; [constructor|].
  apply insert_asc_sorted, IH.
Qed.

(** Sorting an ascending list returns it as it is. *)
Lemma sort_asc_id (l : list Q) : Sorted Qle l -> Num.sort_asc l = l.
Proof.
  induction l as [|x l IH]; intros Hs; [reflexivity|].
  inversion Hs as [|? ? Hs' Hhd]; subst.
  cbn [Num.sort_asc]. rewrite IH by exact Hs'.
  destruct l as [|y l]; [reflexivity|].
  cbn [Num.insert_asc]. inversion Hhd as [|? ? Hxy]; subst.
  apply leb_le in Hxy. rewrite Hxy. reflexivity.
Qed.

Lemma sort_asc_idempotent (l : list Q) :
  Num.sort_asc (Num.sort_asc l) = Num.sort_asc l.
Proof. apply sort_asc_id, sort_asc_sorted. Qed.

Lemma sort_asc_nil (l : list Q) : Num.sort_asc l = [] -> l = [].
Proof.
  intros H. apply (f_equal (@length Q)) in H.
  rewrite sort_asc_length in H. destruct l; [reflexivity|discriminate].
Qed.

Lemma even_mod2 (n : nat) : (n mod 2 =? 0)%nat = Nat.even n.
Proof.
  induction n as [n IH] using lt_wf_ind.
  destruct n as [|[|n]]; [reflexivity|reflexivity|].
  change (Nat.even (S (S n))) with (Nat.even n).
  rewrite <- IH by lia.
  replace (S (S n)) with (n + 1 * 2)%nat by lia.
  rewrite Nat.Div0.mod_add. reflexivity.
Qed.

Import PriceAggregator.

(** [getPrice] sorts before it calls [calculateMedian], which sorts again:
    the second sort changes nothing. *)
Lemma calculateMedian_sorted_input (l : list Q) :
  calculateMedian (Num.sort_asc l) = calculateMedian l.
Proof.
  unfold calculateMedian.
  destruct (Num.sort_asc l) as [|y ys] eqn:E.
  - apply sort_asc_nil in E. subst. reflexivity.
  - destruct l as [|x xs]; [discriminate|].
    rewrite <- E, sort_asc_idempotent. reflexivity.
Qed.

Lemma calculateMedian_is_median (l : list Q) :
  l <> [] -> calculateMedian l = Spec.median l.
Proof.
  intros Hne. unfold calculateMedian, Spec.median.
  destruct l as [|x xs]; [contradiction|].
  rewrite sort_asc_length, even_mod2. reflexivity.
Qed.

Lemma nth_positive (l : list Q) (i : nat) :
  Forall (fun x => 0 < x) l -> (i < length l)%nat -> 0 < nth i l 0.
Proof.
  intros Hall Hi. rewrite List.Forall_forall in Hall.
  apply Hall, nth_In, Hi.
Qed.

Lemma median_positive (l : list Q) :
  l <> [] -> Forall (fun x => 0 < x) l -> 0 < Spec.median l.
Proof.
  intros Hne Hall. unfold Spec.median.
  assert (Hlen : (0 < length l)%nat)
    by (destruct l; [contradiction|cbn; lia]).
  assert (Hs : Forall (fun x => 0 < x) (Num.sort_asc l)).
  { eapply Permutation_Forall; [|exact Hall].
    symmetry. apply sort_asc_perm. }
  assert (Hhalf : (length l / 2 < length l)%nat)
    by (apply Nat.div_lt; lia).
  pose proof (nth_positive _ (length l / 2) Hs
                ltac:(rewrite sort_asc_length; lia)) as H1.
  pose proof (nth_positive _ (length l / 2 - 1) Hs
                ltac:(rewrite sort_asc_length; lia)) as H2.
  destruct (Nat.even (length l)); [|exact H1].
  apply Qlt_shift_div_l; lra.
Qed.

End SortFacts.

(** ** Price oracle *)

Section OracleFacts.

Import PriceAggregator.

Variable cfg : PriceAggregatorConfig.

Lemma fetchPrice_positive (src : string) (conf : Q) (now : Z)
    (raw : option Q) (d : PriceData) :
  fetchPrice src conf now raw = Some d -> 0 < price d.
Proof.
  unfold fetchPrice. destruct raw as [p|]; [|discriminate].
  destruct (Num.truthy p); cbn [andb]; [|discriminate].
  destruct (Num.gtb p 0) eqn:E; [|discriminate].
  intros [= <-]. apply gtb_gt in E. exact E.
Qed.

Lemma validPrices_positive (now : Z) (f : Feeds) :
  Forall (fun d => 0 < price d) (validPrices now f).
Proof.
  unfold validPrices, fetchJupiterPrice, fetchPythPrice, fetchBirdeyePrice,
    fetchDexscreenerPrice.
  cbn [omap list_omap].
  repeat match goal with
         | |- context [fetchPrice ?s ?c ?n ?r] =>
             let E := fresh "E" in
             destruct (fetchPrice s c n r) eqn:E;
             [apply fetchPrice_positive in E|]
         end; cbn; repeat constructor; assumption.
Qed.

Lemma prices_positive (l : list PriceData) :
  Forall (fun d => 0 < price d) l -> Forall (fun x => 0 < x) (map price l).
Proof. induction 1; cbn; constructor; auto. Qed.

Lemma filter_positive (g : PriceData -> bool) (l : list PriceData) :
  Forall (fun d => 0 < price d) l ->
  Forall (fun d => 0 < price d) (List.filter g l).
Proof.
  induction 1 as [|d l Hd Hl IH]; cbn; [constructor|].
  destruct (g d); [constructor|]; auto.
Qed.



Lemma medianPrice_is_median (valid : list PriceData) :
  valid <> [] -> medianPrice valid = Spec.median (map price valid).
Proof.
  intros Hne. unfold medianPrice.
  rewrite calculateMedian_sorted_input.
  apply calculateMedian_is_median. destruct valid; [contradiction|discriminate].
Qed.



Lemma finalMedian_positive (valid : list PriceData) :
  Forall (fun d => 0 < price d) valid ->
  filteredPrices cfg valid <> [] ->
  0 < finalMedian cfg valid.
Proof.
  intros Hpos Hne. unfold finalMedian.
  rewrite calculateMedian_sorted_input.
  rewrite calculateMedian_is_median
    by (destruct (filteredPrices cfg valid); [contradiction|discriminate]).
  apply median_positive.
  - destruct (filteredPrices cfg valid); [contradiction|discriminate].
  - apply prices_positive. unfold filteredPrices.
    apply filter_positive, Hpos.
Qed.

Lemma finalMedian_nonneg (valid : list PriceData) :
  Forall (fun d => 0 < price d) valid -> 0 <= finalMedian cfg valid.
Proof.
  intros Hpos.
  destruct (filteredPrices cfg valid) as [|d l] eqn:E.
  - unfold finalMedian. rewrite E. cbn. lra.
  - apply Qlt_le_weak, finalMedian_positive; [exact Hpos|].
    rewrite E. discriminate.
Qed.

(** With an odd number of samples the first median is one of them, so the
    filter keeps at least that one. *)
Lemma odd_count_keeps_a_sample (valid : list PriceData) :
  Forall (fun d => 0 < price d) valid ->
  Nat.even (length valid) = false ->
  0 <= maxPriceDeviationPercent cfg ->
  filteredPrices cfg valid <> [].
Proof.
  intros Hpos Hodd Hdev.
  assert (Hv : valid <> []) by (intros ->; discriminate).
  assert (Hin : In (medianPrice valid) (map price valid)).
  { rewrite medianPrice_is_median by exact Hv.
    unfold Spec.median. rewrite length_map, Hodd.
    eapply Permutation_in; [apply sort_asc_perm|].
    apply nth_In. rewrite sort_asc_length, length_map.
    apply Nat.div_lt; [|lia]. destruct valid; [contradiction|cbn; lia]. }
  apply in_map_iff in Hin. destruct Hin as (d & Hd & Hdin).
  assert (Hkept : In d (filteredPrices cfg valid)).
  { unfold filteredPrices. apply List.filter_In. split; [exact Hdin|].
    cbv zeta. rewrite Hd. apply leb_le.
    assert (E : Qabs ((medianPrice valid - medianPrice valid)
                      / medianPrice valid) * 100 == 0).
    { assert (E0 : (medianPrice valid - medianPrice valid)
                   / medianPrice valid == 0)
        by (unfold Qdiv; ring).
      rewrite E0. reflexivity. }
    rewrite E. exact Hdev. }
  intros Hnil. rewrite Hnil in Hkept. contradiction.
Qed.





Lemma getPrice_dampened (st : State) (key : string) (force : bool)
    (now : Z) (f : Feeds) (d : Q) :
  cacheLookup cfg st key force now = None ->
  (minSources cfg <= length (validPrices now f))%nat ->
  dampenedPrice cfg st (finalMedian cfg (validPrices now f)) = Some d ->
  getPrice cfg st key force now f =
    (Ok (createAggregatedPrice cfg now d
           (filteredPrices cfg (validPrices now f))), st).
Proof.
  intros Hc Hn Hd. unfold getPrice. rewrite Hc.
  destruct (Nat.ltb_spec (length (validPrices now f)) (minSources cfg));
    [lia|].
  rewrite Hd. reflexivity.
Qed.

Lemma getPrice_accepted (st : State) (key : string) (force : bool)
    (now : Z) (f : Feeds) :
  cacheLookup cfg st key force now = None ->
  (minSources cfg <= length (validPrices now f))%nat ->
  dampenedPrice cfg st (finalMedian cfg (validPrices now f)) = None ->
  let aggregated :=
    createAggregatedPrice cfg now (finalMedian cfg (validPrices now f))
      (filteredPrices cfg (validPrices now f)) in
  getPrice cfg st key force now f =
    (Ok aggregated,
     {| cache := <[key := aggregated]> (cache st);
        lastPrice := Some (finalMedian cfg (validPrices now f)) |}).
Proof.
  intros Hc Hn Hd. unfold getPrice. rewrite Hc.
  destruct (Nat.ltb_spec (length (validPrices now f)) (minSources cfg));
    [lia|].
  rewrite Hd. reflexivity.
Qed.

(** [getPrice] keeps the stored last price non-negative. *)
Lemma getPrice_keeps_lastPrice_nonneg (st : State) (key : string)
    (force : bool) (now : Z) (f : Feeds) :
  lastPriceNonNegative st ->
  lastPriceNonNegative (snd (getPrice cfg st key force now f)).
Proof.
  intros Hinv. unfold getPrice.
  destruct (cacheLookup cfg st key force now); [exact Hinv|].
  destruct (_ <? _)%nat.
  - destruct (Num.if_truthy (lastPrice st)); exact Hinv.
  - destruct (dampenedPrice cfg st _); [exact Hinv|].
    intros last [= <-]. apply finalMedian_nonneg, validPrices_positive.
Qed.


End OracleFacts.

Section OracleClaims.

Import PriceAggregator.







(** C6.  When fewer than [minSources] feeds return a valid sample:
    with a previous accepted price [getPrice] returns the fallback built
    around it, bid and ask at the configured spread, whose only source is
    the synthetic sample tagged "fallback" with confidence 0.5; without
    one it throws the insufficient-sources error.  The state is left as
    it was in every case.  The source tests [if (this.lastPrice)]: a
    previous price exists when one is stored and is not 0.  A stored 0,
    which is no price, counts as none, and the call throws there too; the
    three cases cover every state. *)
Theorem getPrice_insufficient_sources (cfg : PriceAggregatorConfig)
    (st : State) (key : string) (force : bool) (now : Z) (f : Feeds) :
  cacheLookup cfg st key force now = None ->
  (length (validPrices now f) < minSources cfg)%nat ->
  (forall last, lastPrice st = Some last -> ~ last == 0 ->
     exists ap,
       getPrice cfg st key force now f = (Ok ap, st)
       /\ midPrice ap = last
       /\ bestBid ap == last - last * (spreadPercent cfg / 100 / 2)
       /\ bestAsk ap == last + last * (spreadPercent cfg / 100 / 2)
       /\ sources ap = [ {| price := last; source := "fallback";
                            confidence := 0.5; timestamp := now |} ]
       /\ Forall (fun s => confidence s <= 0.5) (sources ap)
       /\ aggConfidence ap <= 0.5)
  /\ (lastPrice st = None ->
      getPrice cfg st key force now f =
        (Throw (InsufficientSources (length (validPrices now f))
                                    (minSources cfg)), st))
  /\ (forall last, lastPrice st = Some last -> last == 0 ->
      getPrice cfg st key force now f =
        (Throw (InsufficientSources (length (validPrices now f))
                                    (minSources cfg)), st)).
Proof.
  intros Hc Hn. unfold getPrice. rewrite Hc.
  destruct (Nat.ltb_spec (length (validPrices now f)) (minSources cfg));
    [|lia].
  split; [|split].
  - intros last Hl Hnz.
    assert (E : Num.if_truthy (lastPrice st) = Some last)
      by (apply if_truthy_Some; auto).
    rewrite E. eexists. split; [reflexivity|].
    cbn [createFallbackPrice midPrice bestBid bestAsk sources
         aggConfidence].
    repeat split; try ring.
    + repeat constructor. cbn. lra.
    + lra.
  - intros Hl. rewrite Hl. reflexivity.
  - intros last Hl Hz.
    destruct (Num.if_truthy (lastPrice st)) as [x|] eqn:E; [|reflexivity].
    apply if_truthy_Some in E. destruct E as [Hx Hnz].
    rewrite Hl in Hx. injection Hx as <-. contradiction.
Qed.

(** The three cases: a stored price of 100, a new oracle, and the oracle
    that stored a price of 0 when the filter removed both of its samples
    (1 and 100 with a 10% limit). *)
Lemma getPrice_insufficient_sources_witness :
  (exists ap,
     getPrice Scenario.oracleCfg Scenario.oracleAt100 "SOL_USDC" true 1000
       (Scenario.feeds (Some 101) None (Some 0) None)
     = (Ok ap, Scenario.oracleAt100)
     /\ midPrice ap = 100)
  /\ getPrice Scenario.oracleCfg initial "SOL_USDC" true 1000
       (Scenario.feeds (Some 101) None (Some 0) None)
     = (Throw (InsufficientSources 1 2), initial)
  /\ fst (getPrice Scenario.oracleCfg
            (snd (getPrice Scenario.oracleCfg initial "SOL_USDC" true 1000
                    (Scenario.feeds (Some 1) (Some 100) None None)))
            "SOL_USDC" true 2000
            (Scenario.feeds (Some 101) None (Some 0) None))
     = Throw (InsufficientSources 1 2).
Proof.
  split; [|split].
  - destruct (getPrice_insufficient_sources Scenario.oracleCfg
                Scenario.oracleAt100 "SOL_USDC" true 1000
                (Scenario.feeds (Some 101) None (Some 0) None))
      as [Hfallback _]; [reflexivity | vm_compute; lia |].
    destruct (Hfallback 100 eq_refl) as (ap & Hget & Hmid & _);
      [discriminate|].
    exists ap. split; assumption.
  - destruct (getPrice_insufficient_sources Scenario.oracleCfg initial
                "SOL_USDC" true 1000
                (Scenario.feeds (Some 101) None (Some 0) None))
      as (_ & Hthrow & _); [reflexivity | vm_compute; lia |].
    apply Hthrow. reflexivity.
  - destruct (getPrice_insufficient_sources Scenario.oracleCfg
                (snd (getPrice Scenario.oracleCfg initial "SOL_USDC" true
                        1000
                        (Scenario.feeds (Some 1) (Some 100) None None)))
                "SOL_USDC" true 2000
                (Scenario.feeds (Some 101) None (Some 0) None))
      as (_ & _ & Hzero); [reflexivity | vm_compute; lia |].
    rewrite (Hzero 0); reflexivity.
Defined.

(** C10.  When the dampening branch is taken, [getPrice] returns the
    dampened aggregate and leaves the state as it was: the stored last
    price and the cache are unchanged.  Any later call therefore behaves
    as if made from the state before, comparing its median against the
    same previous accepted price. *)
Theorem dampening_leaves_state_untouched (cfg : PriceAggregatorConfig)
    (st : State) (key : string) (force : bool) (now : Z) (f : Feeds)
    (d : Q) :
  cacheLookup cfg st key force now = None ->
  (minSources cfg <= length (validPrices now f))%nat ->
  dampenedPrice cfg st (finalMedian cfg (validPrices now f)) = Some d ->
  let '(answer, st') := getPrice cfg st key force now f in
  answer = Ok (createAggregatedPrice cfg now d
                 (filteredPrices cfg (validPrices now f)))
  /\ st' = st
  /\ lastPrice st' = lastPrice st
  /\ cache st' = cache st
  /\ cache st' !! key = cache st !! key
  /\ (forall key' force' now' f',
        getPrice cfg st' key' force' now' f'
        = getPrice cfg st key' force' now' f')
  /\ (forall final, dampenedPrice cfg st' final = dampenedPrice cfg st final).
Proof.
  intros Hc Hn Hd.
  rewrite (getPrice_dampened cfg st key force now f d) by assumption.
  repeat split; reflexivity.
Qed.

Lemma dampening_leaves_state_untouched_witness :
  snd (getPrice Scenario.oracleCfg Scenario.oracleAt100 "SOL_USDC" true
         1000 (Scenario.feeds (Some 150) (Some 150) None None))
  = Scenario.oracleAt100.
Proof.
  pose proof (dampening_leaves_state_untouched Scenario.oracleCfg
                Scenario.oracleAt100 "SOL_USDC" true 1000
                (Scenario.feeds (Some 150) (Some 150) None None) 120.0
                eq_refl) as H.
  destruct (getPrice Scenario.oracleCfg Scenario.oracleAt100 "SOL_USDC"
              true 1000 (Scenario.feeds (Some 150) (Some 150) None None))
    as [answer st'].
  destruct H as (_ & Hst & _); [vm_compute; lia | reflexivity |].
  exact Hst.
Defined.

(** Outside the amended C1: when the filter removes every sample the
    second median is that of an empty list.  With the samples 1 and 100
    (first median 50.5, both deviate by 98%) and no previous price,
    [getPrice] returns and stores a price of 0. *)
Remark getPrice_all_filtered_returns_zero :
  let '(answer, st') :=
    getPrice Scenario.oracleCfg initial "SOL_USDC" true 1000
      (Scenario.feeds (Some 1) (Some 100) None None) in
  (exists ap, answer = Ok ap /\ sources ap = [] /\ midPrice ap == 0
              /\ bestBid ap == 0 /\ bestAsk ap == 0)
  /\ lastPrice st' = Some 0.
Proof.
  vm_compute. split; [|reflexivity].
  eexists. repeat split; reflexivity.
Qed.

(** By contrast, an accepted median is stored and cached. *)
Lemma accepted_price_is_stored (cfg : PriceAggregatorConfig) (st : State)
    (key : string) (force : bool) (now : Z) (f : Feeds) :
  cacheLookup cfg st key force now = None ->
  (minSources cfg <= length (validPrices now f))%nat ->
  dampenedPrice cfg st (finalMedian cfg (validPrices now f)) = None ->
  let '(answer, st') := getPrice cfg st key force now f in
  lastPrice st' = Some (finalMedian cfg (validPrices now f))
  /\ exists ap, answer = Ok ap /\ cache st' !! key = Some ap.
Proof.
  intros Hc Hn Hd.
  rewrite (getPrice_accepted cfg st key force now f) by assumption.
  split; [reflexivity|]. eexists. split; [reflexivity|].
  cbn [cache]. apply lookup_insert_eq.
Qed.

End OracleClaims.

(** ** Rug-pull risk scorer *)

Section RiskClaims.

Import RugPullDetector.

Lemma calculateRisk_level (cfg : RugPullConfig) (lp : LPStatus)
    (sc : SupplyChange) (hc : HolderConcentration) :
  let r := calculateRisk cfg lp sc hc in
  (level r = critical <-> 80 <= score r)
  /\ (level r = high <-> 60 <= score r /\ score r < 80)
  /\ (level r = medium <-> 40 <= score r /\ score r < 60)
  /\ (level r = low <-> score r < 40).
Proof.
  unfold calculateRisk.
  destruct (lpSuspicious lp), (supplySuspicious sc), (holderSuspicious hc);
    cbn [level score];
    match goal with
    | |- context [Num.geb ?s 80] => generalize s; intros total
    end;
    (destruct (Num.geb total 80) eqn:E80;
     [apply geb_ge in E80 | apply geb_lt in E80;
      destruct (Num.geb total 60) eqn:E60;
      [apply geb_ge in E60 | apply geb_lt in E60;
       destruct (Num.geb total 40) eqn:E40;
       [apply geb_ge in E40 | apply geb_lt in E40]]]);
    repeat split; intros; try discriminate; try lra; tauto.
Qed.

Lemma calculateRisk_shouldExit (cfg : RugPullConfig) (lp : LPStatus)
    (sc : SupplyChange) (hc : HolderConcentration) :
  let r := calculateRisk cfg lp sc hc in
  shouldExit r = true <->
  autoExitOnDetection cfg = true /\ (level r = high \/ level r = critical).
Proof.
  cbv zeta. unfold calculateRisk.
  destruct (lpSuspicious lp), (supplySuspicious sc), (holderSuspicious hc);
    cbn [level shouldExit];
    match goal with
    | |- context [Num.geb ?s 80] => generalize s; intros total
    end;
    destruct (autoExitOnDetection cfg), (Num.geb total 80),
      (Num.geb total 60), (Num.geb total 40); cbn;
    intuition (try discriminate; try congruence).
Qed.

(** An LP drop of 25% is flagged whatever [lpMonitoringEnabled] says, and
    a 60% top holder is flagged by any threshold below 60. *)
Lemma calculateRisk_scenario (cfg : RugPullConfig) (lp : LPStatus)
    (sc : SupplyChange) (hc : HolderConcentration) :
  lpSuspicious lp = true -> lpChangePercent lp == -25 ->
  supplySuspicious sc = false ->
  holderSuspicious hc = true -> topHolderPercent hc == 60 ->
  let r := calculateRisk cfg lp sc hc in
  score r == 70 /\ level r = high
  /\ shouldExit r = autoExitOnDetection cfg.
Proof.
  intros Hlp Hchg Hsc Hhc Htop.
  pose proof (calculateRisk_level cfg lp sc hc) as Hlevel.
  cbv zeta in *.
  assert (Hscore : score (calculateRisk cfg lp sc hc) == 70).
  { unfold calculateRisk. rewrite Hlp, Hsc, Hhc. cbn [score].
    assert (Habs : Qabs (lpChangePercent lp) == 25)
      by (rewrite Hchg; reflexivity).
    destruct (min_spec (Qabs (lpChangePercent lp) * 2) 40)
      as [[H1 ->]|[H1 ->]];
      destruct (min_spec (topHolderPercent hc * 0.5) 30)
        as [[H2 ->]|[H2 ->]]; lra. }
  assert (Hhigh : level (calculateRisk cfg lp sc hc) = high).
  { apply Hlevel. lra. }
  repeat split; try assumption.
  pose proof (calculateRisk_shouldExit cfg lp sc hc) as Hexit.
  cbv zeta in Hexit.
  destruct (autoExitOnDetection cfg) eqn:Ea.
  - apply Hexit. auto.
  - apply not_true_is_false. intros E.
    apply Hexit in E. destruct E; discriminate.
Qed.

(** C9.  With an LP decrease of 25% since the previous snapshot, an
    unflagged (unchanged) supply and a flagged top holder owning 60%, the
    score is 40 + 0 + 30 = 70, the level is high and [shouldExit] equals
    the auto-exit flag.  For all inputs the level is critical iff
    [score >= 80], high iff [60 <= score < 80], medium iff
    [40 <= score < 60] and low otherwise, and [shouldExit] holds iff
    auto-exit is enabled and the level is high or critical. *)
Theorem risk_score_and_level (cfg : RugPullConfig) (lp : LPStatus)
    (sc : SupplyChange) (hc : HolderConcentration) :
  let r := calculateRisk cfg lp sc hc in
  (lpSuspicious lp = true -> lpChangePercent lp == -25 ->
   supplySuspicious sc = false -> supplyChangePercent sc == 0 ->
   holderSuspicious hc = true -> topHolderPercent hc == 60 ->
   score r == 40 + 0 + 30 /\ level r = high
   /\ shouldExit r = autoExitOnDetection cfg)
  /\ (level r = critical <-> 80 <= score r)
  /\ (level r = high <-> 60 <= score r /\ score r < 80)
  /\ (level r = medium <-> 40 <= score r /\ score r < 60)
  /\ (level r = low <-> score r < 40)
  /\ (shouldExit r = true <->
      autoExitOnDetection cfg = true
      /\ (level r = high \/ level r = critical)).
Proof.
  cbv zeta.
  destruct (calculateRisk_level cfg lp sc hc) as (Hc & Hh & Hm & Hl).
  split; [|repeat (split; [assumption|]);
           apply (calculateRisk_shouldExit cfg lp sc hc)].
  intros Hlp Hchg Hsc _ Hhc Htop.
  destruct (calculateRisk_scenario cfg lp sc hc Hlp Hchg Hsc Hhc Htop)
    as (Hs & Hlv & He).
  repeat split; assumption.
Qed.

(** The scenario run through the checks themselves: the LP check last saw
    1000 and now sees 750, the supply check sees 750 as before, and the
    largest holder has 450 of 750. *)
Lemma risk_score_and_level_witness :
  let r := fst (checkToken (Scenario.riskCfg true) Scenario.riskState
                  "MINT" 1000 Scenario.riskChain) in
  score r == 70 /\ level r = high /\ shouldExit r = true.
Proof.
  cbv zeta.
  set (cfg := Scenario.riskCfg true).
  set (lpRes := checkLPTokens cfg Scenario.riskState "MINT" 1000
                  (Some 750%Z)).
  set (scRes := checkSupplyChanges cfg (snd lpRes) "MINT" 1000
                  (Some 750%Z)).
  set (hc := checkHolderConcentration cfg (Some [450; 100; 50]%Z)
               (Some 750%Z)).
  change (fst (checkToken cfg Scenario.riskState "MINT" 1000
                 Scenario.riskChain))
    with (calculateRisk cfg (fst lpRes) (fst scRes) hc).
  destruct (risk_score_and_level cfg (fst lpRes) (fst scRes) hc)
    as [Hscenario _].
  destruct Hscenario as (Hs & Hl & He);
    [vm_compute; reflexivity | vm_compute; reflexivity
    | vm_compute; reflexivity | vm_compute; reflexivity
    | vm_compute; reflexivity | vm_compute; reflexivity |].
  split; [rewrite Hs; reflexivity|]. split; assumption.
Defined.

End RiskClaims.

(** ** Inventory ledger *)

Section LedgerClaims.

Import MarketMaker.

Lemma pow10_positive (d : nat) : 0 < BNMath.pow10 d.
Proof.
  unfold BNMath.pow10. change 0 with (inject_Z 0).
  rewrite <- Zlt_Qlt. apply Z.pow_pos_nonneg; lia.
Qed.

(** For at least one decimal and a non-negative amount the UI amount is
    the amount divided by [10 ^ decimals]. *)
Lemma toUIAmountNumber_nonneg (a : Z) (d : nat) :
  (0 <= a)%Z -> (1 <= d)%nat ->
  BNMath.toUIAmountNumber a d = inject_Z a / BNMath.pow10 d.
Proof.
  intros Ha Hd. unfold BNMath.toUIAmountNumber.
  destruct d as [|d]; [lia|].
  destruct (Z.leb_spec 0 a); [reflexivity|lia].
Qed.

(** First half of C3: a buy fill on an inventory whose cost basis is zero
    sets the cost basis to the fill price. *)
Lemma first_buy_sets_cost_basis (cfg : MarketMakerConfig) (inv : Inventory)
    (order : PlacedOrder) (now : Z) :
  avgBuyPrice inv == 0 ->
  avgBuyPrice (fillInventory cfg inv buy order now) = price order.
Proof.
  intros Hz. cbn [fillInventory avgBuyPrice].
  unfold Num.is_zero. apply Qeq_bool_iff in Hz. rewrite Hz. reflexivity.
Qed.

Lemma sell_keeps_cost_basis (cfg : MarketMakerConfig) (inv : Inventory)
    (order : PlacedOrder) (now : Z) :
  avgBuyPrice (fillInventory cfg inv sell order now) = avgBuyPrice inv.
Proof. reflexivity. Qed.

(** What the code computes for a later buy: the fill price is weighted
    with the whole post-fill base amount, not with the filled amount. *)
Lemma later_buy_cost_basis (cfg : MarketMakerConfig) (inv : Inventory)
    (order : PlacedOrder) (now : Z) :
  (1 <= baseDecimals cfg)%nat ->
  (0 <= base inv)%Z -> (0 < outAmount order)%Z ->
  ~ avgBuyPrice inv == 0 ->
  avgBuyPrice (fillInventory cfg inv buy order now)
  == (inject_Z (base inv) * avgBuyPrice inv
      + inject_Z (base inv + outAmount order) * price order)
     / inject_Z (base inv + outAmount order).
Proof.
  intros Hd Hb Ho Hnz. cbn [fillInventory avgBuyPrice].
  assert (Ez : Num.is_zero (avgBuyPrice inv) = false).
  { pose proof (proj2 (truthy_nonzero _) Hnz) as Ht.
    unfold Num.truthy in Ht. apply negb_true_iff in Ht. exact Ht. }
  rewrite Ez.
  rewrite !toUIAmountNumber_nonneg by lia.
  pose proof (pow10_positive (baseDecimals cfg)) as Hp.
  assert (Hs : 0 < inject_Z (base inv + outAmount order)).
  { change 0 with (inject_Z 0). rewrite <- Zlt_Qlt. lia. }
  rewrite (inject_Z_plus (base inv) (outAmount order)) in *.
  field. split; lra.
Qed.

(** Two equal buys from an empty inventory: the code yields
    [p' + p / 2]. *)
Lemma two_equal_buys_cost_basis (cfg : MarketMakerConfig) (inv : Inventory)
    (o1 o2 : PlacedOrder) (t1 t2 : Z) :
  (1 <= baseDecimals cfg)%nat ->
  base inv = 0%Z -> avgBuyPrice inv == 0 ->
  (0 < outAmount o1)%Z -> outAmount o2 = outAmount o1 ->
  ~ price o1 == 0 ->
  avgBuyPrice (fillInventory cfg (fillInventory cfg inv buy o1 t1)
                             buy o2 t2)
  == price o2 + price o1 / 2.
Proof.
  intros Hd Hb Hz Ho Heq Hnz.
  pose proof (first_buy_sets_cost_basis cfg inv o1 t1 Hz) as H1.
  rewrite later_buy_cost_basis; try assumption.
  - rewrite H1. cbn [fillInventory base]. rewrite Hb, Heq.
    rewrite Z.add_0_l, inject_Z_plus.
    assert (Hs : 0 < inject_Z (outAmount o1)).
    { change 0 with (inject_Z 0). rewrite <- Zlt_Qlt. lia. }
    field. lra.
  - cbn [fillInventory base]. lia.
  - lia.
  - rewrite H1. exact Hnz.
Qed.

(** C3, at a concrete input: starting from an inventory without base
    tokens and with a zero cost basis, a buy of one token at 100 sets the
    cost basis to 100; a second buy of one token at 100 moves it to 150,
    where the value-weighted average of the two fills is 100. *)
Theorem second_buy_cost_basis_off :
  let inv0 := Scenario.inventoryOf 0 1000000000 in
  let st0 := Scenario.makerState inv0 None in
  let st1 := updateInventoryOnFill Scenario.makerCfg st0 "WALLET" buy
               (Scenario.bidFilledAt 100 100000000) 1 in
  let st2 := updateInventoryOnFill Scenario.makerCfg st1 "WALLET" buy
               (Scenario.bidFilledAt 100 100000000) 2 in
  (avgBuyPrice <$> inventory st1 !! "WALLET") = Some 100
  /\ exists inv2,
       inventory st2 !! "WALLET" = Some inv2
       /\ base inv2 = 2000000000%Z
       /\ quote inv2 = 800000000%Z
       /\ avgBuyPrice inv2 == 150
       /\ ~ avgBuyPrice inv2 == (100 + 100) / 2.
Proof.
  cbv zeta. split; [vm_compute; reflexivity|].
  eexists. split; [vm_compute; reflexivity|].
  repeat split; try reflexivity. discriminate.
Qed.

End LedgerClaims.

(** ** Quoting engine *)

Section QuoteClaims.

Import MarketMaker.

(** The default calculation always quotes symmetrically around the
    mid-price: whatever the inventory, bid and ask are equally far. *)
Lemma default_quote_symmetric (cfg : MarketMakerConfig) (st : State)
    (walletKey : string) (mid ratio vol : Q) :
  let '(bid, ask) := defaultTargetPrices cfg st walletKey mid ratio vol in
  mid - bid == ask - mid.
Proof.
  unfold defaultTargetPrices. cbv zeta. ring.
Qed.

(** C4, first half: mid-price 100, base spread 1%, volatility factor 0
    and a balanced inventory give bid 99.5 and ask 100.5. *)
Lemma balanced_quote :
  let st := Scenario.makerState Scenario.balancedInventory None in
  let '(bid, ask) :=
    calculateTargetPrices Scenario.makerCfg st "WALLET" 100
      Scenario.balancedInventory 0 (Scenario.calmStrategy 100) in
  bid == 99.5 /\ ask == 100.5.
Proof. vm_compute. split; reflexivity. Qed.

(** C4, at the concrete input of the claim, on the default calculation:
    with 80% of the value in base against a target of 50% the code
    multiplies the whole spread by 1.3.  The ask moves from 100.5 up to
    100.65, the bid moves from 99.5 down to 99.35 (it widens too), and
    the total spread grows from 1 to 1.3. *)
Theorem default_quote_skew_is_symmetric :
  let cfg := Scenario.makerCfg in
  let balanced :=
    calculateTargetPrices cfg
      (Scenario.makerState Scenario.balancedInventory None) "WALLET" 100
      Scenario.balancedInventory 0 (Scenario.calmStrategy 100) in
  let skewed :=
    calculateTargetPrices cfg
      (Scenario.makerState Scenario.skewedInventory None) "WALLET" 100
      Scenario.skewedInventory 0 (Scenario.calmStrategy 100) in
  calculateInventoryRatio cfg Scenario.balancedInventory 100 == 0.5
  /\ calculateInventoryRatio cfg Scenario.skewedInventory 100 == 0.8
  /\ fst balanced == 99.5 /\ snd balanced == 100.5
  /\ fst skewed == 99.35 /\ snd skewed == 100.65
  /\ fst skewed < fst balanced
  /\ snd balanced < snd skewed
  /\ snd balanced - fst balanced == 1
  /\ snd skewed - fst skewed == 1.3
  /\ ~ snd skewed - fst skewed == snd balanced - fst balanced.
Proof.
  cbv zeta. vm_compute. repeat split; try reflexivity; discriminate.
Qed.

(** The sibling path: with strategies enabled the spread controller
    splits an unchanged total spread asymmetrically.  At the same input
    the ask widens to 100.65 and the bid tightens to 99.65. *)
Lemma strategy_quote_skew_is_asymmetric :
  let cfg := Scenario.makerCfg in
  let balanced :=
    calculateTargetPrices cfg
      (Scenario.makerState Scenario.balancedInventory
         (Some Scenario.freshController)) "WALLET" 100
      Scenario.balancedInventory 0 (Scenario.calmStrategy 100) in
  let skewed :=
    calculateTargetPrices cfg
      (Scenario.makerState Scenario.skewedInventory
         (Some Scenario.freshController)) "WALLET" 100
      Scenario.skewedInventory 0 (Scenario.calmStrategy 100) in
  fst balanced == 99.5 /\ snd balanced == 100.5
  /\ fst skewed == 99.65 /\ snd skewed == 100.65
  /\ fst balanced < fst skewed
  /\ snd balanced < snd skewed
  /\ snd skewed - fst skewed == snd balanced - fst balanced.
Proof.
  cbv zeta. vm_compute. repeat split; reflexivity.
Qed.

(** In general the spread controller keeps the total: the two sides
    always add up to the clamped total spread. *)
Lemma asymmetric_spread_keeps_total (total adjustment ratio : Q) :
  let '(bid, ask) :=
    SpreadController.calculateAsymmetricSpread total adjustment ratio in
  bid + ask == total.
Proof.
  unfold SpreadController.calculateAsymmetricSpread.
  destruct (Num.gtb ratio 0.5); [field|].
  destruct (Num.ltb ratio 0.5); field.
Qed.

End QuoteClaims.

(** * Further properties of the code *)

(** ** Price oracle: cache, fallback and accepted samples *)

Section OracleMore.

Import PriceAggregator.

(** A price accepted at [now] is served from the cache, and the state is
    left alone, by every unforced call for the same pair made less than
    [cacheDurationMs] later, whatever the feeds would answer then. *)
Theorem accepted_price_served_from_cache (cfg : PriceAggregatorConfig)
    (st : State) (key : string) (force : bool) (now now' : Z)
    (f f' : Feeds) :
  cacheLookup cfg st key force now = None ->
  (minSources cfg <= length (validPrices now f))%nat ->
  dampenedPrice cfg st (finalMedian cfg (validPrices now f)) = None ->
  (now' - now < cacheDurationMs cfg)%Z ->
  getPrice cfg (snd (getPrice cfg st key force now f)) key false now' f'
  = (fst (getPrice cfg st key force now f),
     snd (getPrice cfg st key force now f)).
Proof.
  intros Hc Hn Hd Hfresh.
  rewrite (getPrice_accepted cfg st key force now f) by assumption.
  cbn [fst snd]. unfold getPrice at 1, cacheLookup.
  cbn [cache]. rewrite lookup_insert_eq.
  cbn [aggTimestamp createAggregatedPrice].
  destruct (Z.ltb_spec (now' - now) (cacheDurationMs cfg)); [reflexivity|lia].
Qed.

Lemma accepted_price_served_from_cache_witness :
  let first :=
    getPrice Scenario.oracleCfg initial "SOL_USDC" false 1000
      (Scenario.feeds (Some 1) (Some 1.01) (Some 0.99) (Some 5)) in
  getPrice Scenario.oracleCfg (snd first) "SOL_USDC" false 5999
    (Scenario.feeds None None None None)
  = (fst first, snd first).
Proof.
  apply (accepted_price_served_from_cache Scenario.oracleCfg initial
           "SOL_USDC" false 1000 5999
           (Scenario.feeds (Some 1) (Some 1.01) (Some 0.99) (Some 5))
           (Scenario.feeds None None None None));
    [reflexivity | vm_compute; lia | reflexivity | reflexivity].
Defined.





(** Every source listed in an aggregate computed from the feeds is one of
    the valid samples of that call, has a positive price, and deviates
    from the first median by at most [maxPriceDeviationPercent]. *)
Theorem aggregate_sources_are_filtered_samples
    (cfg : PriceAggregatorConfig) (st st' : State) (key : string)
    (force : bool) (now : Z) (f : Feeds) (ap : AggregatedPrice) :
  cacheLookup cfg st key force now = None ->
  (minSources cfg <= length (validPrices now f))%nat ->
  getPrice cfg st key force now f = (Ok ap, st') ->
  Forall (fun s =>
            In s (validPrices now f)
            /\ 0 < price s
            /\ Qabs ((price s - medianPrice (validPrices now f))
                     / medianPrice (validPrices now f)) * 100
               <= maxPriceDeviationPercent cfg)
         (sources ap).
Proof.
  intros Hc Hn Hget.
  assert (Hs : sources ap = filteredPrices cfg (validPrices now f)).
  { unfold getPrice in Hget. rewrite Hc in Hget.
    destruct (Nat.ltb_spec (length (validPrices now f)) (minSources cfg));
      [lia|].
    destruct (dampenedPrice cfg st _); injection Hget as <- _; reflexivity. }
  rewrite Hs. apply List.Forall_forall. intros s Hin.
  unfold filteredPrices in Hin. apply List.filter_In in Hin.
  destruct Hin as [Hin Hdev]. cbv zeta in Hdev. apply leb_le in Hdev.
  pose proof (validPrices_positive now f) as Hpos.
  rewrite List.Forall_forall in Hpos. auto.
Qed.

Lemma aggregate_sources_are_filtered_samples_witness :
  Forall (fun s => 0 < price s /\ source s <> "dexscreener")
    (match fst (getPrice Scenario.oracleCfg initial "SOL_USDC" false 1000
                  (Scenario.feeds (Some 1) (Some 1.01) (Some 0.99) (Some 5)))
     with
     | Ok ap => sources ap
     | Throw _ => []
     end).
Proof.
  pose proof (aggregate_sources_are_filtered_samples Scenario.oracleCfg
                initial _ "SOL_USDC" false 1000
                (Scenario.feeds (Some 1) (Some 1.01) (Some 0.99) (Some 5))
                _ eq_refl ltac:(vm_compute; lia) eq_refl) as H.
  cbn [fst]. eapply Forall_impl; [exact H|].
  intros s (Hin & Hpos & Hdev). split; [exact Hpos|].
  intros Hsrc.
  assert (Hp : price s == 5).
  { vm_compute in Hin.
    destruct Hin as [<-|[<-|[<-|[<-|[]]]]]; try discriminate. reflexivity. }
  rewrite Hp in Hdev. vm_compute in Hdev. apply Hdev. reflexivity.
Defined.

(** Whatever calls are made on a new aggregator, the stored last price is
    never negative. *)
Theorem lastPrice_never_negative (cfg : PriceAggregatorConfig)
    (calls : list Call) (last : Q) :
  lastPrice (getPriceAll cfg initial calls) = Some last -> 0 <= last.
Proof.
  assert (H : forall st, lastPriceNonNegative st ->
                         lastPriceNonNegative (getPriceAll cfg st calls)).
  { induction calls as [|c calls IH]; intros st Hinv; [exact Hinv|].
    cbn [getPriceAll fold_left]. apply IH.
    destruct (cacheLookup cfg st (callKey c) (callForce c) (callNow c))
      eqn:Hc; unfold getPrice; rewrite Hc; [exact Hinv|].
    destruct (_ <? _)%nat.
    - destruct (Num.if_truthy (lastPrice st)); exact Hinv.
    - destruct (dampenedPrice cfg st _); [exact Hinv|].
      intros p [= <-]. apply finalMedian_nonneg, validPrices_positive. }
  apply (H initial). intros p. discriminate.
Qed.

Lemma lastPrice_never_negative_witness :
  lastPrice (getPriceAll Scenario.oracleCfg initial
               [ {| callKey := "SOL_USDC"; callForce := true;
                    callNow := 1000;
                    callFeeds := Scenario.feeds (Some 1) (Some 100) None None |} ])
  = Some 0
  /\ 0 <= 0.
Proof.
  split; [reflexivity|].
  apply (lastPrice_never_negative Scenario.oracleCfg
           [ {| callKey := "SOL_USDC"; callForce := true; callNow := 1000;
                callFeeds := Scenario.feeds (Some 1) (Some 100) None None |} ]
           0).
  reflexivity.
Defined.

Lemma nth_within (l : list Q) (i : nat) (lo hi : Q) :
  Forall (fun x => lo <= x /\ x <= hi) l -> (i < length l)%nat ->
  lo <= nth i l 0 /\ nth i l 0 <= hi.
Proof.
  intros Hall Hi. rewrite List.Forall_forall in Hall.
  apply Hall, nth_In, Hi.
Qed.

(** The median of a non-empty list lies between any bounds that hold for
    all of its elements. *)
Lemma calculateMedian_within (l : list Q) (lo hi : Q) :
  l <> [] -> Forall (fun x => lo <= x /\ x <= hi) l ->
  lo <= calculateMedian l /\ calculateMedian l <= hi.
Proof.
  intros Hne Hall. rewrite calculateMedian_is_median by exact Hne.
  unfold Spec.median.
  assert (Hlen : (0 < length l)%nat)
    by (destruct l; [contradiction|cbn; lia]).
  assert (Hs : Forall (fun x => lo <= x /\ x <= hi) (Num.sort_asc l)).
  { eapply Permutation_Forall; [|exact Hall].
    symmetry. apply sort_asc_perm. }
  assert (Hhalf : (length l / 2 < length l)%nat)
    by (apply Nat.div_lt; lia).
  pose proof (nth_within _ (length l / 2) lo hi Hs
                ltac:(rewrite sort_asc_length; lia)) as [H1 H2].
  pose proof (nth_within _ (length l / 2 - 1) lo hi Hs
                ltac:(rewrite sort_asc_length; lia)) as [H3 H4].
  destruct (Nat.even (length l)); [|auto].
  split.
  - apply Qle_shift_div_l; lra.
  - apply Qle_shift_div_r; lra.
Qed.

(** An accepted mid-price lies between the lowest and the highest valid
    sample of the call: no feed set can push the aggregate outside the
    range the feeds themselves span. *)
Theorem accepted_price_between_samples (cfg : PriceAggregatorConfig)
    (st : State) (key : string) (force : bool) (now : Z) (f : Feeds)
    (lo hi : Q) :
  cacheLookup cfg st key force now = None ->
  (minSources cfg <= length (validPrices now f))%nat ->
  dampenedPrice cfg st (finalMedian cfg (validPrices now f)) = None ->
  filteredPrices cfg (validPrices now f) <> [] ->
  Forall (fun s => lo <= price s /\ price s <= hi) (validPrices now f) ->
  exists ap,
    fst (getPrice cfg st key force now f) = Ok ap
    /\ lo <= midPrice ap /\ midPrice ap <= hi.
Proof.
  intros Hc Hn Hd Hne Hall.
  rewrite (getPrice_accepted cfg st key force now f) by assumption.
  eexists. split; [reflexivity|]. cbn [midPrice createAggregatedPrice].
  unfold finalMedian. rewrite calculateMedian_sorted_input.
  apply calculateMedian_within.
  - destruct (filteredPrices cfg (validPrices now f));
      [contradiction|discriminate].
  - apply List.Forall_forall. intros x Hx.
    apply in_map_iff in Hx. destruct Hx as (s & <- & Hs).
    unfold filteredPrices in Hs. apply List.filter_In in Hs.
    rewrite List.Forall_forall in Hall. apply Hall, Hs.
Qed.

Lemma accepted_price_between_samples_witness :
  exists ap,
    fst (getPrice Scenario.oracleCfg initial "SOL_USDC" false 1000
           (Scenario.feeds (Some 1) (Some 1.01) (Some 0.99) (Some 5)))
    = Ok ap
    /\ 0.99 <= midPrice ap /\ midPrice ap <= 5.
Proof.
  apply (accepted_price_between_samples Scenario.oracleCfg initial
           "SOL_USDC" false 1000
           (Scenario.feeds (Some 1) (Some 1.01) (Some 0.99) (Some 5))
           0.99 5);
    [reflexivity | vm_compute; lia | reflexivity | discriminate |].
  vm_compute. repeat constructor; discriminate.
Defined.

Lemma inject_length_succ {A : Type} (x : A) (l : list A) :
  inject_Z (Z.of_nat (length (x :: l)))
  == inject_Z (Z.of_nat (length l)) + 1.
Proof.
  cbn [length]. rewrite Nat2Z.inj_succ, <- Z.add_1_r, inject_Z_plus.
  reflexivity.
Qed.

Lemma fold_sum_between (l : list Q) (lo hi acc : Q) :
  Forall (fun x => lo <= x /\ x <= hi) l ->
  acc + lo * inject_Z (Z.of_nat (length l)) <= fold_left Qplus l acc
  /\ fold_left Qplus l acc <= acc + hi * inject_Z (Z.of_nat (length l)).
Proof.
  intros Hall. revert acc.
  induction Hall as [|x l [Hlo Hhi] Hall IH]; intros acc.
  - cbn [length fold_left]. change (inject_Z (Z.of_nat 0)) with 0.
    split; lra.
  - cbn [fold_left]. rewrite inject_length_succ.
    destruct (IH (acc + x)) as [H1 H2].
    set (n := inject_Z (Z.of_nat (length l))) in *.
    assert (E1 : lo * (n + 1) == lo * n + lo) by ring.
    assert (E2 : hi * (n + 1) == hi * n + hi) by ring.
    rewrite E1, E2. split; lra.
Qed.

Lemma fetchPrice_confidence (src : string) (conf : Q) (now : Z)
    (raw : option Q) (d : PriceData) :
  fetchPrice src conf now raw = Some d -> confidence d = conf.
Proof.
  unfold fetchPrice. destruct raw as [p|]; [|discriminate].
  destruct (_ && _); [|discriminate]. intros [= <-]. reflexivity.
Qed.

Lemma validPrices_confidence (now : Z) (f : Feeds) :
  Forall (fun d => 0.8 <= confidence d /\ confidence d <= 0.95)
         (validPrices now f).
Proof.
  unfold validPrices, fetchJupiterPrice, fetchPythPrice, fetchBirdeyePrice,
    fetchDexscreenerPrice.
  cbn [omap list_omap].
  repeat match goal with
         | |- context [fetchPrice ?s ?c ?n ?r] =>
             let E := fresh "E" in
             destruct (fetchPrice s c n r) eqn:E;
             [apply fetchPrice_confidence in E|]
         end; cbn [id]; repeat constructor;
    match goal with
    | H : confidence _ = _ |- _ => rewrite H; discriminate
    end.
Qed.

(** The confidence of an aggregate computed from the feeds, being the mean
    of the confidences of the surviving sources, lies between the lowest
    feed confidence 0.8 and the highest 0.95. *)
Theorem aggregate_confidence_between_feed_confidences
    (cfg : PriceAggregatorConfig) (st st' : State) (key : string)
    (force : bool) (now : Z) (f : Feeds) (ap : AggregatedPrice) :
  cacheLookup cfg st key force now = None ->
  (minSources cfg <= length (validPrices now f))%nat ->
  getPrice cfg st key force now f = (Ok ap, st') ->
  sources ap <> [] ->
  0.8 <= aggConfidence ap /\ aggConfidence ap <= 0.95.
Proof.
  intros Hc Hn Hget Hne.
  assert (Hap : exists mid,
             ap = createAggregatedPrice cfg now mid
                    (filteredPrices cfg (validPrices now f))).
  { unfold getPrice in Hget. rewrite Hc in Hget.
    destruct (Nat.ltb_spec (length (validPrices now f)) (minSources cfg));
      [lia|].
    destruct (dampenedPrice cfg st _); injection Hget as <- _; eauto. }
  destruct Hap as [mid ->]. cbn [sources createAggregatedPrice] in Hne.
  cbn [aggConfidence createAggregatedPrice]. unfold Num.sum.
  set (srcs := filteredPrices cfg (validPrices now f)) in *.
  assert (Hall : Forall (fun x => 0.8 <= x /\ x <= 0.95)
                        (map confidence srcs)).
  { apply List.Forall_forall. intros x Hx.
    apply in_map_iff in Hx. destruct Hx as (s & <- & Hs).
    unfold srcs, filteredPrices in Hs. apply List.filter_In in Hs.
    pose proof (validPrices_confidence now f) as Hv.
    rewrite List.Forall_forall in Hv. apply Hv, Hs. }
  destruct (fold_sum_between _ 0.8 0.95 0 Hall) as [H1 H2].
  rewrite length_map in H1, H2.
  assert (Hn0 : 0 < inject_Z (Z.of_nat (length srcs))).
  { change 0 with (inject_Z 0). rewrite <- Zlt_Qlt.
    destruct srcs; [contradiction|cbn; lia]. }
  split.
  - apply Qle_shift_div_l; [exact Hn0|]. lra.
  - apply Qle_shift_div_r; [exact Hn0|]. lra.
Qed.

Lemma aggregate_confidence_between_feed_confidences_witness :
  exists ap,
    fst (getPrice Scenario.oracleCfg initial "SOL_USDC" false 1000
           (Scenario.feeds (Some 1) (Some 1.01) (Some 0.99) (Some 5)))
    = Ok ap
    /\ 0.8 <= aggConfidence ap /\ aggConfidence ap <= 0.95.
Proof.
  eexists. split; [reflexivity|].
  apply (aggregate_confidence_between_feed_confidences Scenario.oracleCfg
           initial
           (snd (getPrice Scenario.oracleCfg initial "SOL_USDC" false 1000
                   (Scenario.feeds (Some 1) (Some 1.01) (Some 0.99)
                                   (Some 5))))
           "SOL_USDC" false 1000
           (Scenario.feeds (Some 1) (Some 1.01) (Some 0.99) (Some 5)));
    [reflexivity | vm_compute; lia | reflexivity | discriminate].
Defined.

End OracleMore.

(** ** Circuit breaker: trip conditions, counters and status *)

Section BreakerMore.

Import CircuitBreaker.




(** On a closed breaker the first matching condition, in the order price
    deviation, volatility, loss, failures, names the trip reason, and the
    trip time is the time of the check. *)
Theorem checkConditions_first_match_wins (cfg : CircuitBreakerConfig)
    (b : Breaker) (now : Z)
    (currentPrice previousPrice currentLoss vol : Q) :
  ~ previousPrice == 0 ->
  isOpen b = false ->
  fst (checkConditions cfg b now currentPrice previousPrice currentLoss vol)
  = true ->
  let b' :=
    snd (checkConditions cfg b now currentPrice previousPrice currentLoss
                         vol) in
  let deviation :=
    Qabs ((currentPrice - previousPrice) / previousPrice) * 100 in
  triggeredAt b' = Some now
  /\ exists reason,
       triggerReason b' = Some reason
       /\ (priceDeviationThresholdPercent cfg < deviation ->
           type reason = price_deviation /\ value reason = deviation)
       /\ (deviation <= priceDeviationThresholdPercent cfg ->
           volatilityThresholdPercent cfg < vol ->
           type reason = volatility /\ value reason = vol)
       /\ (deviation <= priceDeviationThresholdPercent cfg ->
           vol <= volatilityThresholdPercent cfg ->
           lossThresholdPercent cfg < currentLoss ->
           type reason = loss /\ value reason = currentLoss)
       /\ (deviation <= priceDeviationThresholdPercent cfg ->
           vol <= volatilityThresholdPercent cfg ->
           currentLoss <= lossThresholdPercent cfg ->
           type reason = failures
           /\ value reason = inject_Z (consecutiveFailures b)).
Proof.
  intros _ Ho. unfold checkConditions, trip. rewrite Ho.
  destruct (Num.gtb _ (priceDeviationThresholdPercent cfg)) eqn:E1;
    [apply gtb_gt in E1 | apply ltb_ge in E1].
  { intros _. cbv zeta.
    cbn [snd triggeredAt triggerReason].
    split; [reflexivity|]. eexists. split; [reflexivity|].
    cbn [type value].
    repeat split; intros; try reflexivity; exfalso; lra. }
  destruct (Num.gtb vol (volatilityThresholdPercent cfg)) eqn:E2;
    [apply gtb_gt in E2 | apply ltb_ge in E2].
  { intros _. cbv zeta.
    cbn [snd triggeredAt triggerReason].
    split; [reflexivity|]. eexists. split; [reflexivity|].
    cbn [type value].
    repeat split; intros; try reflexivity; exfalso; lra. }
  destruct (Num.gtb currentLoss (lossThresholdPercent cfg)) eqn:E3;
    [apply gtb_gt in E3 | apply ltb_ge in E3].
  { intros _. cbv zeta.
    cbn [snd triggeredAt triggerReason].
    split; [reflexivity|]. eexists. split; [reflexivity|].
    cbn [type value].
    repeat split; intros; try reflexivity; exfalso; lra. }
  destruct (Z.geb_spec (consecutiveFailures b)
                       (consecutiveFailuresThreshold cfg)) as [E4|E4].
  { intros _. cbv zeta.
    cbn [snd triggeredAt triggerReason].
    split; [reflexivity|]. eexists. split; [reflexivity|].
    cbn [type value].
    repeat split; intros; try reflexivity; exfalso; lra. }
  cbn [fst]. discriminate.
Qed.

Lemma checkConditions_first_match_wins_witness :
  let b' :=
    snd (checkConditions (Scenario.breakerCfg 3) initial 7000 160 100 12 0)
  in
  triggeredAt b' = Some 7000%Z
  /\ (type <$> triggerReason b') = Some price_deviation.
Proof.
  destruct (checkConditions_first_match_wins (Scenario.breakerCfg 3)
              initial 7000 160 100 12 0 ltac:(discriminate) eq_refl eq_refl)
    as (Ht & reason & Hr & Hdev & _).
  cbv zeta. split; [exact Ht|].
  rewrite Hr. cbn. f_equal. apply Hdev. reflexivity.
Defined.




Lemma pushBounded_drop {A : Type} (h : list A) (x : A) :
  (length h <= 100)%nat ->
  RugPullDetector.pushBounded h x
  = drop (length (h ++ [x]) - 100) (h ++ [x]).
Proof.
  intros Hlen. unfold RugPullDetector.pushBounded.
  rewrite length_app. cbn [length].
  destruct (Nat.ltb_spec 100 (length h + 1)) as [Hfull|Hroom].
  - replace (length h + 1 - 100)%nat with 1%nat by lia.
    destruct (h ++ [x]); reflexivity.
  - replace (length h + 1 - 100)%nat with 0%nat by lia. reflexivity.
Qed.

Lemma pushBounded_length {A : Type} (h : list A) (x : A) :
  (length h <= 100)%nat ->
  (length (RugPullDetector.pushBounded h x) <= 100)%nat.
Proof.
  intros Hlen. rewrite pushBounded_drop by exact Hlen.
  rewrite length_drop, length_app. cbn [length]. lia.
Qed.

(** Pushing a run of entries through the bounded history leaves the last
    100 of everything pushed so far. *)
Lemma fold_pushBounded {A : Type} (xs : list A) :
  forall h : list A,
    (length h <= 100)%nat ->
    fold_left RugPullDetector.pushBounded xs h
    = drop (length (h ++ xs) - 100) (h ++ xs).
Proof.
  induction xs as [|x xs IH]; intros h Hlen.
  - cbn [fold_left]. rewrite app_nil_r.
    replace (length h - 100)%nat with 0%nat by lia. reflexivity.
  - cbn [fold_left]. rewrite IH by (apply pushBounded_length, Hlen).
    rewrite pushBounded_drop by exact Hlen.
    rewrite (length_app h (x :: xs)), !length_app, length_drop, length_app.
    cbn [length].
    destruct (Nat.le_gt_cases 100 (length h)) as [Hfull|Hroom].
    + replace (length h + 1 - 100)%nat with 1%nat by lia.
      rewrite <- (drop_app_le (h ++ [x]) xs 1)
        by (rewrite length_app; cbn; lia).
      rewrite drop_drop, <- app_assoc. cbn [app]. f_equal. lia.
    + replace (length h + 1 - 100)%nat with 0%nat by lia.
      rewrite drop_0, <- app_assoc. cbn [app]. f_equal. lia.
Qed.

Lemma updatePriceHistoryAll_fields (ps : list Q) :
  forall b : Breaker,
    priceHistory (updatePriceHistoryAll b ps)
    = fold_left RugPullDetector.pushBounded ps (priceHistory b)
    /\ isOpen (updatePriceHistoryAll b ps) = isOpen b
    /\ consecutiveFailures (updatePriceHistoryAll b ps)
       = consecutiveFailures b.
Proof.
  unfold updatePriceHistoryAll.
  induction ps as [|p ps IH]; intros b; cbn [fold_left]; [auto|].
  destruct (IH (updatePriceHistory b p)) as (-> & -> & ->).
  repeat split; reflexivity.
Qed.

(** The price history is a sliding window: after any run of
    [updatePriceHistory] calls it holds the last 100 prices of the old
    history followed by the new prices, oldest first, and nothing else of
    the breaker has changed. *)
Theorem priceHistory_keeps_last_100 (b : Breaker) (ps : list Q) :
  (length (priceHistory b) <= 100)%nat ->
  let b' := updatePriceHistoryAll b ps in
  priceHistory b'
  = drop (length (priceHistory b ++ ps) - 100) (priceHistory b ++ ps)
  /\ (length (priceHistory b') <= 100)%nat
  /\ isOpen b' = isOpen b
  /\ consecutiveFailures b' = consecutiveFailures b.
Proof.
  intros Hlen b'. subst b'.
  destruct (updatePriceHistoryAll_fields ps b) as (-> & -> & ->).
  rewrite fold_pushBounded by exact Hlen.
  repeat split; try reflexivity.
  rewrite length_drop. lia.
Qed.

Lemma priceHistory_keeps_last_100_witness :
  priceHistory (updatePriceHistoryAll initial (repeat 1 99 ++ [2; 3; 4]))
  = repeat 1 97 ++ [2; 3; 4].
Proof.
  destruct (priceHistory_keeps_last_100 initial (repeat 1 99 ++ [2; 3; 4]))
    as [H _]; [cbn; lia|].
  rewrite H. reflexivity.
Defined.

(** For an open breaker the status queries agree with [reset]: [canResume]
    holds exactly when the cooldown has elapsed, which is exactly when
    [reset] closes the breaker, when [getTimeUntilResume] reads 0 and when
    the clock has reached the [canResumeAt] of [getStatus]. *)
Theorem canResume_agrees_with_reset (cfg : CircuitBreakerConfig)
    (b : Breaker) (t now : Z) :
  isOpen b = true -> triggeredAt b = Some t -> t <> 0%Z ->
  (canResume cfg b now = true <-> (cooldownPeriodMs cfg <= now - t)%Z)
  /\ (isOpen (reset cfg b now) = false <-> canResume cfg b now = true)
  /\ (getTimeUntilResume cfg b now = 0%Z <-> canResume cfg b now = true)
  /\ (0 <= getTimeUntilResume cfg b now)%Z
  /\ canResumeAt (getStatus cfg b) = Some (t + cooldownPeriodMs cfg)%Z
  /\ isTradingAllowed b = false.
Proof.
  intros Ho Ht Hnz.
  assert (Htr : triggeredAt_truthy b = Some t).
  { unfold triggeredAt_truthy. rewrite Ht.
    destruct (Z.eqb_spec t 0); [contradiction|reflexivity]. }
  unfold canResume, reset, inCooldown, getTimeUntilResume, getStatus,
    isTradingAllowed.
  cbn [canResumeAt]. rewrite Htr, Ho. cbn [negb andb].
  destruct (Z.ltb_spec (now - t) (cooldownPeriodMs cfg)) as [Hlt|Hge];
    destruct (Z.geb_spec (now - t) (cooldownPeriodMs cfg)) as [Hge'|Hlt'];
    try lia; cbn [isOpen]; rewrite ?Ho;
    repeat split; intros; try discriminate; try reflexivity; try lia.
Qed.

Lemma canResume_agrees_with_reset_witness :
  canResume (Scenario.breakerCfg 3) Scenario.openBreaker 301000 = true
  /\ getTimeUntilResume (Scenario.breakerCfg 3) Scenario.openBreaker 301000
     = 0%Z.
Proof.
  destruct (canResume_agrees_with_reset (Scenario.breakerCfg 3)
              Scenario.openBreaker 1000 301000)
    as (Hcan & _ & Htime & _); [reflexivity | reflexivity | discriminate |].
  assert (H : canResume (Scenario.breakerCfg 3) Scenario.openBreaker 301000
              = true) by (apply Hcan; cbn; lia).
  split; [exact H|]. apply Htime, H.
Defined.

(** While a resume is under way the breaker stays open: after [k] of the
    [N] timer firings, [k < N], and whichever invocations have settled by
    then, in whatever order and with whatever outcome, trading is still
    not allowed, the promise has not resolved, the callback has been
    invoked for the steps [1 .. k] and the reported progress is
    [k / N]. *)
Theorem resume_keeps_breaker_open_until_last_step
    (cfg : CircuitBreakerConfig) (b : Breaker) (now : Z)
    (events : list Event) :
  isOpen b = true ->
  inCooldown cfg b now = false ->
  (Z.of_nat (fires events) < gradualResumeSteps cfg)%Z ->
  let k := fires events in
  let r := gradualResume cfg b now events in
  isTradingAllowed (breaker r) = false
  /\ resolved r = false
  /\ calls r = stepCalls cfg 0 k
  /\ resumeStep (breaker r) = Z.of_nat k
  /\ getResumeProgress cfg (breaker r)
     == inject_Z (Z.of_nat k) / inject_Z (gradualResumeSteps cfg).
Proof.
  intros Ho Hc Hk k r. subst r k. unfold gradualResume. rewrite Ho, Hc.
  cbn [negb].
  change {| breaker := set_resume b 0 true; calls := []; pending := [];
            failedSteps := []; resolved := false |}
    with (resuming b 0 (stepCalls cfg 0 0) [] [] false).
  destruct (runEvents_in_progress cfg b events 0 [] [])
    as (ps' & fs' & E); [cbn [Nat.add]; lia|].
  rewrite E. cbn [Nat.add].
  unfold isTradingAllowed, getResumeProgress, resuming.
  cbn [breaker calls resolved set_resume isOpen resumeStep].
  rewrite Ho.
  destruct (Z.eqb_spec (gradualResumeSteps cfg) 0) as [E0|_]; [lia|].
  repeat split; reflexivity.
Qed.

(** Two firings of three, the first invocation settled and the second
    still in flight. *)
Lemma resume_keeps_breaker_open_until_last_step_witness :
  let r := gradualResume (Scenario.breakerCfg 3) Scenario.openBreaker
             400000 [Fire; Settle 0 Rejects 461000; Fire] in
  isTradingAllowed (breaker r) = false
  /\ calls r = [(1, 3); (2, 3)]%Z.
Proof.
  destruct (resume_keeps_breaker_open_until_last_step
              (Scenario.breakerCfg 3) Scenario.openBreaker 400000
              [Fire; Settle 0 Rejects 461000; Fire])
    as (Hopen & _ & Hcalls & _); [reflexivity | reflexivity | cbn; lia |].
  cbv zeta. rewrite Hopen, Hcalls. split; reflexivity.
Defined.

End BreakerMore.

(** ** Rug-pull risk scorer: score range, flags and histories *)

Section RiskMore.

Import RugPullDetector.

Lemma min_cap (a b : Q) : Num.min a b <= b.
Proof.
  destruct (min_spec a b) as [[H ->]|[H ->]]; lra.
Qed.

Lemma min_nonneg (a b : Q) : 0 <= a -> 0 <= b -> 0 <= Num.min a b.
Proof.
  intros Ha Hb. destruct (min_spec a b) as [[H ->]|[H ->]]; lra.
Qed.

(** The score never exceeds 100, and it is not negative as long as the
    top-holder percentage is not. *)
Theorem risk_score_range (cfg : RugPullConfig) (lp : LPStatus)
    (sc : SupplyChange) (hc : HolderConcentration) :
  0 <= topHolderPercent hc ->
  0 <= score (calculateRisk cfg lp sc hc)
  /\ score (calculateRisk cfg lp sc hc) <= 100.
Proof.
  intros Htop. unfold calculateRisk.
  pose proof (min_cap (Qabs (lpChangePercent lp) * 2) 40) as U1.
  pose proof (min_cap (Qabs (supplyChangePercent sc) * 1.5) 30) as U2.
  pose proof (min_cap (topHolderPercent hc * 0.5) 30) as U3.
  pose proof (Qabs_nonneg (lpChangePercent lp)) as A1.
  pose proof (Qabs_nonneg (supplyChangePercent sc)) as A2.
  pose proof (min_nonneg (Qabs (lpChangePercent lp) * 2) 40
                ltac:(lra) ltac:(lra)) as L1.
  pose proof (min_nonneg (Qabs (supplyChangePercent sc) * 1.5) 30
                ltac:(lra) ltac:(lra)) as L2.
  pose proof (min_nonneg (topHolderPercent hc * 0.5) 30
                ltac:(lra) ltac:(lra)) as L3.
  destruct (lpSuspicious lp), (supplySuspicious sc), (holderSuspicious hc);
    cbn [score]; split; lra.
Qed.

Lemma risk_score_range_witness :
  score (fst (checkToken (Scenario.riskCfg true) Scenario.riskState "MINT"
                1000 Scenario.riskChain)) <= 100.
Proof.
  set (cfg := Scenario.riskCfg true).
  set (lpRes := checkLPTokens cfg Scenario.riskState "MINT" 1000
                  (Some 750%Z)).
  set (scRes := checkSupplyChanges cfg (snd lpRes) "MINT" 1000
                  (Some 750%Z)).
  set (hc := checkHolderConcentration cfg (Some [450; 100; 50]%Z)
               (Some 750%Z)).
  change (fst (checkToken cfg Scenario.riskState "MINT" 1000
                 Scenario.riskChain))
    with (calculateRisk cfg (fst lpRes) (fst scRes) hc).
  apply (risk_score_range cfg (fst lpRes) (fst scRes) hc).
  vm_compute. discriminate.
Defined.

(** Without the LP flag the score stops at 60: the supply and holder
    checks alone never produce the level critical. *)
Theorem critical_needs_lp_flag (cfg : RugPullConfig) (lp : LPStatus)
    (sc : SupplyChange) (hc : HolderConcentration) :
  lpSuspicious lp = false ->
  score (calculateRisk cfg lp sc hc) <= 60
  /\ level (calculateRisk cfg lp sc hc) <> critical.
Proof.
  intros Hlp.
  assert (Hs : score (calculateRisk cfg lp sc hc) <= 60).
  { unfold calculateRisk. rewrite Hlp.
    pose proof (min_cap (Qabs (supplyChangePercent sc) * 1.5) 30) as U2.
    pose proof (min_cap (topHolderPercent hc * 0.5) 30) as U3.
    destruct (supplySuspicious sc), (holderSuspicious hc); cbn [score]; lra. }
  split; [exact Hs|].
  intros Hc. apply (calculateRisk_level cfg lp sc hc) in Hc. lra.
Qed.

Lemma critical_needs_lp_flag_witness :
  level (fst (checkToken (Scenario.riskCfg true) emptyState "MINT" 1000
                Scenario.riskChain)) <> critical.
Proof.
  set (cfg := Scenario.riskCfg true).
  set (lpRes := checkLPTokens cfg emptyState "MINT" 1000 (Some 750%Z)).
  set (scRes := checkSupplyChanges cfg (snd lpRes) "MINT" 1000
                  (Some 750%Z)).
  set (hc := checkHolderConcentration cfg (Some [450; 100; 50]%Z)
               (Some 750%Z)).
  change (fst (checkToken cfg emptyState "MINT" 1000 Scenario.riskChain))
    with (calculateRisk cfg (fst lpRes) (fst scRes) hc).
  apply (critical_needs_lp_flag cfg (fst lpRes) (fst scRes) hc).
  reflexivity.
Defined.

Lemma checkLPTokens_first (cfg : RugPullConfig) (st : State)
    (mint : string) (now : Z) (rpc : option Z) :
  lpHistory st !! mint = None ->
  lpSuspicious (fst (checkLPTokens cfg st mint now rpc)) = false
  /\ supplyHistory (snd (checkLPTokens cfg st mint now rpc))
     = supplyHistory st.
Proof.
  intros Hnone. unfold checkLPTokens. rewrite Hnone.
  destruct rpc; cbn; auto.
Qed.

Lemma checkSupplyChanges_first (cfg : RugPullConfig) (st : State)
    (mint : string) (now : Z) (rpc : option Z) :
  supplyHistory st !! mint = None ->
  supplySuspicious (fst (checkSupplyChanges cfg st mint now rpc)) = false.
Proof.
  intros Hnone. unfold checkSupplyChanges. rewrite Hnone.
  destruct rpc; cbn; auto.
Qed.

(** The first assessment of a token has no snapshot to compare with: only
    the holder check can score, so the score stays at or below 30, the
    level is low and no exit is signalled, whatever the chain reports. *)
Theorem first_check_is_low (cfg : RugPullConfig) (st : State)
    (mint : string) (now : Z) (chain : ChainData) :
  lpHistory st !! mint = None ->
  supplyHistory st !! mint = None ->
  let r := fst (checkToken cfg st mint now chain) in
  score r <= 30 /\ level r = low /\ shouldExit r = false.
Proof.
  intros Hlp Hsc. cbv zeta. unfold checkToken.
  destruct (checkLPTokens_first cfg st mint now (lpSupplyRpc chain) Hlp)
    as [Hflag Hkeep].
  destruct (checkLPTokens cfg st mint now (lpSupplyRpc chain))
    as [lp st1].
  cbn [fst snd] in Hflag, Hkeep.
  pose proof (checkSupplyChanges_first cfg st1 mint now (supplyRpc chain)
                ltac:(rewrite Hkeep; exact Hsc)) as Hflag2.
  destruct (checkSupplyChanges cfg st1 mint now (supplyRpc chain))
    as [sc st2].
  cbn [fst] in *.
  set (hc := checkHolderConcentration cfg (largestAccountsRpc chain)
               (holderSupplyRpc chain)).
  assert (Hs : score (calculateRisk cfg lp sc hc) <= 30).
  { unfold calculateRisk. rewrite Hflag, Hflag2.
    pose proof (min_cap (topHolderPercent hc * 0.5) 30) as U3.
    destruct (holderSuspicious hc); cbn [score]; lra. }
  assert (Hl : level (calculateRisk cfg lp sc hc) = low).
  { apply (calculateRisk_level cfg lp sc hc). lra. }
  repeat split; try assumption.
  apply not_true_is_false. intros He.
  apply (calculateRisk_shouldExit cfg lp sc hc) in He.
  destruct He as [_ [He|He]]; congruence.
Qed.

Lemma first_check_is_low_witness :
  level (fst (checkToken (Scenario.riskCfg true) emptyState "MINT" 1000
                Scenario.riskChain)) = low.
Proof.
  apply (first_check_is_low (Scenario.riskCfg true) emptyState "MINT" 1000
           Scenario.riskChain); reflexivity.
Defined.

(** The LP test of the source is
    [changePercent < -lpMonitoringEnabled ? 20 : 0]: the comparison binds
    tighter than the conditional, so the 20 is never a threshold.  Against
    a previous snapshot the check flags every decrease of more than 1%
    when LP monitoring is enabled, and every decrease at all when it is
    disabled. *)
Theorem lp_flag_fires_below_minus_one (cfg : RugPullConfig) (st : State)
    (mint : string) (now supply : Z) (history : list LPStatus)
    (previous : LPStatus) :
  lpHistory st !! mint = Some history ->
  last history = Some previous ->
  lpTokenSupply previous <> 0%Z ->
  let change :=
    Z.quot ((supply - lpTokenSupply previous) * 100)
           (lpTokenSupply previous) in
  (Z.abs change < 2 ^ 53)%Z ->
  let status := fst (checkLPTokens cfg st mint now (Some supply)) in
  lpChangePercent status = inject_Z change
  /\ (lpSuspicious status = true <->
      (change < (if lpMonitoringEnabled cfg then -1 else 0))%Z).
Proof.
  intros Hh Hlast Hnz change Hfit status. subst status.
  unfold checkLPTokens. rewrite Hh.
  change (default [] (Some history)) with history. rewrite Hlast.
  unfold bnPercent.
  destruct (Z.eqb_spec (lpTokenSupply previous) 0); [contradiction|].
  fold change.
  destruct (Z.ltb_spec (Z.abs change) (2 ^ 53)); [|lia].
  cbn [fst lpChangePercent lpSuspicious]. split; [reflexivity|].
  destruct (Num.ltb (inject_Z change)
                    (- Num.of_bool (lpMonitoringEnabled cfg))) eqn:E.
  - apply ltb_lt in E. split; [intros _|reflexivity].
    destruct (lpMonitoringEnabled cfg); cbn [Num.of_bool] in E.
    + change (- (1)) with (inject_Z (-1)) in E. rewrite <- Zlt_Qlt in E. lia.
    + change (- 0) with (inject_Z 0) in E. rewrite <- Zlt_Qlt in E. lia.
  - apply ltb_ge in E. split; [discriminate|]. intros Hlt. exfalso.
    destruct (lpMonitoringEnabled cfg); cbn [Num.of_bool] in E.
    + change (- (1)) with (inject_Z (-1)) in E. rewrite <- Zle_Qle in E. lia.
    + change (- 0) with (inject_Z 0) in E. rewrite <- Zle_Qle in E. lia.
Qed.

Lemma lp_flag_fires_below_minus_one_witness :
  lpSuspicious
    (fst (checkLPTokens (Scenario.riskCfg true) Scenario.riskState "MINT"
            1000 (Some 980%Z))) = true.
Proof.
  destruct (lp_flag_fires_below_minus_one (Scenario.riskCfg true)
              Scenario.riskState "MINT" 1000 980
              [ {| totalLiquidity := 1000; lpTokenSupply := 1000;
                   lastChecked := 0; lpChangePercent := 0;
                   lpSuspicious := false |} ]
              {| totalLiquidity := 1000; lpTokenSupply := 1000;
                 lastChecked := 0; lpChangePercent := 0;
                 lpSuspicious := false |})
    as [_ Hflag];
    [reflexivity | reflexivity | discriminate | vm_compute; reflexivity |].
  apply Hflag. vm_compute. reflexivity.
Defined.

Lemma checkLPTokens_bounded (cfg : RugPullConfig) (st : State)
    (mint : string) (now : Z) (rpc : option Z) :
  historiesBounded st ->
  historiesBounded (snd (checkLPTokens cfg st mint now rpc)).
Proof.
  intros [Hlp Hsc]. unfold checkLPTokens.
  assert (Hdef : (length (default [] (lpHistory st !! mint)) <= 100)%nat).
  { destruct (lpHistory st !! mint) as [h|] eqn:E; cbn; [eauto|lia]. }
  assert (Hins : forall x,
             historiesBounded
               {| lpHistory :=
                    <[mint := pushBounded (default [] (lpHistory st !! mint))
                                          x]> (lpHistory st);
                  supplyHistory := supplyHistory st |}).
  { intros x. split; cbn [lpHistory supplyHistory]; [|exact Hsc].
    intros m h. destruct (decide (mint = m)) as [->|Hne].
    - rewrite lookup_insert_eq. intros [= <-].
      apply pushBounded_length, Hdef.
    - rewrite lookup_insert_ne by exact Hne. apply Hlp. }
  destruct rpc as [supply|]; [|split; assumption].
  destruct (last (default [] (lpHistory st !! mint))) as [previous|];
    [|apply Hins].
  destruct (bnPercent _ _); [apply Hins|split; assumption].
Qed.

Lemma checkSupplyChanges_bounded (cfg : RugPullConfig) (st : State)
    (mint : string) (now : Z) (rpc : option Z) :
  historiesBounded st ->
  historiesBounded (snd (checkSupplyChanges cfg st mint now rpc)).
Proof.
  intros [Hlp Hsc]. unfold checkSupplyChanges.
  assert (Hdef : (length (default [] (supplyHistory st !! mint)) <= 100)%nat).
  { destruct (supplyHistory st !! mint) as [h|] eqn:E; cbn; [eauto|lia]. }
  assert (Hins : forall x,
             historiesBounded
               {| lpHistory := lpHistory st;
                  supplyHistory :=
                    <[mint := pushBounded
                                (default [] (supplyHistory st !! mint)) x]>
                      (supplyHistory st) |}).
  { intros x. split; cbn [lpHistory supplyHistory]; [exact Hlp|].
    intros m h. destruct (decide (mint = m)) as [->|Hne].
    - rewrite lookup_insert_eq. intros [= <-].
      apply pushBounded_length, Hdef.
    - rewrite lookup_insert_ne by exact Hne. apply Hsc. }
  destruct rpc as [supply|]; [|split; assumption].
  destruct (last (default [] (supplyHistory st !! mint))) as [previous|];
    [|apply Hins].
  destruct (bnPercent _ _); [apply Hins|split; assumption].
Qed.

(** However often a token is checked, neither of its histories grows
    beyond 100 snapshots. *)
Theorem histories_stay_bounded (cfg : RugPullConfig) (st : State)
    (mint : string) (checks : list (Z * ChainData)) :
  historiesBounded st ->
  historiesBounded (checkTokenAll cfg st mint checks).
Proof.
  unfold checkTokenAll. revert st.
  induction checks as [|c checks IH]; intros st Hb; [exact Hb|].
  cbn [fold_left]. apply IH. unfold checkToken.
  pose proof (checkLPTokens_bounded cfg st mint (fst c)
                (lpSupplyRpc (snd c)) Hb) as H1.
  destruct (checkLPTokens cfg st mint (fst c) (lpSupplyRpc (snd c)))
    as [lp st1]. cbn [snd] in H1.
  pose proof (checkSupplyChanges_bounded cfg st1 mint (fst c)
                (supplyRpc (snd c)) H1) as H2.
  destruct (checkSupplyChanges cfg st1 mint (fst c) (supplyRpc (snd c)))
    as [sc st2]. exact H2.
Qed.

Lemma histories_stay_bounded_witness :
  historiesBounded
    (checkTokenAll (Scenario.riskCfg true) emptyState "MINT"
       (repeat (1000%Z, Scenario.riskChain) 150)).
Proof.
  apply (histories_stay_bounded (Scenario.riskCfg true) emptyState "MINT"
           (repeat (1000%Z, Scenario.riskChain) 150)).
  split; intros mint h; cbn; rewrite lookup_empty; discriminate.
Defined.

End RiskMore.

(** ** Quoting and order sizing *)

Section QuoteMore.

Import MarketMaker OrderLifecycle.

Lemma toUIAmountNumber_sign (a : Z) (d : nat) :
  (0 <= a)%Z -> 0 <= BNMath.toUIAmountNumber a d.
Proof.
  intros Ha. unfold BNMath.toUIAmountNumber.
  assert (Hq : 0 <= inject_Z a).
  { change 0 with (inject_Z 0). rewrite <- Zle_Qle. exact Ha. }
  destruct d as [|d].
  - destruct (Z.leb_spec 0 a); [|lia].
    apply Qle_shift_div_l; [apply pow10_positive|]. lra.
  - destruct (Z.leb_spec 0 a); [|lia]. cbn [orb].
    apply Qle_shift_div_l; [apply pow10_positive|]. lra.
Qed.

Lemma toUIAmountNumber_zero (d : nat) : BNMath.toUIAmountNumber 0 d == 0.
Proof.
  unfold BNMath.toUIAmountNumber.
  destruct d as [|d]; cbn [Z.leb Z.compare orb];
    change (inject_Z 0) with 0; unfold Qdiv; ring.
Qed.

(** With balances and mid-price that are not negative the inventory ratio
    is a fraction between 0 and 1; it is 0.5 for an account that holds
    nothing. *)
Theorem inventory_ratio_is_a_fraction (cfg : MarketMakerConfig)
    (inv : Inventory) (midPrice : Q) :
  (0 <= base inv)%Z -> (0 <= quote inv)%Z -> 0 <= midPrice ->
  0 <= calculateInventoryRatio cfg inv midPrice
  /\ calculateInventoryRatio cfg inv midPrice <= 1
  /\ (base inv = 0%Z -> quote inv = 0%Z ->
      calculateInventoryRatio cfg inv midPrice = 0.5).
Proof.
  intros Hb Hq Hm. unfold calculateInventoryRatio.
  pose proof (toUIAmountNumber_sign (base inv) (baseDecimals cfg) Hb) as Hbu.
  pose proof (toUIAmountNumber_sign (quote inv) (quoteDecimals cfg) Hq)
    as Hqu.
  set (bu := BNMath.toUIAmountNumber (base inv) (baseDecimals cfg)) in *.
  set (qu := BNMath.toUIAmountNumber (quote inv) (quoteDecimals cfg)) in *.
  assert (Hbv : 0 <= bu * midPrice) by (apply Qmult_le_0_compat; assumption).
  destruct (Num.is_zero (bu * midPrice + qu)) eqn:Ez.
  - repeat split; try reflexivity; discriminate.
  - assert (Hnz : ~ bu * midPrice + qu == 0).
    { apply truthy_nonzero. unfold Num.truthy. rewrite Ez. reflexivity. }
    assert (Hpos : 0 < bu * midPrice + qu).
    { destruct (Qlt_le_dec 0 (bu * midPrice + qu)) as [|Hle]; [assumption|].
      exfalso. apply Hnz. apply Qle_antisym; lra. }
    split; [|split].
    + apply Qle_shift_div_l; [exact Hpos|]. lra.
    + apply Qle_shift_div_r; [exact Hpos|]. lra.
    + intros Eb Eq. exfalso. apply Hnz. subst bu qu. rewrite Eb, Eq.
      rewrite !toUIAmountNumber_zero. ring.
Qed.

Lemma inventory_ratio_is_a_fraction_witness :
  calculateInventoryRatio Scenario.makerCfg Scenario.skewedInventory 100
  <= 1.
Proof.
  apply (inventory_ratio_is_a_fraction Scenario.makerCfg
           Scenario.skewedInventory 100);
    [cbn; lia | cbn; lia | discriminate].
Defined.

Lemma max_mono (a a' b : Q) : a <= a' -> Num.max a b <= Num.max a' b.
Proof.
  intros H. destruct (max_spec a b) as [[H1 ->]|[H1 ->]];
    destruct (max_spec a' b) as [[H2 ->]|[H2 ->]]; lra.
Qed.

Lemma max_floor (a b : Q) : b <= Num.max a b.
Proof.
  destruct (max_spec a b) as [[H1 ->]|[H1 ->]]; lra.
Qed.

(** The default quote brackets the mid-price, and the two prices are at
    least the configured minimum spread apart. *)
Theorem default_quote_brackets_mid (cfg : MarketMakerConfig) (st : State)
    (walletKey : string) (mid ratio vol : Q) :
  0 <= mid -> 0 <= minSpreadPercent cfg ->
  let '(bidPrice, askPrice) :=
    defaultTargetPrices cfg st walletKey mid ratio vol in
  bidPrice <= mid /\ mid <= askPrice
  /\ mid * (minSpreadPercent cfg / 100) <= askPrice - bidPrice.
Proof.
  intros Hm Hmin. unfold defaultTargetPrices. cbv zeta.
  match goal with
  | |- context [Num.max ?a (minSpreadPercent cfg / 100)] =>
      pose proof (max_floor a (minSpreadPercent cfg / 100)) as Hfloor;
      set (s := Num.max a (minSpreadPercent cfg / 100)) in *
  end.
  assert (Hf : 0 <= minSpreadPercent cfg / 100)
    by (apply Qle_shift_div_l; lra).
  assert (Hs : 0 <= mid * s) by (apply Qmult_le_0_compat; lra).
  assert (Hd : mid * (minSpreadPercent cfg / 100) <= mid * s).
  { rewrite (Qmult_comm mid (minSpreadPercent cfg / 100)),
      (Qmult_comm mid s).
    apply Qmult_le_compat_r; assumption. }
  assert (E1 : mid * (1 - s / 2) == mid - mid * s * (1 # 2)) by field.
  assert (E2 : mid * (1 + s / 2) == mid + mid * s * (1 # 2)) by field.
  rewrite E1, E2.
  set (ms := mid * s) in *.
  set (mf := mid * (minSpreadPercent cfg / 100)) in *.
  clearbody ms mf.
  repeat split; lra.
Qed.

Lemma default_quote_brackets_mid_witness :
  let '(bidPrice, askPrice) :=
    defaultTargetPrices Scenario.makerCfg
      (Scenario.makerState Scenario.skewedInventory None) "WALLET" 100
      0.8 0 in
  bidPrice <= 100 /\ 100 <= askPrice.
Proof.
  pose proof (default_quote_brackets_mid Scenario.makerCfg
                (Scenario.makerState Scenario.skewedInventory None)
                "WALLET" 100 0.8 0 ltac:(discriminate) ltac:(discriminate))
    as H.
  destruct (defaultTargetPrices Scenario.makerCfg
              (Scenario.makerState Scenario.skewedInventory None) "WALLET"
              100 0.8 0) as [bidPrice askPrice].
  destruct H as (H1 & H2 & _). split; assumption.
Defined.

Lemma quote_from_spread_mono (mid s1 s2 : Q) :
  0 <= mid -> s1 <= s2 ->
  mid * (1 + s1 / 2) - mid * (1 - s1 / 2)
  <= mid * (1 + s2 / 2) - mid * (1 - s2 / 2)
  /\ mid * (1 - s2 / 2) <= mid * (1 - s1 / 2)
  /\ mid * (1 + s1 / 2) <= mid * (1 + s2 / 2).
Proof.
  intros Hm Hs.
  assert (Hms : mid * s1 <= mid * s2).
  { rewrite (Qmult_comm mid s1), (Qmult_comm mid s2).
    apply Qmult_le_compat_r; assumption. }
  assert (E1 : forall s, mid * (1 - s / 2) == mid - mid * s * (1 # 2))
    by (intros; field).
  assert (E2 : forall s, mid * (1 + s / 2) == mid + mid * s * (1 # 2))
    by (intros; field).
  rewrite !E1, !E2.
  generalize dependent (mid * s1). generalize dependent (mid * s2).
  intros a b Hab. repeat split; lra.
Qed.

Lemma scaled_spread_mono (s0 k v1 v2 : Q) :
  0 <= s0 -> 0 <= k -> v1 <= v2 ->
  s0 * (1 + v1 * 0.5) * k <= s0 * (1 + v2 * 0.5) * k.
Proof.
  intros Hs Hk Hv.
  apply Qmult_le_compat_r; [|exact Hk].
  rewrite (Qmult_comm s0 (1 + v1 * 0.5)), (Qmult_comm s0 (1 + v2 * 0.5)).
  apply Qmult_le_compat_r; [lra|exact Hs].
Qed.

(** Quote monotonicity of the default calculation: with everything else
    fixed, a higher volatility factor never narrows the quote.  The total
    spread does not shrink, the bid does not rise and the ask does not
    fall. *)
Theorem default_quote_widens_with_volatility (cfg : MarketMakerConfig)
    (st : State) (walletKey : string) (mid ratio v1 v2 : Q) :
  0 <= mid -> 0 <= spreadPercent cfg -> v1 <= v2 ->
  let '(bid1, ask1) := defaultTargetPrices cfg st walletKey mid ratio v1 in
  let '(bid2, ask2) := defaultTargetPrices cfg st walletKey mid ratio v2 in
  ask1 - bid1 <= ask2 - bid2 /\ bid2 <= bid1 /\ ask1 <= ask2.
Proof.
  intros Hm Hs Hv. unfold defaultTargetPrices. cbv zeta.
  assert (Hs0 : 0 <= spreadPercent cfg / 100)
    by (apply Qle_shift_div_l; lra).
  pose proof (scaled_spread_mono (spreadPercent cfg / 100) 1.3 v1 v2 Hs0
                ltac:(discriminate) Hv) as Hk.
  assert (H1 : spreadPercent cfg / 100 * (1 + v1 * 0.5)
               <= spreadPercent cfg / 100 * (1 + v2 * 0.5)).
  { rewrite (Qmult_comm _ (1 + v1 * 0.5)), (Qmult_comm _ (1 + v2 * 0.5)).
    apply Qmult_le_compat_r; [lra|exact Hs0]. }
  apply quote_from_spread_mono; [exact Hm|].
  apply max_mono.
  destruct (Num.gtb (Qabs _) 0.1); [|exact H1].
  destruct (Num.gtb ratio _); [exact Hk|].
  destruct (Num.ltb ratio _); [exact Hk|exact H1].
Qed.

Lemma default_quote_widens_with_volatility_witness :
  let '(bid1, ask1) :=
    defaultTargetPrices Scenario.makerCfg
      (Scenario.makerState Scenario.balancedInventory None) "WALLET" 100
      0.5 0 in
  let '(bid2, ask2) :=
    defaultTargetPrices Scenario.makerCfg
      (Scenario.makerState Scenario.balancedInventory None) "WALLET" 100
      0.5 0.4 in
  ask1 - bid1 <= ask2 - bid2.
Proof.
  pose proof (default_quote_widens_with_volatility Scenario.makerCfg
                (Scenario.makerState Scenario.balancedInventory None)
                "WALLET" 100 0.5 0 0.4 ltac:(discriminate)
                ltac:(discriminate) ltac:(discriminate)) as H.
  destruct (defaultTargetPrices Scenario.makerCfg
              (Scenario.makerState Scenario.balancedInventory None)
              "WALLET" 100 0.5 0) as [bid1 ask1].
  destruct (defaultTargetPrices Scenario.makerCfg
              (Scenario.makerState Scenario.balancedInventory None)
              "WALLET" 100 0.5 0.4) as [bid2 ask2].
  destruct H as [H _]. exact H.
Defined.

(** [updateSlippage] clamps: the stored slippage is always between 0.1%
    and 10%, a value in that range is stored as it is, and storing the
    result again changes nothing. *)
Theorem updateSlippage_clamps (newSlippage : Q) :
  0.001 <= updateSlippage newSlippage
  /\ updateSlippage newSlippage <= 0.1
  /\ (0.001 <= newSlippage -> newSlippage <= 0.1 ->
      updateSlippage newSlippage == newSlippage)
  /\ updateSlippage (updateSlippage newSlippage)
     == updateSlippage newSlippage.
Proof.
  assert (H : forall x, 0.001 <= updateSlippage x
                        /\ updateSlippage x <= 0.1
                        /\ (0.001 <= x -> x <= 0.1 -> updateSlippage x == x)).
  { intros x. unfold updateSlippage.
    destruct (min_spec 0.1 x) as [[H1 ->]|[H1 ->]];
      [destruct (max_spec 0.001 0.1) as [[H2 ->]|[H2 ->]]
      |destruct (max_spec 0.001 x) as [[H2 ->]|[H2 ->]]];
      repeat split; intros; lra. }
  destruct (H newSlippage) as (H1 & H2 & H3).
  repeat split; try assumption.
  apply H; assumption.
Qed.

Lemma updateSlippage_clamps_witness : updateSlippage 0.02 == 0.02.
Proof.
  destruct (updateSlippage_clamps 0.02) as (_ & _ & H & _).
  apply H; discriminate.
Defined.


(** The order size is the configured size times 1, 0.7, 0.5 or 0.35: a
    skew of more than 0.1 halves it, a volatility factor above 0.5 takes
    another 30% off.  The further reduction to 0.2 for a skew above 0.2
    sits behind the test for 0.1 and is never applied. *)
Theorem safe_order_size_tiers (cfg : MarketMakerConfig) (st : State)
    (walletKey : string) (inv : Inventory) (volFactor : Q) :
  let size := calculateSafeOrderSize cfg st walletKey inv volFactor in
  (size == orderSize cfg * 1 \/ size == orderSize cfg * 0.7
   \/ size == orderSize cfg * 0.5 \/ size == orderSize cfg * 0.35)
  /\ (0 <= orderSize cfg -> orderSize cfg * 0.35 <= size)
  /\ (0 < orderSize cfg -> ~ size == orderSize cfg * 0.2).
Proof.
  cbv zeta. unfold calculateSafeOrderSize. cbv zeta.
  set (os := orderSize cfg).
  assert (E7 : os * (1 * 0.7) == os * 0.7) by ring.
  assert (E35 : os * (0.5 * 0.7) == os * 0.35) by ring.
  destruct (Num.gtb (Qabs _) 0.1) eqn:E1.
  - destruct (Num.gtb volFactor 0.5);
      (split; [|split]); intros; try lra; try (rewrite ?E35; lra);
      auto 6 using Qeq_refl.
  - assert (E2 : Num.gtb (Qabs
        (calculateInventoryRatio cfg inv
           (if Num.truthy (avgBuyPrice inv) then avgBuyPrice inv else 1)
         - Num.or_default (inventoryTargets st !! walletKey) 0.5)) 0.2
        = false).
    { apply ltb_ge in E1. apply ltb_ge. lra. }
    rewrite E2.
    destruct (Num.gtb volFactor 0.5);
      (split; [|split]); intros; try lra; try (rewrite ?E7; lra);
      auto 6 using Qeq_refl.
Qed.

Lemma safe_order_size_tiers_witness :
  ~ calculateSafeOrderSize Scenario.makerCfg
      (Scenario.makerState Scenario.skewedInventory None) "WALLET"
      Scenario.skewedInventory 0
    == orderSize Scenario.makerCfg * 0.2.
Proof.
  destruct (safe_order_size_tiers Scenario.makerCfg
              (Scenario.makerState Scenario.skewedInventory None) "WALLET"
              Scenario.skewedInventory 0) as (_ & _ & H).
  apply H. reflexivity.
Defined.



(** Fill detection settles.  After [checkForFills] every bid and ask
    still tracked for the wallet is on the list of open orders, the other
    wallets' order states are as before, and a second run against the
    same list changes neither the inventories nor the order states: no
    fill is booked twice. *)
Theorem checkForFills_settles (cfg : MarketMakerConfig) (st : State)
    (orders : gmap string OrderState) (walletKey : string)
    (active : list ActiveOrder) (now : Z) :
  let '(st1, orders1) :=
    checkForFills cfg st orders walletKey active now in
  checkForFills cfg st1 orders1 walletKey active now = (st1, orders1)
  /\ (forall orderState, orders1 !! walletKey = Some orderState ->
        (forall order, bid orderState = Some order ->
           stillActive active (orderKey order) = true)
        /\ (forall order, ask orderState = Some order ->
              stillActive active (orderKey order) = true))
  /\ (forall k, k <> walletKey -> orders1 !! k = orders !! k).
Proof.
  unfold checkForFills.
  destruct (orders !! walletKey) as [os|] eqn:E.
  - destruct (bid os) as [b|] eqn:Eb;
      [destruct (stillActive active (orderKey b)) eqn:Sb|];
      (destruct (ask os) as [a|] eqn:Ea;
        [destruct (stillActive active (orderKey a)) eqn:Sa|]);
      (split; [|split]);
      try (rewrite lookup_insert_eq; cbn [bid ask bidWall askWall lastRefresh];
           rewrite ?Sb, ?Sa, insert_insert_eq; reflexivity);
      try (intros orderState H; rewrite lookup_insert_eq in H;
           injection H as <-; cbn [bid ask];
           split; intros order Ho; inversion Ho; subst; assumption);
      try (intros k Hk; apply lookup_insert_ne; congruence).
  - rewrite E. split; [reflexivity|]. split; [|reflexivity].
    intros orderState H. congruence.
Qed.

Lemma checkForFills_settles_witness :
  let '(st1, orders1) :=
    checkForFills Scenario.makerCfg
      (Scenario.makerState Scenario.balancedInventory None)
      {[ "WALLET" := {| bid := Some (Scenario.bidFilledAt 100 100000000);
                        ask := None; bidWall := None; askWall := None;
                        lastRefresh := 0 |} ]}
      "WALLET" [] 1000 in
  orders1 !! "OTHER" = None.
Proof.
  pose proof (checkForFills_settles Scenario.makerCfg
                (Scenario.makerState Scenario.balancedInventory None)
                {[ "WALLET" :=
                     {| bid := Some (Scenario.bidFilledAt 100 100000000);
                        ask := None; bidWall := None; askWall := None;
                        lastRefresh := 0 |} ]}
                "WALLET" [] 1000) as H.
  destruct (checkForFills _ _ _ _ _ _) as [st1 orders1].
  destruct H as (_ & _ & H).
  rewrite (H "OTHER") by discriminate. reflexivity.
Defined.


(** What [cancelStaleOrders] does to the books.  The orders cancelled are
    exactly the open orders that are off their target by more than the
    tolerance and whose cancellation succeeds, in the order of the list.
    Only the wallet's own order state changes, and of it only the tracked
    bid and ask: the bid is forgotten as soon as any order paying in the
    quote token was cancelled, the ask as soon as any other order was,
    whether or not the cancelled order is the tracked one. *)
Theorem cancelStaleOrders_effect (cfg : MarketMakerConfig)
    (currentSlippage : Q) (orders : gmap string OrderState)
    (walletKey : string) (active : list ActiveOrder)
    (targetBid targetAsk : Q) (cancelOk : string -> bool) :
  let cancelledOrders :=
    List.filter
      (fun order =>
         staleOrder cfg currentSlippage targetBid targetAsk order
         && cancelOk (activeKey order)) active in
  let '(cancelled, orders1) :=
    cancelStaleOrders cfg currentSlippage orders walletKey active
                      targetBid targetAsk cancelOk in
  cancelled = map activeKey cancelledOrders
  /\ (forall k, k <> walletKey -> orders1 !! k = orders !! k)
  /\ (orders !! walletKey = None -> orders1 !! walletKey = None)
  /\ (forall orderState, orders !! walletKey = Some orderState ->
      exists orderState1,
        orders1 !! walletKey = Some orderState1
        /\ bid orderState1
           = (if existsb (isBid cfg) cancelledOrders
              then None else bid orderState)
        /\ ask orderState1
           = (if existsb (fun order => negb (isBid cfg order))
                         cancelledOrders
              then None else ask orderState)
        /\ bidWall orderState1 = bidWall orderState
        /\ askWall orderState1 = askWall orderState
        /\ lastRefresh orderState1 = lastRefresh orderState).
Proof.
  cbv zeta. revert orders.
  induction active as [|o rest IH]; intros orders;
    cbn [cancelStaleOrders List.filter].
  - cbn [map existsb]. repeat split; auto.
    intros orderState H. exists orderState. repeat split; auto.
  - destruct (staleOrder cfg currentSlippage targetBid targetAsk o
              && cancelOk (activeKey o)) eqn:Es.
    + cbv zeta. cbn [map existsb].
      destruct (orders !! walletKey) as [os|] eqn:E.
      * match goal with
        | |- context [cancelStaleOrders _ _ ?m _ _ _ _ _] =>
            specialize (IH m); set (orders1 := m) in *
        end.
        destruct (cancelStaleOrders cfg currentSlippage orders1 walletKey
                    rest targetBid targetAsk cancelOk) as [c o2].
        destruct IH as (I1 & I2 & I3 & I4).
        split; [f_equal; exact I1|]. split; [|split].
        -- intros k Hk. rewrite (I2 k Hk). subst orders1.
           apply lookup_insert_ne. congruence.
        -- intros H. discriminate H.
        -- intros orderState H. injection H as <-.
           destruct (I4 _ (lookup_insert_eq _ _ _))
             as (os1 & L1 & B1 & A1 & W1 & W2 & R1).
           exists os1. split; [exact L1|].
           rewrite B1, A1, W1, W2, R1.
           destruct (isBid cfg o); cbn [negb orb bid ask bidWall askWall
                                        lastRefresh];
             repeat split;
             match goal with
             | |- context [if ?b then _ else _] => destruct b; reflexivity
             | _ => reflexivity
             end.
      * specialize (IH orders).
        destruct (cancelStaleOrders cfg currentSlippage orders walletKey
                    rest targetBid targetAsk cancelOk) as [c o2].
        destruct IH as (I1 & I2 & I3 & I4).
        split; [f_equal; exact I1|]. split; [exact I2|].
        split; [intros _; exact (I3 E)|].
        intros orderState H. discriminate H.
    + exact (IH orders).
Qed.

Lemma cancelStaleOrders_effect_witness :
  snd (cancelStaleOrders Scenario.makerCfg 0.01 ∅ "WALLET"
         [ {| activeKey := "ORDER"; activeInputMint := "QUOTE";
              activeInAmount := 90000000; activeOutAmount := 1000000000 |} ]
         99 101 (fun _ => true)) !! "WALLET" = None.
Proof.
  pose proof (cancelStaleOrders_effect Scenario.makerCfg 0.01 ∅ "WALLET"
                [ {| activeKey := "ORDER"; activeInputMint := "QUOTE";
                     activeInAmount := 90000000;
                     activeOutAmount := 1000000000 |} ]
                99 101 (fun _ => true)) as H.
  cbv zeta in H.
  destruct (cancelStaleOrders _ _ _ _ _ _ _ _) as [cancelled orders1].
  destruct H as (_ & _ & H & _). apply H. reflexivity.
Defined.


End QuoteMore.

(** ** Token-amount arithmetic *)

Section AmountMore.

Import BNMath.

Lemma is_zero_pos (x : Q) : 0 < x -> Num.is_zero x = false.
Proof.
  intros H. unfold Num.is_zero.
  destruct (Qeq_bool x 0) eqn:E; [|reflexivity].
  apply Qeq_bool_eq in E. lra.
Qed.

Lemma inject_Z_pos (a : Z) : (0 < a)%Z -> 0 < inject_Z a.
Proof. intros H. change 0 with (inject_Z 0). rewrite <- Zlt_Qlt. exact H. Qed.

Lemma calculatePrice_positive_amounts (a b : Z) (da db : nat) :
  (0 < a)%Z -> (0 < b)%Z -> (1 <= da)%nat -> (1 <= db)%nat ->
  calculatePrice a b da db
  = (inject_Z a / pow10 da) / (inject_Z b / pow10 db)
  /\ 0 < (inject_Z a / pow10 da) / (inject_Z b / pow10 db).
Proof.
  intros Ha Hb Hda Hdb. unfold calculatePrice.
  destruct (Z.eqb_spec a 0) as [|_]; [lia|].
  destruct (Z.eqb_spec b 0) as [|_]; [lia|]. cbn [orb]. cbv zeta.
  rewrite !toUIAmountNumber_nonneg by lia.
  pose proof (pow10_positive da) as Pa. pose proof (pow10_positive db) as Pb.
  pose proof (inject_Z_pos a Ha) as Qa. pose proof (inject_Z_pos b Hb) as Qb.
  assert (Ua : 0 < inject_Z a / pow10 da)
    by (apply Qlt_shift_div_l; [exact Pa|lra]).
  assert (Ub : 0 < inject_Z b / pow10 db)
    by (apply Qlt_shift_div_l; [exact Pb|lra]).
  assert (Up : 0 < (inject_Z a / pow10 da) / (inject_Z b / pow10 db))
    by (apply Qlt_shift_div_l; [exact Ub|lra]).
  rewrite (is_zero_pos _ Ub).
  assert (El : Num.leb ((inject_Z a / pow10 da) / (inject_Z b / pow10 db)) 0
               = false) by (apply leb_gt; exact Up).
  rewrite El. split; [reflexivity|exact Up].
Qed.

(** [calculatePrice] never returns a negative number, and for positive
    amounts of tokens with at least one decimal it is positive and turns
    into its reciprocal when input and output change places. *)
Theorem calculatePrice_reciprocal (a b : Z) (da db : nat) :
  0 <= calculatePrice a b da db
  /\ ((0 < a)%Z -> (0 < b)%Z -> (1 <= da)%nat -> (1 <= db)%nat ->
      0 < calculatePrice a b da db
      /\ calculatePrice a b da db * calculatePrice b a db da == 1).
Proof.
  split.
  - unfold calculatePrice.
    destruct ((a =? 0)%Z || (b =? 0)%Z); [discriminate|]. cbv zeta.
    destruct (Num.is_zero _); [discriminate|].
    destruct (Num.leb _ 0) eqn:E; [discriminate|].
    apply leb_gt in E. lra.
  - intros Ha Hb Hda Hdb.
    destruct (calculatePrice_positive_amounts a b da db Ha Hb Hda Hdb)
      as [E1 P1].
    destruct (calculatePrice_positive_amounts b a db da Hb Ha Hdb Hda)
      as [E2 _].
    rewrite E1, E2. split; [exact P1|].
    pose proof (pow10_positive da). pose proof (pow10_positive db).
    pose proof (inject_Z_pos a Ha). pose proof (inject_Z_pos b Hb).
    field. repeat split; lra.
Qed.

Lemma calculatePrice_reciprocal_witness :
  calculatePrice 100000000 1000000000 6 9
  * calculatePrice 1000000000 100000000 9 6 == 1.
Proof.
  apply (calculatePrice_reciprocal 100000000 1000000000 6 9); lia.
Defined.

(** [clamp] with bounds in order returns a value between them, leaves a
    value between them alone, is [max lo (min value hi)], and clamping
    twice is clamping once. *)
Theorem clamp_within_bounds (value lo hi : Z) :
  (lo <= hi)%Z ->
  (lo <= clamp value lo hi <= hi)%Z
  /\ ((lo <= value <= hi)%Z -> clamp value lo hi = value)
  /\ clamp value lo hi = BNMath.max lo (BNMath.min value hi)
  /\ clamp (clamp value lo hi) lo hi = clamp value lo hi.
Proof.
  intros H. unfold clamp, BNMath.max, BNMath.min.
  rewrite !Z.gtb_ltb.
  destruct (Z.ltb_spec value lo); destruct (Z.ltb_spec hi value);
    destruct (Z.ltb_spec value hi); try lia;
    repeat match goal with
           | |- context [(?a <? ?b)%Z] => destruct (Z.ltb_spec a b); try lia
           end;
    repeat split; intros; lia.
Qed.

Lemma clamp_within_bounds_witness : clamp 250 0 100 = 100%Z.
Proof.
  destruct (clamp_within_bounds 250 0 100 ltac:(lia)) as (_ & _ & E & _).
  rewrite E. reflexivity.
Defined.

Lemma bnOfNumber_safe (n : Z) :
  (0 <= n < 2 ^ 53)%Z -> bnOfNumber n = Some n.
Proof.
  intros H. unfold bnOfNumber.
  destruct (Z.ltb_spec (Z.abs n) (2 ^ 53)); [reflexivity|lia].
Qed.

(** [percentage] of an amount that is not negative, where [units] is
    [Math.floor] of the binary64 product [percent * 100] and lies between
    0 and 10000: the call returns, the result lies between 0 and the
    amount, and it is the amount times [units], divided by 10000 and
    rounded down. *)
Theorem percentage_rounds_down (amount : Z) (percent : float) (units : Z) :
  (0 <= amount)%Z ->
  mathFloor (percent * 100)%float = Some units ->
  (0 <= units <= 10000)%Z ->
  exists r,
    percentage amount percent = Some r
    /\ (0 <= r <= amount)%Z
    /\ (r * 10000 <= amount * units < (r + 1) * 10000)%Z.
Proof.
  intros Ha Hf Hu. unfold percentage. rewrite Hf.
  rewrite bnOfNumber_safe by (change (2 ^ 53)%Z with 9007199254740992%Z; lia).
  exists (Z.quot (amount * units) 10000). split; [reflexivity|].
  assert (Hnn : (0 <= amount * units)%Z) by nia.
  rewrite Z.quot_div_nonneg by lia.
  split.
  - split; [apply Z.div_pos; lia|].
    apply Z.div_le_upper_bound; [lia|]. nia.
  - assert (Hd := Z.div_mod (amount * units) 10000).
    specialize (Hd ltac:(lia)).
    assert (Hm := Z.mod_pos_bound (amount * units) 10000).
    specialize (Hm ltac:(lia)).
    lia.
Qed.

(** 1.15 percent of 10000: the binary64 product 1.15 * 100 is just below
    115, so the percentage is taken as 114 hundredths. *)
Lemma percentage_rounds_down_witness :
  percentage 10000 1.15 = Some 114%Z.
Proof.
  destruct (percentage_rounds_down 10000 1.15 114 ltac:(lia) eq_refl
              ltac:(lia))
    as (r & E & _ & Hr).
  rewrite E. f_equal. lia.
Defined.

(** [isWithinTolerance] for a positive target, where [units] is
    [Math.floor] of the binary64 product [tolerancePercent * 100] and is
    neither negative nor beyond what [new BN] takes: the call returns,
    and it answers yes exactly when the distance of the amount from the
    target, times 10000, is at most the target times [units].  In
    particular the target is within tolerance of itself. *)
Theorem isWithinTolerance_spec (amount target : Z)
    (tolerancePercent : float) (units : Z) :
  (0 < target)%Z ->
  mathFloor (tolerancePercent * 100)%float = Some units ->
  (0 <= units < 2 ^ 53)%Z ->
  exists answer,
    isWithinTolerance amount target tolerancePercent = Some answer
    /\ (answer = true <->
        (Z.abs (amount - target) * 10000 <= target * units)%Z)
    /\ isWithinTolerance target target tolerancePercent = Some true.
Proof.
  intros Ht Hf Hu.
  unfold isWithinTolerance, percentage. rewrite Hf.
  rewrite bnOfNumber_safe by exact Hu.
  destruct (Z.eqb_spec target 0) as [|_]; [lia|].
  assert (Hnn : (0 <= target * units)%Z) by nia.
  rewrite Z.quot_div_nonneg by lia.
  assert (Hd := Z.div_mod (target * units) 10000).
  specialize (Hd ltac:(lia)).
  assert (Hm := Z.mod_pos_bound (target * units) 10000).
  specialize (Hm ltac:(lia)).
  eexists. split; [reflexivity|]. split.
  - rewrite Z.leb_le. lia.
  - f_equal. apply Z.leb_le. rewrite Z.sub_diag. cbn [Z.abs].
    apply Z.div_pos; lia.
Qed.

(** A tolerance of 1.15 percent around 10000 is 114 and not 115: an
    amount of 10115 is outside it. *)
Lemma isWithinTolerance_spec_witness :
  isWithinTolerance 10115 10000 1.15 = Some false.
Proof.
  destruct (isWithinTolerance_spec 10115 10000 1.15 114 ltac:(lia) eq_refl
              ltac:(split; [lia|reflexivity]))
    as (answer & E & Hiff & _).
  rewrite E. f_equal. destruct answer; [|reflexivity].
  exfalso. destruct Hiff as [Hiff _]. specialize (Hiff eq_refl).
  cbn in Hiff. lia.
Defined.

(** The price that [cancelStaleOrders] compares with the target reads the
    input amount with the quote token's decimals and the output amount
    with the base token's, whichever side the order is on.  For an order
    that pays in the quote token this is the quote paid per base token.
    For an order that pays in the base token, the quote received per base
    token is the output over the input, each read with its own decimals,
    and the computed price times that figure is the constant
    [(10 ^ baseDecimals / 10 ^ quoteDecimals) ^ 2]. *)
Theorem order_price_crosses_decimals (cfg : MarketMaker.MarketMakerConfig)
    (order : OrderLifecycle.ActiveOrder) :
  (0 < OrderLifecycle.activeInAmount order)%Z ->
  (0 < OrderLifecycle.activeOutAmount order)%Z ->
  (1 <= MarketMaker.baseDecimals cfg)%nat ->
  (1 <= MarketMaker.quoteDecimals cfg)%nat ->
  OrderLifecycle.orderPrice cfg order
  == toUIAmountNumber (OrderLifecycle.activeInAmount order)
                      (MarketMaker.quoteDecimals cfg)
     / toUIAmountNumber (OrderLifecycle.activeOutAmount order)
                        (MarketMaker.baseDecimals cfg)
  /\ OrderLifecycle.orderPrice cfg order
     * (toUIAmountNumber (OrderLifecycle.activeOutAmount order)
                         (MarketMaker.quoteDecimals cfg)
        / toUIAmountNumber (OrderLifecycle.activeInAmount order)
                           (MarketMaker.baseDecimals cfg))
     == (pow10 (MarketMaker.baseDecimals cfg)
         / pow10 (MarketMaker.quoteDecimals cfg))
        * (pow10 (MarketMaker.baseDecimals cfg)
           / pow10 (MarketMaker.quoteDecimals cfg)).
Proof.
  intros Hi Ho Hb Hq. unfold OrderLifecycle.orderPrice.
  destruct (calculatePrice_positive_amounts _ _ _ _ Hi Ho Hq Hb) as [E _].
  rewrite E. rewrite !toUIAmountNumber_nonneg by lia.
  pose proof (pow10_positive (MarketMaker.baseDecimals cfg)).
  pose proof (pow10_positive (MarketMaker.quoteDecimals cfg)).
  pose proof (inject_Z_pos _ Hi). pose proof (inject_Z_pos _ Ho).
  split; [reflexivity|]. field. repeat split; lra.
Qed.

Lemma order_price_crosses_decimals_witness :
  OrderLifecycle.orderPrice Scenario.makerCfg
    {| OrderLifecycle.activeKey := "ORDER";
       OrderLifecycle.activeInputMint := "BASE";
       OrderLifecycle.activeInAmount := 1000000000;
       OrderLifecycle.activeOutAmount := 100000000 |}
  * (toUIAmountNumber 100000000 6 / toUIAmountNumber 1000000000 9)
  == (pow10 9 / pow10 6) * (pow10 9 / pow10 6).
Proof.
  destruct (order_price_crosses_decimals Scenario.makerCfg
              {| OrderLifecycle.activeKey := "ORDER";
                 OrderLifecycle.activeInputMint := "BASE";
                 OrderLifecycle.activeInAmount := 1000000000;
                 OrderLifecycle.activeOutAmount := 100000000 |})
    as [_ H]; [cbn; lia | cbn; lia | cbn; lia | cbn; lia |].
  exact H.
Defined.

End AmountMore.

(** ** Volatility filter *)

Section VolatilityMore.

Import VolatilityFilter.

Lemma reductionFactor_range (cfg : VolatilityConfig) (volPercent : Q) :
  0 <= positionSizeReduction cfg -> positionSizeReduction cfg <= 1 ->
  reduceThresholdPercent cfg < volPercent ->
  volPercent <= pauseThresholdPercent cfg ->
  positionSizeReduction cfg <= calculateReductionFactor cfg volPercent
  /\ calculateReductionFactor cfg volPercent <= 1.
Proof.
  intros H0 H1 Hlo Hhi. unfold calculateReductionFactor. cbv zeta.
  assert (Hr : 0 < pauseThresholdPercent cfg - reduceThresholdPercent cfg)
    by lra.
  rewrite (is_zero_pos _ Hr).
  assert (Hq : 0 <= (volPercent - reduceThresholdPercent cfg)
                    / (pauseThresholdPercent cfg
                       - reduceThresholdPercent cfg))
    by (apply Qle_shift_div_l; [exact Hr|lra]).
  set (q := (volPercent - reduceThresholdPercent cfg)
            / (pauseThresholdPercent cfg - reduceThresholdPercent cfg))
    in *.
  assert (Hm : 0 <= Num.min q 1 /\ Num.min q 1 <= 1).
  { destruct (min_spec q 1) as [[Hle ->]|[Hgt ->]]; split; lra. }
  destruct Hm as [Hm0 Hm1].
  set (m := Num.min q 1) in *. set (r := positionSizeReduction cfg) in *.
  assert (P0 : 0 <= m * (1 - r)) by (apply Qmult_le_0_compat; lra).
  assert (P1 : m * (1 - r) <= 1 * (1 - r))
    by (apply Qmult_le_compat_r; lra).
  split; lra.
Qed.

(** The action of the volatility filter, for a size reduction between 0
    and 1 and a reduce threshold that is not negative: the position-size
    factor lies between 0 and 1, and is at least the configured reduction
    unless trading is paused; the spread multiplier is at least 1; a
    pause always comes with factor 0, and an action that does not reduce
    leaves size and spread alone. *)
Theorem getAction_ranges (cfg : VolatilityConfig) (st : State) :
  0 <= positionSizeReduction cfg -> positionSizeReduction cfg <= 1 ->
  0 <= reduceThresholdPercent cfg ->
  let action := fst (getAction cfg st) in
  0 <= positionSizeFactor action
  /\ positionSizeFactor action <= 1
  /\ 1 <= spreadMultiplier action
  /\ (shouldPause action = false ->
      positionSizeReduction cfg <= positionSizeFactor action)
  /\ (shouldPause action = true ->
      positionSizeFactor action = 0 /\ shouldReduce action = true)
  /\ (shouldReduce action = false ->
      positionSizeFactor action = 1 /\ spreadMultiplier action = 1).
Proof.
  intros H0 H1 Hred. cbv zeta. unfold getAction.
  destruct (enabled cfg); cbn [negb].
  - cbv zeta.
    destruct (Num.gtb (metricsCurrent st * 100) (pauseThresholdPercent cfg))
      eqn:Ep.
    + cbn. repeat split; intros; try discriminate; try lra.
    + apply ltb_ge in Ep.
      destruct (Num.gtb (metricsCurrent st * 100)
                        (reduceThresholdPercent cfg)) eqn:Er.
      * apply gtb_gt in Er.
        destruct (reductionFactor_range cfg (metricsCurrent st * 100)
                    H0 H1 Er Ep) as [F0 F1].
        cbn [fst positionSizeFactor spreadMultiplier shouldPause
             shouldReduce].
        assert (Hm : 0 <= metricsCurrent st * 100 / 100 * 0.5).
        { apply Qmult_le_0_compat; [|lra].
          apply Qle_shift_div_l; lra. }
        repeat split; intros; try discriminate; try lra.
      * cbn. repeat split; intros; try discriminate; try lra.
  - cbn. repeat split; intros; try discriminate; try lra.
Qed.

Lemma getAction_ranges_witness :
  0.5 <= positionSizeFactor
           (fst (getAction
                   {| enabled := true; windowSize := 20;
                      pauseThresholdPercent := 20;
                      reduceThresholdPercent := 10;
                      resumeThresholdPercent := 8;
                      positionSizeReduction := 0.5;
                      updateInterval := 60000 |}
                   {| priceHistory := [100; 115];
                      volatilityHistory := [0.15];
                      lastUpdate := 0; currentVolatility := 0.15;
                      isPaused := false |})).
Proof.
  apply (getAction_ranges
           {| enabled := true; windowSize := 20;
              pauseThresholdPercent := 20;
              reduceThresholdPercent := 10;
              resumeThresholdPercent := 8;
              positionSizeReduction := 0.5;
              updateInterval := 60000 |}
           {| priceHistory := [100; 115];
              volatilityHistory := [0.15];
              lastUpdate := 0; currentVolatility := 0.15;
              isPaused := false |});
    try discriminate; reflexivity.
Defined.

(** The pause flag is written by [getAction] but never read for the
    action: the action returned is the same whatever the flag was.  The
    flag afterwards is set when the volatility is above the pause
    threshold, and otherwise stays set only while the volatility has not
    fallen below the resume threshold. *)
Theorem pause_flag_does_not_change_action (cfg : VolatilityConfig)
    (st : State) (paused : bool) :
  fst (getAction cfg (set_paused st paused)) = fst (getAction cfg st)
  /\ (enabled cfg = true ->
      isPaused (snd (getAction cfg st))
      = Num.gtb (metricsCurrent st * 100) (pauseThresholdPercent cfg)
        || (isPaused st
            && negb (Num.ltb (metricsCurrent st * 100)
                             (resumeThresholdPercent cfg)))).
Proof.
  unfold getAction, set_paused, metricsCurrent.
  cbn [volatilityHistory currentVolatility isPaused].
  destruct (enabled cfg); cbn [negb]; [|split; [reflexivity|discriminate]].
  cbv zeta.
  set (volPercent :=
         match volatilityHistory st with
         | [] => 0
         | _ :: _ => currentVolatility st
         end * 100).
  destruct (Num.gtb volPercent (pauseThresholdPercent cfg));
    [split; reflexivity|].
  destruct (Num.gtb volPercent (reduceThresholdPercent cfg));
    (split; [reflexivity|]); intros _; cbn [snd orb];
    destruct (isPaused st) eqn:Ei; cbn [andb];
    destruct (Num.ltb volPercent (resumeThresholdPercent cfg));
    cbn [isPaused negb]; rewrite ?Ei; reflexivity.
Qed.

Lemma pause_flag_does_not_change_action_witness :
  isPaused
    (snd (getAction
            {| enabled := true; windowSize := 20;
               pauseThresholdPercent := 20; reduceThresholdPercent := 10;
               resumeThresholdPercent := 8; positionSizeReduction := 0.5;
               updateInterval := 60000 |}
            {| priceHistory := [100; 115]; volatilityHistory := [0.15];
               lastUpdate := 0; currentVolatility := 0.15;
               isPaused := true |})) = true.
Proof.
  destruct (pause_flag_does_not_change_action
              {| enabled := true; windowSize := 20;
                 pauseThresholdPercent := 20; reduceThresholdPercent := 10;
                 resumeThresholdPercent := 8; positionSizeReduction := 0.5;
                 updateInterval := 60000 |}
              {| priceHistory := [100; 115]; volatilityHistory := [0.15];
                 lastUpdate := 0; currentVolatility := 0.15;
                 isPaused := true |} false) as [_ H].
  rewrite (H eq_refl). reflexivity.
Defined.

(** The two ways to size an order agree: the size that
    [calculateVolatilityAdjustedSize] gives for the current volatility is
    the base size times the position-size factor of [getAction]. *)
Theorem adjusted_size_agrees_with_action (cfg : VolatilityConfig)
    (st : State) (baseSize : Q) :
  calculateVolatilityAdjustedSize cfg baseSize (metricsCurrent st)
  == baseSize * positionSizeFactor (fst (getAction cfg st)).
Proof.
  unfold calculateVolatilityAdjustedSize, getAction.
  destruct (enabled cfg); cbn [negb]; [|cbn; ring].
  cbv zeta.
  destruct (Num.gtb (metricsCurrent st * 100) (pauseThresholdPercent cfg));
    [cbn; ring|].
  destruct (Num.gtb (metricsCurrent st * 100) (reduceThresholdPercent cfg));
    cbn [fst positionSizeFactor]; [reflexivity|ring].
Qed.

End VolatilityMore.

(** ** Spread controller *)

Section SpreadMore.

Import SpreadController.

(** The total spread of [calculateOptimalSpread], for limits in order,
    lies between the minimum and the maximum spread, is the sum of the
    bid and ask halves, and is the newest entry of a history that never
    exceeds 100 entries.  When volatility, its multiplier and the base
    spread are not negative and the base spread is at most the maximum,
    the total also covers the 0.3% fees plus the minimum profit, unless
    the maximum spread is below that. *)
Theorem optimal_spread_within_limits (cfg : SpreadConfig) (st : State)
    (midPrice : Q) (conditions : MarketConditions) :
  minSpread cfg <= maxSpread cfg ->
  let result := fst (calculateOptimalSpread cfg st midPrice conditions) in
  let st1 := snd (calculateOptimalSpread cfg st midPrice conditions) in
  minSpread cfg <= totalSpread result
  /\ totalSpread result <= maxSpread cfg
  /\ bidSpread result + askSpread result == totalSpread result
  /\ last (spreadHistory st1) = Some (totalSpread result)
  /\ ((length (spreadHistory st) <= 100)%nat ->
      (length (spreadHistory st1) <= 100)%nat)
  /\ (0 <= volatility conditions -> 0 <= volatilityMultiplier cfg ->
      0 <= baseSpread cfg -> baseSpread cfg <= maxSpread cfg ->
      0.003 + minProfitBps cfg / 10000 <= maxSpread cfg ->
      0.003 + minProfitBps cfg / 10000 <= totalSpread result).
Proof.
  intros Hlim. cbv zeta. unfold calculateOptimalSpread. cbv zeta.
  pose proof (asymmetric_spread_keeps_total
                (Num.max (minSpread cfg)
                   (Num.min
                      (baseSpread cfg
                       + calculateVolatilityAdjustment cfg
                           (volatility conditions)
                       + ensureMinimumProfit cfg) (maxSpread cfg)))
                (calculateInventoryAdjustment cfg
                   (inventoryRatio conditions))
                (inventoryRatio conditions)) as Hsum.
  destruct (calculateAsymmetricSpread _ _ _) as [bid ask].
  cbn [fst snd totalSpread bidSpread askSpread spreadHistory].
  set (inner := baseSpread cfg
                + calculateVolatilityAdjustment cfg (volatility conditions)
                + ensureMinimumProfit cfg) in *.
  assert (Htot : minSpread cfg
                 <= Num.max (minSpread cfg) (Num.min inner (maxSpread cfg))
                 /\ Num.max (minSpread cfg) (Num.min inner (maxSpread cfg))
                    <= maxSpread cfg
                 /\ Num.min inner (maxSpread cfg)
                    <= Num.max (minSpread cfg)
                               (Num.min inner (maxSpread cfg))).
  { destruct (min_spec inner (maxSpread cfg)) as [[H1 ->]|[H1 ->]];
      [destruct (max_spec (minSpread cfg) inner) as [[H2 ->]|[H2 ->]]
      |destruct (max_spec (minSpread cfg) (maxSpread cfg))
         as [[H2 ->]|[H2 ->]]];
      repeat split; lra. }
  destruct Htot as (T1 & T2 & T3).
  set (total := Num.max (minSpread cfg) (Num.min inner (maxSpread cfg)))
    in *.
  split; [exact T1|]. split; [exact T2|]. split; [exact Hsum|].
  split; [|split].
  - destruct (Nat.ltb_spec 100 (length (spreadHistory st ++ [total])))
      as [Hfull|Hroom].
    + destruct (spreadHistory st) as [|x t]; [cbn in Hfull; lia|].
      cbn [app tail]. apply last_snoc.
    + apply last_snoc.
  - intros Hlen. rewrite length_app. cbn [length].
    destruct (Nat.ltb_spec 100 (length (spreadHistory st) + 1)).
    + destruct (spreadHistory st ++ [total]) eqn:E; cbn [tail length];
        [lia|].
      apply (f_equal (@length Q)) in E. rewrite length_app in E.
      cbn [length] in E. lia.
    + rewrite length_app. cbn [length]. lia.
  - intros Hv Hm Hb Hbm Hfee.
    assert (Hadj : 0 <= calculateVolatilityAdjustment cfg
                          (volatility conditions)).
    { unfold calculateVolatilityAdjustment. cbv zeta.
      assert (0 <= volatility conditions * volatilityMultiplier cfg
                   * baseSpread cfg)
        by (repeat apply Qmult_le_0_compat; assumption).
      destruct (min_spec (volatility conditions * volatilityMultiplier cfg
                          * baseSpread cfg)
                         (maxSpread cfg - baseSpread cfg))
        as [[_ ->]|[_ ->]]; lra. }
    assert (Hin : 0.003 + minProfitBps cfg / 10000 <= inner).
    { subst inner. unfold ensureMinimumProfit. cbv zeta.
      destruct (Num.ltb (baseSpread cfg)
                        (0.003 + minProfitBps cfg / 10000)) eqn:El.
      - set (f := minProfitBps cfg / 10000) in *. lra.
      - apply ltb_ge in El.
        set (f := minProfitBps cfg / 10000) in *. lra. }
    set (f := minProfitBps cfg / 10000) in *.
    destruct (min_spec inner (maxSpread cfg)) as [[H1 E]|[H1 E]];
      rewrite E in T3; lra.
Qed.

Lemma optimal_spread_within_limits_witness :
  0.005 <= totalSpread
             (fst (calculateOptimalSpread Scenario.spreadCfg
                     Scenario.freshController 100
                     {| volatility := 0.2; inventoryRatio := 0.8;
                        recentFills := 0; competitionSpread := 0 |})).
Proof.
  destruct (optimal_spread_within_limits Scenario.spreadCfg
              Scenario.freshController 100
              {| volatility := 0.2; inventoryRatio := 0.8;
                 recentFills := 0; competitionSpread := 0 |})
    as [H _]; [discriminate|exact H].
Defined.

(** Adapting the spread to the fill rate, from a current spread that is
    not negative and within the limits: the result stays within the
    limits and within 10% of the current spread; it is not narrower when
    fills run above 1.5 times the target and not wider when they run
    below half of a target that is not negative; and with adaptation
    switched off the spread is returned as it is. *)
Theorem fill_rate_adjustment_is_bounded (cfg : SpreadConfig)
    (currentSpread recentFillCount targetFillRate : Q) :
  0 <= currentSpread -> minSpread cfg <= currentSpread ->
  currentSpread <= maxSpread cfg ->
  let adjusted :=
    adjustSpreadByFillRate cfg currentSpread recentFillCount
                           targetFillRate in
  minSpread cfg <= adjusted /\ adjusted <= maxSpread cfg
  /\ currentSpread * 0.9 <= adjusted /\ adjusted <= currentSpread * 1.1
  /\ (targetFillRate * 1.5 < recentFillCount -> currentSpread <= adjusted)
  /\ (0 <= targetFillRate -> recentFillCount < targetFillRate * 0.5 ->
      adjusted <= currentSpread)
  /\ (adaptiveEnabled cfg = false -> adjusted = currentSpread).
Proof.
  intros H0 Hlo Hhi. cbv zeta. unfold adjustSpreadByFillRate.
  destruct (adaptiveEnabled cfg); cbn [negb];
    [|repeat split; intros; try reflexivity; lra].
  destruct (Num.gtb recentFillCount (targetFillRate * 1.5)) eqn:Eg.
  - apply gtb_gt in Eg.
    destruct (min_spec (currentSpread * 1.1) (maxSpread cfg))
      as [[H1 ->]|[H1 ->]];
      repeat split; intros; try discriminate; lra.
  - apply ltb_ge in Eg.
    destruct (Num.ltb recentFillCount (targetFillRate * 0.5)) eqn:El.
    + apply ltb_lt in El.
      destruct (max_spec (currentSpread * 0.9) (minSpread cfg))
        as [[H1 ->]|[H1 ->]];
        repeat split; intros; try discriminate; lra.
    + apply ltb_ge in El.
      repeat split; intros; try discriminate; lra.
Qed.

Lemma fill_rate_adjustment_is_bounded_witness :
  adjustSpreadByFillRate Scenario.spreadCfg 0.01 20 10 <= 0.05.
Proof.
  destruct (fill_rate_adjustment_is_bounded Scenario.spreadCfg 0.01 20 10)
    as (_ & H & _); [discriminate|discriminate|discriminate|exact H].
Defined.

End SpreadMore.
